(** * CG14 frame buffer (hw/sparc/cg14.c): a shallow embedding and its properties

    The device state [CG14State], the register and video-memory access
    handlers, the ADV7152 DAC register file and the 32-bit line renderer are
    transcribed from the C source.  C integers are mathematical integers
    with the conversions of the C types written out; arrays and the video
    memory are lists, and an access outside an array is an error ([None]). *)

From Stdlib Require Import ZArith Lia Bool.
From stdpp Require Import base option list gmap.
From coqutil Require Import Z.bitblast.

Local Open Scope Z_scope.

(** ** C integer types *)

(** Conversion to [uint8_t], [uint16_t], [uint32_t] and [uint64_t]. *)
Definition u8 (x : Z) : Z := x mod 2 ^ 8.
Definition u16 (x : Z) : Z := x mod 2 ^ 16.
Definition u32 (x : Z) : Z := x mod 2 ^ 32.
Definition u64 (x : Z) : Z := x mod 2 ^ 64.

(** Conversion to [int].  Signed overflow is undefined in C; the usual
    two's complement wrap-around is written out here, and the theorems that
    depend on an [int] product assume that it does not overflow. *)
Definition s32 (x : Z) : Z := (x + 2 ^ 31) mod 2 ^ 32 - 2 ^ 31.

Definition INT_MAX : Z := 2 ^ 31 - 1.

(** The C operator [!]. *)
Definition c_not (x : Z) : Z := if x =? 0 then 1 else 0.

(** ** Arrays *)

(** [a[i]] as an rvalue and [a[i] = v]; outside the array both are errors. *)
Definition array_get (a : list Z) (i : Z) : option Z :=
  if decide (0 <= i) then a !! Z.to_nat i else None.

Definition array_set (a : list Z) (i v : Z) : option (list Z) :=
  if decide (0 <= i < Z.of_nat (length a))
  then Some (<[Z.to_nat i := v]> a) else None.

(** ** Constants of the source *)

Definition CG14_MONID_1024x768 : Z := 0.
Definition CG14_MONID_DEFAULT : Z := CG14_MONID_1024x768.

Definition MCR_PIXMODE_MASK : Z := 0x30.
Definition MCR_PIXMODE_8 : Z := 0x00.
Definition MCR_PIXMODE_16 : Z := 0x20.
Definition MCR_PIXMODE_32 : Z := 0x30.

(** ** Device state *)

Record ADV7152_state : Type := mkADV7152 {
  mode : Z;      (* uint8_t *)
  address : Z;   (* uint8_t *)
  rgb_seq : Z    (* int *)
}.

Record ctrl_regs : Type := mkCtrl {
  mcr : Z;       (* uint8_t *)
  ppr : Z        (* uint8_t *)
}.

Record timing_regs : Type := mkTiming {
  hblank_start : Z;   (* uint16_t *)
  hblank_clear : Z;
  vblank_start : Z;
  vblank_clear : Z
}.

Record CG14State : Type := mkCG14 {
  vram : list Z;        (* uint8_t *vram, one byte per element *)
  vram_amask : Z;       (* uint32_t *)
  width : Z;            (* int *)
  height : Z;
  dirty : Z;
  size_changed : Z;
  ctrl : ctrl_regs;
  dac : ADV7152_state;
  timing : timing_regs;
  xlut : list Z;        (* uint8_t xlut[256] *)
  clut1 : list Z;       (* uint32_t clut1[256] *)
  clut2 : list Z        (* uint32_t clut2[256] *)
}.

(** Assignments to the fields of the state. *)
Definition set_vram (v : list Z) (s : CG14State) : CG14State :=
  mkCG14 v (vram_amask s) (width s) (height s) (dirty s) (size_changed s)
         (ctrl s) (dac s) (timing s) (xlut s) (clut1 s) (clut2 s).

Definition set_geometry (w h : Z) (s : CG14State) : CG14State :=
  mkCG14 (vram s) (vram_amask s) w h (dirty s) (size_changed s)
         (ctrl s) (dac s) (timing s) (xlut s) (clut1 s) (clut2 s).

Definition set_dirty (d : Z) (s : CG14State) : CG14State :=
  mkCG14 (vram s) (vram_amask s) (width s) (height s) d (size_changed s)
         (ctrl s) (dac s) (timing s) (xlut s) (clut1 s) (clut2 s).

Definition set_size_changed (c : Z) (s : CG14State) : CG14State :=
  mkCG14 (vram s) (vram_amask s) (width s) (height s) (dirty s) c
         (ctrl s) (dac s) (timing s) (xlut s) (clut1 s) (clut2 s).

Definition set_ctrl (c : ctrl_regs) (s : CG14State) : CG14State :=
  mkCG14 (vram s) (vram_amask s) (width s) (height s) (dirty s) (size_changed s)
         c (dac s) (timing s) (xlut s) (clut1 s) (clut2 s).

Definition set_dac (d : ADV7152_state) (s : CG14State) : CG14State :=
  mkCG14 (vram s) (vram_amask s) (width s) (height s) (dirty s) (size_changed s)
         (ctrl s) d (timing s) (xlut s) (clut1 s) (clut2 s).

Definition set_timing (t : timing_regs) (s : CG14State) : CG14State :=
  mkCG14 (vram s) (vram_amask s) (width s) (height s) (dirty s) (size_changed s)
         (ctrl s) (dac s) t (xlut s) (clut1 s) (clut2 s).

Definition set_xlut (x : list Z) (s : CG14State) : CG14State :=
  mkCG14 (vram s) (vram_amask s) (width s) (height s) (dirty s) (size_changed s)
         (ctrl s) (dac s) (timing s) x (clut1 s) (clut2 s).

Definition set_clut1 (c : list Z) (s : CG14State) : CG14State :=
  mkCG14 (vram s) (vram_amask s) (width s) (height s) (dirty s) (size_changed s)
         (ctrl s) (dac s) (timing s) (xlut s) c (clut2 s).

Definition set_clut2 (c : list Z) (s : CG14State) : CG14State :=
  mkCG14 (vram s) (vram_amask s) (width s) (height s) (dirty s) (size_changed s)
         (ctrl s) (dac s) (timing s) (xlut s) (clut1 s) c.

(** ** ADV7152 DAC *)

(** [ADV7152_write].  In the mode register case the source tests
    [!val & 0x01], which C parses as [(!val) & 0x01]. *)
Definition ADV7152_write (s : ADV7152_state) (reg val : Z) : ADV7152_state :=
  if reg =? 0 then
    mkADV7152 (mode s) (u8 val) 0
  else if reg =? 1 then
    mkADV7152 (mode s) (address s) (s32 (rgb_seq s + 1))
  else if reg =? 2 then
    s
  else if reg =? 3 then
    let seq := if Z.land (c_not val) 0x01 =? 0 then rgb_seq s else 0 in
    mkADV7152 (u8 val) (address s) seq
  else s.

(** ** Control registers: byte access *)

Definition cg14_reg_readb (s : CG14State) (addr : Z) : Z :=
  let a := Z.land addr 0xffff in
  if a =? 0x0000 then mcr (ctrl s)
  else if a =? 0x0001 then ppr (ctrl s)
  else if a =? 0x0004 then Z.shiftl CG14_MONID_DEFAULT 1
  else if a =? 0x0006 then 0x30
  else 0.

Definition cg14_reg_writeb (s : CG14State) (addr val : Z) : option CG14State :=
  if Z.land addr 0xfcff =? 0x2000 then
    let i := u32 (Z.shiftr (Z.land addr 0x300) 8) in
    Some (set_dac (ADV7152_write (dac s) i val) s)
  else if Z.land addr 0xff00 =? 0x3000 then
    let i := u32 (Z.land addr 0xff) in
    old ← array_get (xlut s) i;
    if old =? val then Some s
    else
      x' ← array_set (xlut s) i (u8 val);
      Some (set_xlut x' (set_dirty 1 s))
  else
    let s1 := set_dirty 1 s in
    let a := Z.land addr 0xffff in
    if a =? 0x0000 then Some (set_ctrl (mkCtrl (u8 val) (ppr (ctrl s1))) s1)
    else if a =? 0x0001 then
      Some (set_ctrl (mkCtrl (mcr (ctrl s1)) (u8 (Z.land val 0xF0))) s1)
    else if a =? 0x0007 then Some s1
    else Some s1.

(** ** Control registers: halfword access (timing) *)

Definition cg14_reg_readw (s : CG14State) (addr : Z) : Z :=
  let a := Z.land addr 0xffff in
  if a =? 0x0018 then hblank_start (timing s)
  else if a =? 0x001a then hblank_clear (timing s)
  else if a =? 0x0022 then vblank_start (timing s)
  else if a =? 0x0024 then vblank_clear (timing s)
  else 0.

Definition cg14_reg_writew (s : CG14State) (addr val : Z) : CG14State :=
  let a := Z.land addr 0xffff in
  let t := timing s in
  if a =? 0x0018 then
    set_timing (mkTiming (u16 val) (hblank_clear t) (vblank_start t) (vblank_clear t)) s
  else if a =? 0x001a then
    set_size_changed 1
      (set_timing (mkTiming (hblank_start t) (u16 val) (vblank_start t) (vblank_clear t)) s)
  else if a =? 0x0022 then
    set_timing (mkTiming (hblank_start t) (hblank_clear t) (u16 val) (vblank_clear t)) s
  else if a =? 0x0024 then
    set_size_changed 1
      (set_timing (mkTiming (hblank_start t) (hblank_clear t) (vblank_start t) (u16 val)) s)
  else s.

(** ** Control registers: word access (colour look-up tables) *)

Definition cg14_reg_readl (s : CG14State) (addr : Z) : option Z :=
  let i := u32 (Z.shiftr (Z.land addr 0x3ff) 2) in
  let a := Z.land addr 0xfc00 in
  if a =? 0x4000 then array_get (clut1 s) i
  else if a =? 0x5000 then array_get (clut2 s) i
  else Some 0.

Definition cg14_reg_writel (s : CG14State) (addr val : Z) : option CG14State :=
  let s1 := set_dirty 1 s in
  let i := u32 (Z.shiftr (Z.land addr 0x3ff) 2) in
  let a := Z.land addr 0xfc00 in
  if a =? 0x4000 then
    c ← array_set (clut1 s1) i (u32 val); Some (set_clut1 c s1)
  else if a =? 0x5000 then
    c ← array_set (clut2 s1) i (u32 val); Some (set_clut2 c s1)
  else Some s1.

(** ** Video memory *)

(** Modelled from the spec: the byte accessors [ldub_p] and [stb_p] and the
    big-endian word accessors [ldl_be_p] and [stl_be_p] of the emulation
    platform are not part of the source file.  Byte accesses read and write
    one byte of the store at the given offset; "word-sized accesses to
    window 0 use big-endian byte order for the 4-byte value".  An access
    that leaves the buffer is an error. *)
Definition ldub_p (m : list Z) (off : Z) : option Z := array_get m off.

Definition stb_p (m : list Z) (off v : Z) : option (list Z) :=
  array_set m off (u8 v).

Definition ldl_be_p (m : list Z) (off : Z) : option Z :=
  b0 ← array_get m off;
  b1 ← array_get m (off + 1);
  b2 ← array_get m (off + 2);
  b3 ← array_get m (off + 3);
  Some (Z.lor (Z.shiftl b0 24) (Z.lor (Z.shiftl b1 16) (Z.lor (Z.shiftl b2 8) b3))).

Definition stl_be_p (m : list Z) (off v : Z) : option (list Z) :=
  m0 ← array_set m off (u8 (Z.shiftr v 24));
  m1 ← array_set m0 (off + 1) (u8 (Z.shiftr v 16));
  m2 ← array_set m1 (off + 2) (u8 (Z.shiftr v 8));
  array_set m2 (off + 3) (u8 v).

(** The test [offset < 4 * s->width * s->height]: the product is computed
    in [int] and converted to [uint32_t] for the comparison. *)
Definition visible_bytes (s : CG14State) : Z :=
  u32 (s32 (s32 (4 * width s) * height s)).

Definition cg14_vram_readb (s : CG14State) (addr : Z) : option Z :=
  let w := Z.land addr 0x3000000 in
  if w =? 0x0000000 then
    let offset := u32 (Z.land addr (vram_amask s)) in
    ldub_p (vram s) offset
  else if w =? 0x1000000 then
    Some 0
  else if w =? 0x2000000 then
    let offset := u32 (Z.land (u64 (Z.shiftl addr 1)) (vram_amask s)
                       + Z.land (Z.shiftr addr 23) 1) in
    ldub_p (vram s) offset
  else if w =? 0x3000000 then
    let offset := u32 (Z.land (u64 (Z.shiftl addr 2)) (vram_amask s)
                       + Z.land (Z.shiftr addr 22) 3) in
    ldub_p (vram s) offset
  else Some 0.

Definition cg14_vram_writeb (s : CG14State) (addr val : Z) : option CG14State :=
  let w := Z.land addr 0x3000000 in
  if w =? 0x0000000 then
    let offset := u32 (Z.land addr (vram_amask s)) in
    m ← stb_p (vram s) offset val;
    let s1 := set_vram m s in
    if offset <? visible_bytes s1 then Some (set_dirty 1 s1) else Some s1
  else Some s.

Definition cg14_vram_readw (s : CG14State) (addr : Z) : Z := 0.

Definition cg14_vram_writew (s : CG14State) (addr val : Z) : CG14State :=
  set_dirty 1 s.

Definition cg14_vram_readl (s : CG14State) (addr : Z) : option Z :=
  let w := Z.land addr 0x3000000 in
  if w =? 0x0000000 then
    let offset := u32 (Z.land addr (vram_amask s)) in
    ldl_be_p (vram s) offset
  else Some 0.

Definition cg14_vram_writel (s : CG14State) (addr val : Z) : option CG14State :=
  let w := Z.land addr 0x3000000 in
  if w =? 0x0000000 then
    let offset := u32 (Z.land addr (vram_amask s)) in
    m ← stl_be_p (vram s) offset val;
    let s1 := set_vram m s in
    if offset <? visible_bytes s1 then Some (set_dirty 1 s1) else Some s1
  else Some s.

(** ** Host display *)

(** Modelled from the spec: the host surface is an external collaborator
    with the contract "resize(width, height), presentRegion(x, y, w, h), and
    queries for pixelDepth and isBlueFirstChannelOrder".  The queries are
    fields; the two requests are recorded, in order, in [ds_calls];
    [ds_data] holds the 32-bit words stored through the pointer returned by
    [ds_get_data], keyed by their byte offset from it. *)
Inductive ds_call : Type :=
  | ConsoleResize (w h : Z)
  | DpyUpdate (x y w h : Z).

Record DisplayState : Type := mkDS {
  ds_bits_per_pixel : Z;
  ds_linesize : Z;
  is_surface_bgr : Z;
  ds_data : gmap Z Z;
  ds_calls : list ds_call
}.

Definition qemu_console_resize (ds : DisplayState) (w h : Z) : DisplayState :=
  mkDS (ds_bits_per_pixel ds) (ds_linesize ds) (is_surface_bgr ds)
       (ds_data ds) (ds_calls ds ++ [ConsoleResize w h]).

Definition dpy_update (ds : DisplayState) (x y w h : Z) : DisplayState :=
  mkDS (ds_bits_per_pixel ds) (ds_linesize ds) (is_surface_bgr ds)
       (ds_data ds) (ds_calls ds ++ [DpyUpdate x y w h]).

Definition set_ds_data (d : gmap Z Z) (ds : DisplayState) : DisplayState :=
  mkDS (ds_bits_per_pixel ds) (ds_linesize ds) (is_surface_bgr ds)
       d (ds_calls ds).

(** ** Rendering *)

Definition bgr_to_rgb (bgr : Z) : Z :=
  u32 (Z.lor (Z.lor (Z.land bgr 0x00FF00)
                    (Z.shiftl (Z.land bgr 0x0000FF) 16))
             (Z.shiftr (Z.land bgr 0xFF0000) 16)).

(** The conversion "to surface format" of [cg14_draw_line32]:
    [is_bgr ? (abgr & 0xFFFFFF) : bgr_to_rgb(abgr)]. *)
Definition to_surface (is_bgr abgr : Z) : Z :=
  if is_bgr =? 0 then bgr_to_rgb abgr else Z.land abgr 0xFFFFFF.

(** One iteration of the loop of [cg14_draw_line32], up to the computation
    of [abgr]: the source pointer and [xlut_val] are carried from one pixel
    to the next.  The result is the advanced pointer, [xlut_val], and
    [abgr]. *)
Definition cg14_pixel_abgr (s : CG14State) (pixmode src xlut_val : Z)
  : option (Z * Z * Z) :=
  x ← ldub_p (vram s) src;
  '(src1, b, xlut_val1) ←
     (if pixmode =? 8 then Some (src + 1, x, xlut_val)
      else b ← ldub_p (vram s) (src + 1);
           xv ← array_get (xlut s) x;
           Some (src + 2, b, xv));
  '(src2, g, r) ←
     (if negb (pixmode =? 32) then Some (src1, b, b)
      else g ← ldub_p (vram s) src1;
           r ← ldub_p (vram s) (src1 + 1);
           Some (src1 + 2, g, r));
  abgr ←
     (if xlut_val1 =? 0 then
        Some (u32 (Z.lor (Z.lor (Z.shiftl b 16) (Z.shiftl g 8)) r))
      else if xlut_val1 =? 0x40 then array_get (clut1 s) x
      else Some 0);
  Some (src2, xlut_val1, abgr).

(** The loop of [cg14_draw_line32], for [n] more pixels from index [i]. *)
Fixpoint draw_line32_loop (s : CG14State) (dst pixmode is_bgr : Z)
    (n : nat) (i src xlut_val : Z) (fb : gmap Z Z) : option (gmap Z Z) :=
  match n with
  | O => Some fb
  | S n' =>
      '(src', xlut_val', abgr) ← cg14_pixel_abgr s pixmode src xlut_val;
      let dval := to_surface is_bgr abgr in
      draw_line32_loop s dst pixmode is_bgr n' (i + 1) src' xlut_val'
                       (<[dst + 4 * i := dval]> fb)
  end.

Definition cg14_draw_line32 (s : CG14State) (fb : gmap Z Z)
    (dst src pixmode is_bgr : Z) : option (gmap Z Z) :=
  draw_line32_loop s dst pixmode is_bgr (Z.to_nat (width s)) 0 src
                   (ppr (ctrl s)) fb.

(** The loop over the scan lines of [cg14_update_display]. *)
Fixpoint draw_lines (s : CG14State) (ds : DisplayState) (pixmode : Z)
    (n : nat) (pix data : Z) (fb : gmap Z Z) : option (gmap Z Z) :=
  match n with
  | O => Some fb
  | S n' =>
      fb' ← cg14_draw_line32 s fb data pix pixmode (is_surface_bgr ds);
      draw_lines s ds pixmode n' (pix + s32 (width s * (pixmode / 8)))
                 (data + ds_linesize ds) fb'
  end.

Definition cg14_update_display (s : CG14State) (ds : DisplayState)
  : option (CG14State * DisplayState) :=
  let '(s, ds) :=
    if size_changed s =? 0 then (s, ds)
    else
      let new_width :=
        s32 (4 * s32 (hblank_start (timing s) - hblank_clear (timing s))) in
      let new_height :=
        s32 (vblank_start (timing s) - vblank_clear (timing s)) in
      let s := set_size_changed 0 s in
      if (negb (new_width =? width s) || negb (new_height =? height s))
         && (0 <? new_width) && (0 <? new_height)
      then
        let s := set_geometry new_width new_height s in
        let ds := qemu_console_resize ds (width s) (height s) in
        (set_dirty 1 s, ds)
      else (s, ds) in
  if (dirty s =? 0) || (width s =? 0) || (height s =? 0) then Some (s, ds)
  else if negb (ds_bits_per_pixel ds =? 32) then Some (s, ds)
  else
    let m := Z.land (mcr (ctrl s)) MCR_PIXMODE_MASK in
    let pixmode :=
      if m =? MCR_PIXMODE_32 then 32
      else if m =? MCR_PIXMODE_16 then 16
      else 8 in
    fb ← draw_lines s ds pixmode (Z.to_nat (height s)) 0 0 (ds_data ds);
    let ds := dpy_update (set_ds_data fb ds) 0 0 (width s) (height s) in
    Some (set_dirty 0 s, ds).

Definition cg14_invalidate_display (s : CG14State) : CG14State :=
  set_dirty 1 s.

(** ** Device creation *)

(** [cg14_init]: the state is zero-filled by [qemu_mallocz], the address
    mask is [vram_size - 1] and the geometry starts at 640 x 480.  The video
    RAM block is taken zero-filled. *)
Definition cg14_init (vram_size : Z) : CG14State :=
  mkCG14 (replicate (Z.to_nat vram_size) 0) (u32 (vram_size - 1))
         640 480 0 0 (mkCtrl 0 0) (mkADV7152 0 0 0) (mkTiming 0 0 0 0)
         (replicate 256 0) (replicate 256 0) (replicate 256 0).

(** ** Notions used in the statements *)

(** The offsets that no byte handler recognises: neither the DAC pattern,
    nor the XLUT pattern, nor one of the listed register offsets. *)
Definition unknown_reg_offset (addr : Z) : Prop :=
  Z.land addr 0xfcff <> 0x2000 /\
  Z.land addr 0xff00 <> 0x3000 /\
  Z.land addr 0xffff <> 0x0000 /\
  Z.land addr 0xffff <> 0x0001 /\
  Z.land addr 0xffff <> 0x0004 /\
  Z.land addr 0xffff <> 0x0006 /\
  Z.land addr 0xffff <> 0x0007.

(** The tables have the 256 entries of their declarations. *)
Definition wf_tables (s : CG14State) : Prop :=
  length (xlut s) = 256%nat /\
  length (clut1 s) = 256%nat /\
  length (clut2 s) = 256%nat.

(** A colour word from its three bytes, the first one in bits 23..16. *)
Definition compose (hi mid lo : Z) : Z :=
  Z.lor (Z.lor (Z.shiftl hi 16) (Z.shiftl mid 8)) lo.

Definition byte_of (k x : Z) : Z := Z.land (Z.shiftr x (8 * k)) 0xff.

(** The storage offset of window 2, as the specification writes it. *)
Definition window2_offset (amask a : Z) : Z :=
  Z.land (Z.shiftl a 1) amask + Z.land (Z.shiftr a 23) 1.

(** Every element of a byte buffer is a byte. *)
Definition bytes_ok (m : list Z) : Prop :=
  Forall (fun b => 0 <= b < 2 ^ 8) m.

(** The video memory holds [2 ^ k] bytes and [vram_amask] is its size
    minus one, as [cg14_init] sets them up. *)
Definition wf_vram (s : CG14State) : Prop :=
  exists k, 0 <= k < 32 /\
    vram_amask s = 2 ^ k - 1 /\
    Z.of_nat (length (vram s)) = 2 ^ k /\
    bytes_ok (vram s).

(** The [int] product [4 * width * height] does not overflow. *)
Definition geometry_fits (s : CG14State) : Prop :=
  0 <= width s /\ 0 <= height s /\
  4 * width s <= INT_MAX /\ 4 * width s * height s <= INT_MAX.

(** A device with 16 bytes of video memory and a visible area of
    [4 * 1 * 2 = 8] bytes. *)
Definition small_device : CG14State := set_geometry 1 2 (cg14_init 16).

(** The first step of a refresh as the specification describes it: if
    [size_changed] is set, recompute the geometry from the timing
    registers, adopt it and ask the host to resize when it differs and is
    positive, and clear [size_changed]. *)
Definition resize_check (s : CG14State) (ds : DisplayState)
  : CG14State * DisplayState :=
  if size_changed s =? 0 then (s, ds)
  else
    let new_width :=
      s32 (4 * s32 (hblank_start (timing s) - hblank_clear (timing s))) in
    let new_height :=
      s32 (vblank_start (timing s) - vblank_clear (timing s)) in
    if (negb (new_width =? width s) || negb (new_height =? height s))
       && (0 <? new_width) && (0 <? new_height)
    then (set_dirty 1 (set_geometry new_width new_height (set_size_changed 0 s)),
          qemu_console_resize ds new_width new_height)
    else (set_size_changed 0 s, ds).

(** The requests to present a region among the calls made to the host. *)
Definition is_dpy_update (c : ds_call) : bool :=
  match c with DpyUpdate _ _ _ _ => true | ConsoleResize _ _ => false end.

Definition presented (calls : list ds_call) : list ds_call :=
  filter (fun c => is_dpy_update c = true) calls.

(** Source bytes consumed per pixel by [cg14_draw_line32]. *)
Definition bytes_per_pixel (pixmode : Z) : Z :=
  if pixmode =? 8 then 1 else if pixmode =? 32 then 4 else 2.

(** The palette selection rule as the specification states it: direct
    colour for the selector 0, [clut1[index]] for 0x40, zero otherwise. *)
Definition palette_rule (s : CG14State) (sel index blue green red : Z)
  : option Z :=
  if sel =? 0 then Some (compose blue green red)
  else if sel =? 0x40 then array_get (clut1 s) index
  else Some 0.

(** The XLUT value selected for a pixel whose first consumed byte is
    [index]: the packing-ratio register in 8-bit mode, [xlut[index]] in the
    other modes. *)
Definition selected_xlut (s : CG14State) (pixmode index : Z) : option Z :=
  if pixmode =? 8 then Some (ppr (ctrl s)) else array_get (xlut s) index.

(** The colour of the pixel stored at offset [p], following the
    specification: in 8-bit mode the byte is index and blue at once, in
    the other modes blue is the second byte; green and red are blue except
    in 32-bit mode, where they are the third and fourth bytes. *)
Definition pixel_colour (s : CG14State) (pixmode p : Z) : option Z :=
  index ← ldub_p (vram s) p;
  sel ← selected_xlut s pixmode index;
  blue ← (if pixmode =? 8 then Some index else ldub_p (vram s) (p + 1));
  green ← (if pixmode =? 32 then ldub_p (vram s) (p + 2) else Some blue);
  red ← (if pixmode =? 32 then ldub_p (vram s) (p + 3) else Some blue);
  palette_rule s sel index blue green red.

(** The instances of the pixel rule in 8-bit mode are stated on a device
    showing one pixel whose source byte is [x], with the packing-ratio
    register at [sel]. *)
Definition one_pixel_8bit (s : CG14State) (x sel : Z) : CG14State :=
  set_geometry 1 1 (set_vram [x] (set_ctrl (mkCtrl (mcr (ctrl s)) sel) s)).

(** A device showing a line of two 16-bit pixels. *)
Definition two_pixel_line : CG14State :=
  set_geometry 2 1 (set_vram [0x80; 5; 0; 7] (cg14_init 4)).

(** ** Notions used in the further properties *)

(** The storage offset of window 3: four-way interleave. *)
Definition window3_offset (amask a : Z) : Z :=
  Z.land (Z.shiftl a 2) amask + Z.land (Z.shiftr a 22) 3.

(** The halfword offsets of the four timing registers. *)
Definition timing_offset (off : Z) : Prop :=
  off = 0x0018 \/ off = 0x001a \/ off = 0x0022 \/ off = 0x0024.

(** The pixel mode selected by the mode control register, as the switch of
    [cg14_update_display] decodes it. *)
Definition pixmode_of_mcr (m : Z) : Z :=
  if Z.land m MCR_PIXMODE_MASK =? MCR_PIXMODE_32 then 32
  else if Z.land m MCR_PIXMODE_MASK =? MCR_PIXMODE_16 then 16
  else 8.

(** The second half of [cg14_update_display], from the test of the dirty
    flag on. *)
Definition render_phase (s : CG14State) (ds : DisplayState)
  : option (CG14State * DisplayState) :=
  if (dirty s =? 0) || (width s =? 0) || (height s =? 0) then Some (s, ds)
  else if negb (ds_bits_per_pixel ds =? 32) then Some (s, ds)
  else
    fb ← draw_lines s ds (pixmode_of_mcr (mcr (ctrl s)))
                    (Z.to_nat (height s)) 0 0 (ds_data ds);
    Some (set_dirty 0 s,
          dpy_update (set_ds_data fb ds) 0 0 (width s) (height s)).

(** The geometry that the timing registers describe. *)
Definition timing_width (s : CG14State) : Z :=
  4 * (hblank_start (timing s) - hblank_clear (timing s)).

Definition timing_height (s : CG14State) : Z :=
  vblank_start (timing s) - vblank_clear (timing s).

(** The requests to resize among the calls made to the host. *)
Definition resizes (calls : list ds_call) : list ds_call :=
  filter (fun c => is_dpy_update c = false) calls.

(** The accesses that change the device: the write handlers registered for
    the control and video-memory regions, by access size, and the two
    display callbacks. *)
Inductive cg14_access : Type :=
  | RegWriteB (addr val : Z)
  | RegWriteW (addr val : Z)
  | RegWriteL (addr val : Z)
  | VramWriteB (addr val : Z)
  | VramWriteW (addr val : Z)
  | VramWriteL (addr val : Z)
  | UpdateDisplay
  | InvalidateDisplay.

Definition cg14_step (a : cg14_access) (c : CG14State * DisplayState)
  : option (CG14State * DisplayState) :=
  match a with
  | RegWriteB addr val => s' ← cg14_reg_writeb c.1 addr val; Some (s', c.2)
  | RegWriteW addr val => Some (cg14_reg_writew c.1 addr val, c.2)
  | RegWriteL addr val => s' ← cg14_reg_writel c.1 addr val; Some (s', c.2)
  | VramWriteB addr val => s' ← cg14_vram_writeb c.1 addr val; Some (s', c.2)
  | VramWriteW addr val => Some (cg14_vram_writew c.1 addr val, c.2)
  | VramWriteL addr val => s' ← cg14_vram_writel c.1 addr val; Some (s', c.2)
  | UpdateDisplay => cg14_update_display c.1 c.2
  | InvalidateDisplay => Some (cg14_invalidate_display c.1, c.2)
  end.

(** The states reached from a device created with [2 ^ k] bytes of video
    memory by accesses that complete. *)
Inductive reachable (k : Z) : CG14State -> Prop :=
  | reachable_init : reachable k (cg14_init (2 ^ k))
  | reachable_step (a : cg14_access) (s s' : CG14State) (ds ds' : DisplayState) :
      reachable k s ->
      cg14_step a (s, ds) = Some (s', ds') ->
      reachable k s'.

(** The ranges of the C types of the fields, the sizes of the arrays, and
    what the handlers maintain: a packing-ratio register with a zero low
    nibble, flags that are 0 or 1, and a positive geometry. *)
Definition words_ok (m : list Z) : Prop :=
  Forall (fun w => 0 <= w < 2 ^ 32) m.

Definition wf_state (s : CG14State) : Prop :=
  wf_tables s /\ wf_vram s /\
  bytes_ok (xlut s) /\ words_ok (clut1 s) /\ words_ok (clut2 s) /\
  0 <= mcr (ctrl s) < 2 ^ 8 /\
  0 <= ppr (ctrl s) < 2 ^ 8 /\ Z.land (ppr (ctrl s)) 0x0F = 0 /\
  (0 <= hblank_start (timing s) < 2 ^ 16 /\
   0 <= hblank_clear (timing s) < 2 ^ 16 /\
   0 <= vblank_start (timing s) < 2 ^ 16 /\
   0 <= vblank_clear (timing s) < 2 ^ 16) /\
  (0 <= mode (dac s) < 2 ^ 8 /\ 0 <= address (dac s) < 2 ^ 8 /\
   - 2 ^ 31 <= rgb_seq (dac s) <= INT_MAX) /\
  (dirty s = 0 \/ dirty s = 1) /\
  (size_changed s = 0 \/ size_changed s = 1) /\
  0 < width s <= INT_MAX /\ 0 < height s <= INT_MAX.

(** The state after an address write to the DAC followed by look-up-table
    writes of the values [vals]. *)
Definition dac_triplet_writes (d : ADV7152_state) (a : Z) (vals : list Z)
  : ADV7152_state :=
  foldl (fun d v => ADV7152_write d 1 v) (ADV7152_write d 0 a) vals.

(** A device whose timing registers describe 640 x 480 and have just been
    written. *)
Definition retimed_device : CG14State :=
  set_size_changed 1
    (set_geometry 1024 768
       (set_timing (mkTiming 200 40 500 20) (cg14_init 16))).

(** A host surface of 32 bits per pixel with 16-byte lines, and a device
    showing 2 x 2 pixels of 16 bits out of 16 bytes of video memory. *)
Definition small_surface : DisplayState := mkDS 32 16 0 ∅ [].

Definition tiny_frame : CG14State :=
  set_dirty 1
    (set_ctrl (mkCtrl 0x20 0)
       (set_geometry 2 2
          (set_vram [1; 0x11; 2; 0x22; 3; 0x33; 4; 0x44; 0; 0; 0; 0; 0; 0; 0; 0]
             (cg14_init 16)))).

(** A device showing one 32-bit pixel of direct colour with blue 0x33,
    green 0x22 and red 0x11: the index byte is 0 and the XLUT is cleared. *)
Definition rgb_pixel_32bit (s : CG14State) : CG14State :=
  set_geometry 1 1
    (set_vram [0; 0x33; 0x22; 0x11] (set_xlut (replicate 256 0) s)).

(** * Properties *)

(** ** Integer conversions and masks *)

Lemma u8_small (x : Z) : 0 <= x < 2 ^ 8 -> u8 x = x.
Proof. intros H. unfold u8. by apply Z.mod_small. Qed.

Lemma u16_small (x : Z) : 0 <= x < 2 ^ 16 -> u16 x = x.
Proof. intros H. unfold u16. by apply Z.mod_small. Qed.

Lemma u32_small (x : Z) : 0 <= x < 2 ^ 32 -> u32 x = x.
Proof. intros H. unfold u32. by apply Z.mod_small. Qed.

Lemma s32_small (x : Z) : - 2 ^ 31 <= x <= INT_MAX -> s32 x = x.
Proof.
  unfold s32, INT_MAX. intros H.
  rewrite Z.mod_small; lia.
Qed.

Lemma testbit_above_range (m k i : Z) :
  0 <= m < 2 ^ k -> k <= i -> Z.testbit m i = false.
Proof.
  intros Hm Hi.
  destruct (Z.ltb_spec k 0) as [Hk|Hk].
  - rewrite (Z.pow_neg_r 2 k) in Hm; lia.
  - rewrite <- (Z.mod_small m (2 ^ k)) by done.
    apply Z.mod_pow2_bits_high. lia.
Qed.

(** Masking with a value below [2 ^ k] leaves a value below [2 ^ k]. *)
Lemma land_mod_pow2 (a m k : Z) :
  0 <= k -> 0 <= m < 2 ^ k -> Z.land a m mod 2 ^ k = Z.land a m.
Proof.
  intros Hk Hm. apply Z.bits_inj'. intros i Hi.
  destruct (Z.ltb_spec i k) as [Hlt|Hge].
  - by rewrite Z.mod_pow2_bits_low.
  - rewrite Z.mod_pow2_bits_high by lia.
    rewrite Z.land_spec, (testbit_above_range m k i) by done.
    by rewrite andb_false_r.
Qed.

Lemma land_range (a m k : Z) :
  0 <= k -> 0 <= m < 2 ^ k -> 0 <= Z.land a m < 2 ^ k.
Proof.
  intros Hk Hm. rewrite <- (land_mod_pow2 a m k) by done.
  apply Z.mod_pos_bound. lia.
Qed.

Lemma land_ones_range (a k : Z) : 0 <= k -> 0 <= Z.land a (2 ^ k - 1) < 2 ^ k.
Proof. intros Hk. apply land_range; [done | lia]. Qed.

(** A 16-bit pattern test only looks at the low 16 bits of the address. *)
Lemma land_low16 (a m : Z) :
  Z.land 0xffff m = m -> Z.land a m = Z.land (Z.land a 0xffff) m.
Proof. intros H. by rewrite <- Z.land_assoc, H. Qed.

(** ** Arrays *)

Lemma array_set_Some (a : list Z) (i v : Z) :
  0 <= i < Z.of_nat (length a) ->
  array_set a i v = Some (<[Z.to_nat i := v]> a).
Proof. intros H. unfold array_set. by rewrite decide_True. Qed.

Lemma array_set_inv (a a' : list Z) (i v : Z) :
  array_set a i v = Some a' ->
  0 <= i < Z.of_nat (length a) /\ a' = <[Z.to_nat i := v]> a.
Proof.
  unfold array_set. intros H. case_decide; by simplify_eq.
Qed.

Lemma array_get_insert_eq (a : list Z) (i v : Z) :
  0 <= i < Z.of_nat (length a) ->
  array_get (<[Z.to_nat i := v]> a) i = Some v.
Proof.
  intros H. unfold array_get. rewrite decide_True by lia.
  apply list_lookup_insert_eq. lia.
Qed.

Lemma array_get_insert_ne (a : list Z) (i j v : Z) :
  0 <= i -> 0 <= j -> i <> j ->
  array_get (<[Z.to_nat i := v]> a) j = array_get a j.
Proof.
  intros Hi Hj Hne. unfold array_get. rewrite !decide_True by lia.
  apply list_lookup_insert_ne. lia.
Qed.

Lemma array_get_is_Some (a : list Z) (i : Z) :
  0 <= i < Z.of_nat (length a) -> is_Some (array_get a i).
Proof.
  intros H. unfold array_get. rewrite decide_True by lia.
  apply lookup_lt_is_Some. lia.
Qed.

Lemma array_get_range (a : list Z) (i v : Z) :
  array_get a i = Some v -> 0 <= i < Z.of_nat (length a).
Proof.
  unfold array_get. intros H. case_decide; [|done].
  apply lookup_lt_Some in H. lia.
Qed.

(** ** The ADV7152 register file *)

(** What the mode register write of the source does: the sequence counter
    is reset when the whole written value is zero, not when its bit 0 is
    clear. *)
Lemma ADV7152_write_mode (s : ADV7152_state) (val : Z) :
  ADV7152_write s 3 val =
  mkADV7152 (u8 val) (address s) (if val =? 0 then 0 else rgb_seq s).
Proof.
  unfold ADV7152_write, c_not. simpl.
  by destruct (val =? 0).
Qed.

Lemma ADV7152_write_address (s : ADV7152_state) (val : Z) :
  ADV7152_write s 0 val = mkADV7152 (mode s) (u8 val) 0.
Proof. reflexivity. Qed.

Lemma ADV7152_write_lut (s : ADV7152_state) (val : Z) :
  rgb_seq s < INT_MAX -> - 2 ^ 31 <= rgb_seq s ->
  ADV7152_write s 1 val = mkADV7152 (mode s) (address s) (rgb_seq s + 1).
Proof.
  intros H1 H2. unfold ADV7152_write. simpl.
  rewrite s32_small; [done | unfold INT_MAX in *; lia].
Qed.

(** C4 (fails on the code): a mode register write of the value 2, whose
    bit 0 is clear, leaves a sequence counter of 1 at 1 instead of
    resetting it; the mode byte is set to 2. *)
Theorem ADV7152_mode_write_bit0_clear_keeps_seq :
  Z.testbit 2 0 = false /\
  ADV7152_write (mkADV7152 0 0 1) 3 2 = mkADV7152 2 0 1.
Proof. split; reflexivity. Qed.

(** ** The well-formedness conditions are invariants *)

Lemma cg14_init_wf_tables (vram_size : Z) : wf_tables (cg14_init vram_size).
Proof. by repeat split. Qed.

Lemma cg14_init_wf_vram (k : Z) : 0 <= k < 32 -> wf_vram (cg14_init (2 ^ k)).
Proof.
  intros Hk. exists k.
  assert (0 < 2 ^ k <= 2 ^ 31) as Hp.
  { split; [lia|]. apply Z.pow_le_mono_r; lia. }
  split; [done|]. simpl. split; [apply u32_small; lia|].
  split; [rewrite length_replicate; lia|].
  apply Forall_replicate. lia.
Qed.

Lemma u8_range (x : Z) : 0 <= u8 x < 2 ^ 8.
Proof. unfold u8. apply Z.mod_pos_bound. lia. Qed.

Lemma array_set_bytes_ok (m m' : list Z) (i v : Z) :
  bytes_ok m -> array_set m i (u8 v) = Some m' ->
  bytes_ok m' /\ length m' = length m.
Proof.
  intros Hm H. apply array_set_inv in H as [_ ->]. split.
  - apply Forall_insert; [done | apply u8_range].
  - apply length_insert.
Qed.

Lemma cg14_reg_writel_wf_tables (s s' : CG14State) (addr val : Z) :
  wf_tables s -> cg14_reg_writel s addr val = Some s' -> wf_tables s'.
Proof.
  intros (Hx & H1 & H2). unfold cg14_reg_writel. cbv zeta.
  destruct (_ =? 0x4000); [|destruct (_ =? 0x5000)].
  - destruct (array_set _ _ _) as [c|] eqn:E; simpl; [|done].
    intros [= <-]. apply array_set_inv in E as [_ ->].
    repeat split; simpl; by rewrite ?length_insert.
  - destruct (array_set _ _ _) as [c|] eqn:E; simpl; [|done].
    intros [= <-]. apply array_set_inv in E as [_ ->].
    repeat split; simpl; by rewrite ?length_insert.
  - by intros [= <-].
Qed.

Lemma cg14_vram_writeb_wf_vram (s s' : CG14State) (addr val : Z) :
  wf_vram s -> cg14_vram_writeb s addr val = Some s' -> wf_vram s'.
Proof.
  intros (k & Hk & Hm & Hlen & Hb). unfold cg14_vram_writeb. cbv zeta.
  destruct (_ =? 0); [|by intros [= <-]; exists k].
  unfold stb_p. destruct (array_set _ _ _) as [m|] eqn:E; simpl; [|done].
  destruct (array_set_bytes_ok _ _ _ _ Hb E) as [Hb' Hl'].
  destruct (_ <? _); intros [= <-]; exists k; simpl; by rewrite Hl'.
Qed.

Lemma cg14_vram_writel_wf_vram (s s' : CG14State) (addr val : Z) :
  wf_vram s -> cg14_vram_writel s addr val = Some s' -> wf_vram s'.
Proof.
  intros (k & Hk & Hm & Hlen & Hb). unfold cg14_vram_writel. cbv zeta.
  destruct (_ =? 0); [|by intros [= <-]; exists k].
  unfold stl_be_p.
  destruct (array_set (vram s) _ _) as [m0|] eqn:E0; simpl; [|done].
  destruct (array_set_bytes_ok _ _ _ _ Hb E0) as [Hb0 Hl0].
  destruct (array_set m0 _ _) as [m1|] eqn:E1; simpl; [|done].
  destruct (array_set_bytes_ok _ _ _ _ Hb0 E1) as [Hb1 Hl1].
  destruct (array_set m1 _ _) as [m2|] eqn:E2; simpl; [|done].
  destruct (array_set_bytes_ok _ _ _ _ Hb1 E2) as [Hb2 Hl2].
  destruct (array_set m2 _ _) as [m3|] eqn:E3; simpl; [|done].
  destruct (array_set_bytes_ok _ _ _ _ Hb2 E3) as [Hb3 Hl3].
  destruct (_ <? _); intros [= <-]; exists k; simpl;
    by rewrite Hl3, Hl2, Hl1, Hl0.
Qed.

(** ** Control registers *)

Lemma cg14_reg_readb_unknown (s : CG14State) (addr : Z) :
  unknown_reg_offset addr -> cg14_reg_readb s addr = 0.
Proof.
  intros (_ & _ & H0 & H1 & H4 & H6 & _). unfold cg14_reg_readb. cbv zeta.
  apply Z.eqb_neq in H0, H1, H4, H6.
  by rewrite H0, H1, H4, H6.
Qed.

Lemma cg14_reg_writeb_unknown (s : CG14State) (addr val : Z) :
  unknown_reg_offset addr -> cg14_reg_writeb s addr val = Some (set_dirty 1 s).
Proof.
  intros (Hd & Hx & H0 & H1 & _ & _ & H7). unfold cg14_reg_writeb. cbv zeta.
  apply Z.eqb_neq in Hd, Hx, H0, H1, H7.
  by rewrite Hd, Hx, H0, H1, H7.
Qed.

(** C5 (as stated, refuted): at the unrecognised offset 0x0008 a byte write
    to the freshly created device, whose dirty flag is 0, sets the dirty
    flag to 1: the state is not left unchanged. *)
Lemma cg14_reg_writeb_unknown_not_identity :
  unknown_reg_offset 0x0008 /\
  dirty (cg14_init 16) = 0 /\
  dirty <$> cg14_reg_writeb (cg14_init 16) 0x0008 0 = Some 1 /\
  cg14_reg_writeb (cg14_init 16) 0x0008 0 <> Some (cg14_init 16).
Proof.
  split; [|split; [|split]].
  - unfold unknown_reg_offset. repeat split; by vm_compute.
  - reflexivity.
  - reflexivity.
  - intros H. apply (f_equal (fmap dirty)) in H. by vm_compute in H.
Qed.

(** C5 (amended): at an unrecognised control-region offset a byte read
    returns 0, and a byte write sets the dirty flag to 1 and changes nothing
    else: registers, tables, video memory, geometry and the size-changed
    flag are those of the state before. *)
Theorem cg14_reg_unknown_offset_byte_access (s : CG14State) (addr val : Z) :
  unknown_reg_offset addr ->
  cg14_reg_readb s addr = 0 /\
  exists s', cg14_reg_writeb s addr val = Some s' /\
    dirty s' = 1 /\
    vram s' = vram s /\ vram_amask s' = vram_amask s /\
    width s' = width s /\ height s' = height s /\
    size_changed s' = size_changed s /\
    ctrl s' = ctrl s /\ dac s' = dac s /\ timing s' = timing s /\
    xlut s' = xlut s /\ clut1 s' = clut1 s /\ clut2 s' = clut2 s.
Proof.
  intros H. split; [by apply cg14_reg_readb_unknown|].
  exists (set_dirty 1 s). split; [by apply cg14_reg_writeb_unknown|].
  by repeat split.
Qed.

Lemma cg14_reg_unknown_offset_byte_access_witness :
  cg14_reg_readb (cg14_init 16) 0x0008 = 0 /\
  exists s', cg14_reg_writeb (cg14_init 16) 0x0008 0x5a = Some s' /\
    dirty s' = 1 /\
    vram s' = vram (cg14_init 16) /\ vram_amask s' = vram_amask (cg14_init 16) /\
    width s' = width (cg14_init 16) /\ height s' = height (cg14_init 16) /\
    size_changed s' = size_changed (cg14_init 16) /\
    ctrl s' = ctrl (cg14_init 16) /\ dac s' = dac (cg14_init 16) /\
    timing s' = timing (cg14_init 16) /\
    xlut s' = xlut (cg14_init 16) /\ clut1 s' = clut1 (cg14_init 16) /\
    clut2 s' = clut2 (cg14_init 16).
Proof.
  apply (cg14_reg_unknown_offset_byte_access (cg14_init 16) 0x0008 0x5a).
  unfold unknown_reg_offset. repeat split; by vm_compute.
Defined.

(** C10: a byte write of [v] to the pixel-packing-ratio register, offset
    0x0001, keeps the high nibble only: the write succeeds and a byte read at
    the same offset returns [v & 0xF0]. *)
Theorem cg14_ppr_write_read (s : CG14State) (addr v : Z) :
  Z.land addr 0xffff = 0x0001 ->
  exists s', cg14_reg_writeb s addr v = Some s' /\
    cg14_reg_readb s' addr = Z.land v 0xF0 /\
    Z.land (cg14_reg_readb s' addr) 0x0F = 0.
Proof.
  intros Ha. unfold cg14_reg_writeb.
  rewrite (land_low16 addr 0xfcff), (land_low16 addr 0xff00) by done.
  rewrite Ha. simpl. eexists. split; [done|].
  unfold cg14_reg_readb. rewrite Ha. simpl.
  assert (u8 (Z.land v 0xF0) = Z.land v 0xF0) as ->.
  { unfold u8. apply land_mod_pow2; lia. }
  split; [done|].
  rewrite <- Z.land_assoc. apply Z.land_0_r.
Qed.

Lemma cg14_ppr_write_read_witness :
  exists s', cg14_reg_writeb (cg14_init 16) 0x0001 0xAB = Some s' /\
    cg14_reg_readb s' 0x0001 = Z.land 0xAB 0xF0 /\
    Z.land (cg14_reg_readb s' 0x0001) 0x0F = 0.
Proof.
  apply (cg14_ppr_write_read (cg14_init 16) 0x0001 0xAB). reflexivity.
Defined.

Lemma land_base_offset (base off : Z) :
  Z.land base 0xffff = 0 -> 0 <= off < 2 ^ 16 ->
  Z.land (base + off) 0xffff = off.
Proof.
  change 0xffff with (Z.ones 16). rewrite !Z.land_ones by lia.
  intros Hb Ho. Z.div_mod_to_equations. lia.
Qed.

(** C7: for a control region mapped at [base], a halfword write of a 16-bit
    value to [hblank_clear] (offset 0x001a) or [vblank_clear] (0x0024)
    stores the value and sets [size_changed]; a write to [hblank_start]
    (0x0018) or [vblank_start] (0x0022) stores the value and leaves
    [size_changed] as it was. *)
Theorem cg14_reg_writew_timing (s : CG14State) (base val : Z) :
  Z.land base 0xffff = 0 ->
  0 <= val < 2 ^ 16 ->
  (hblank_clear (timing (cg14_reg_writew s (base + 0x001a) val)) = val /\
   size_changed (cg14_reg_writew s (base + 0x001a) val) = 1) /\
  (vblank_clear (timing (cg14_reg_writew s (base + 0x0024) val)) = val /\
   size_changed (cg14_reg_writew s (base + 0x0024) val) = 1) /\
  (hblank_start (timing (cg14_reg_writew s (base + 0x0018) val)) = val /\
   size_changed (cg14_reg_writew s (base + 0x0018) val) = size_changed s) /\
  (vblank_start (timing (cg14_reg_writew s (base + 0x0022) val)) = val /\
   size_changed (cg14_reg_writew s (base + 0x0022) val) = size_changed s).
Proof.
  intros Hb Hv. unfold cg14_reg_writew. cbv zeta.
  rewrite !(land_base_offset base) by (done || lia). simpl.
  by rewrite (u16_small val Hv).
Qed.

Lemma cg14_reg_writew_timing_witness :
  (hblank_clear (timing (cg14_reg_writew (cg14_init 16) (0 + 0x001a) 0x1234)) = 0x1234 /\
   size_changed (cg14_reg_writew (cg14_init 16) (0 + 0x001a) 0x1234) = 1) /\
  (vblank_clear (timing (cg14_reg_writew (cg14_init 16) (0 + 0x0024) 0x1234)) = 0x1234 /\
   size_changed (cg14_reg_writew (cg14_init 16) (0 + 0x0024) 0x1234) = 1) /\
  (hblank_start (timing (cg14_reg_writew (cg14_init 16) (0 + 0x0018) 0x1234)) = 0x1234 /\
   size_changed (cg14_reg_writew (cg14_init 16) (0 + 0x0018) 0x1234)
   = size_changed (cg14_init 16)) /\
  (vblank_start (timing (cg14_reg_writew (cg14_init 16) (0 + 0x0022) 0x1234)) = 0x1234 /\
   size_changed (cg14_reg_writew (cg14_init 16) (0 + 0x0022) 0x1234)
   = size_changed (cg14_init 16)).
Proof.
  apply (cg14_reg_writew_timing (cg14_init 16) 0 0x1234); [reflexivity | lia].
Defined.

(** ** Colour look-up tables *)

Lemma clut_index_range (addr : Z) :
  0 <= Z.shiftr (Z.land addr 0x3ff) 2 <= 255.
Proof.
  pose proof (land_range addr 0x3ff 10) as H.
  rewrite Z.shiftr_div_pow2 by lia.
  change (2 ^ 2) with 4. change (2 ^ 10) with 1024 in H.
  assert (0 <= Z.land addr 0x3ff < 1024) as Hr by (apply H; lia).
  Z.div_mod_to_equations. lia.
Qed.

Lemma clut_index_u32 (addr : Z) :
  u32 (Z.shiftr (Z.land addr 0x3ff) 2) = Z.shiftr (Z.land addr 0x3ff) 2.
Proof.
  pose proof (clut_index_range addr). apply u32_small. lia.
Qed.

Lemma land_fc00 (x : Z) : Z.land x 0xfc00 = x mod 2 ^ 16 - x mod 2 ^ 10.
Proof.
  rewrite <- !Z.land_ones by lia.
  assert (Z.land (Z.land x 0xfc00) (Z.land x (Z.ones 10)) = 0) as Hd.
  { change 0xfc00 with (Z.shiftl (Z.ones 6) 10). Z.bitblast. }
  assert (Z.land x (Z.ones 16)
          = Z.lor (Z.land x 0xfc00) (Z.land x (Z.ones 10))) as ->.
  { rewrite <- Z.land_lor_distr_r. reflexivity. }
  rewrite <- Z.lxor_lor, <- Z.add_nocarry_lxor by done. lia.
Qed.

(** Entry [i] of a table is addressed by the word at [4 * i] from the start
    of its range. *)
Lemma clut_entry_address (base tbl i : Z) :
  Z.land base 0xffff = 0 -> tbl = 0x4000 \/ tbl = 0x5000 -> 0 <= i <= 255 ->
  Z.land (base + tbl + 4 * i) 0xfc00 = tbl /\
  Z.shiftr (Z.land (base + tbl + 4 * i) 0x3ff) 2 = i.
Proof.
  intros Hb Ht Hi. rewrite land_fc00.
  change 0x3ff with (Z.ones 10). change 0xffff with (Z.ones 16) in Hb.
  rewrite Z.land_ones in * by lia. rewrite Z.shiftr_div_pow2 by lia.
  change (2 ^ 16) with 65536 in *. change (2 ^ 10) with 1024.
  change (2 ^ 2) with 4.
  destruct Ht as [-> | ->]; split; Z.div_mod_to_equations; lia.
Qed.

(** C8: in a state whose tables have their 256 entries, a word write of a
    32-bit value [v] at an offset of the CLUT1 range
    ([addr & 0xfc00 == 0x4000]) or of the CLUT2 range
    ([addr & 0xfc00 == 0x5000]) succeeds, stores [v] in the entry
    [(addr & 0x3ff) >> 2], which lies in 0..255, and a word read at the same
    offset returns [v]. *)
Theorem cg14_clut_write_read (s : CG14State) (addr v : Z) :
  wf_tables s ->
  0 <= v < 2 ^ 32 ->
  Z.land addr 0xfc00 = 0x4000 \/ Z.land addr 0xfc00 = 0x5000 ->
  exists s', cg14_reg_writel s addr v = Some s' /\
    cg14_reg_readl s' addr = Some v /\
    0 <= Z.shiftr (Z.land addr 0x3ff) 2 <= 255 /\
    array_get (if Z.land addr 0xfc00 =? 0x4000 then clut1 s' else clut2 s')
              (Z.shiftr (Z.land addr 0x3ff) 2) = Some v.
Proof.
  intros (_ & H1 & H2) Hv Ha.
  pose proof (clut_index_range addr) as Hi.
  unfold cg14_reg_writel, cg14_reg_readl. cbv zeta.
  rewrite clut_index_u32, (u32_small v Hv).
  destruct Ha as [-> | ->]; simpl.
  - rewrite array_set_Some by (rewrite H1; lia). simpl.
    eexists. split; [done|]. simpl.
    rewrite array_get_insert_eq by (rewrite H1; lia). done.
  - rewrite array_set_Some by (rewrite H2; lia). simpl.
    eexists. split; [done|]. simpl.
    rewrite array_get_insert_eq by (rewrite H2; lia). done.
Qed.

Lemma cg14_clut_write_read_witness :
  exists s', cg14_reg_writel (cg14_init 16) 0x5014 0xdeadbeef = Some s' /\
    cg14_reg_readl s' 0x5014 = Some 0xdeadbeef /\
    0 <= Z.shiftr (Z.land 0x5014 0x3ff) 2 <= 255 /\
    array_get (if Z.land 0x5014 0xfc00 =? 0x4000 then clut1 s' else clut2 s')
              (Z.shiftr (Z.land 0x5014 0x3ff) 2) = Some 0xdeadbeef.
Proof.
  apply (cg14_clut_write_read (cg14_init 16) 0x5014 0xdeadbeef).
  - repeat split.
  - lia.
  - right. reflexivity.
Defined.

(** ** Surface format *)

Lemma bgr_to_rgb_bytes (bgr : Z) :
  bgr_to_rgb bgr = compose (byte_of 0 bgr) (byte_of 1 bgr) (byte_of 2 bgr).
Proof.
  unfold bgr_to_rgb, compose, byte_of, u32.
  change 0xFF0000 with (Z.shiftl (Z.ones 8) 16).
  change 0x00FF00 with (Z.shiftl (Z.ones 8) 8).
  change 0x0000FF with (Z.ones 8). change 0xff with (Z.ones 8).
  Z.bitblast.
Qed.

Lemma land_24_bytes (abgr : Z) :
  Z.land abgr 0xFFFFFF
  = compose (byte_of 2 abgr) (byte_of 1 abgr) (byte_of 0 abgr).
Proof.
  unfold compose, byte_of.
  change 0xFFFFFF with (Z.ones 24). change 0xff with (Z.ones 8).
  Z.bitblast.
Qed.

Lemma compose_range (hi mid lo : Z) :
  0 <= hi < 2 ^ 8 -> 0 <= mid < 2 ^ 8 -> 0 <= lo < 2 ^ 8 ->
  0 <= compose hi mid lo < 2 ^ 24.
Proof.
  intros Hh Hm Hl.
  assert (compose hi mid lo mod 2 ^ 24 = compose hi mid lo) as E.
  { unfold compose. apply Z.bits_inj'. intros i Hi.
    destruct (Z.ltb_spec i 24) as [Hlt|Hge].
    - by rewrite Z.mod_pow2_bits_low.
    - rewrite Z.mod_pow2_bits_high by lia.
      rewrite !Z.lor_spec, !Z.shiftl_spec by lia.
      rewrite (testbit_above_range hi 8), (testbit_above_range mid 8),
        (testbit_above_range lo 8) by (done || lia).
      done. }
  rewrite <- E. apply Z.mod_pos_bound. lia.
Qed.

Lemma byte_of_range (k x : Z) : 0 <= byte_of k x < 2 ^ 8.
Proof. unfold byte_of. apply land_range; lia. Qed.

(** The conversion to the surface format, bytewise: [abgr & 0xFFFFFF] for a
    blue-first surface, which keeps the three colour bytes in place and is
    [abgr] itself when it has 24 bits; otherwise the word with the red byte
    in bits 23..16, the green byte in place, the blue byte in bits 7..0 and a
    zero high byte. *)
Lemma to_surface_channel_order (is_bgr abgr : Z) :
  let r := byte_of 0 abgr in
  let g := byte_of 1 abgr in
  let b := byte_of 2 abgr in
  to_surface is_bgr abgr
    = (if is_bgr =? 0 then compose r g b else Z.land abgr 0xFFFFFF) /\
  Z.land abgr 0xFFFFFF = compose b g r /\
  (abgr = compose b g r <-> 0 <= abgr < 2 ^ 24) /\
  byte_of 3 (to_surface is_bgr abgr) = 0 /\
  byte_of 1 (to_surface is_bgr abgr) = g /\
  to_surface 0 (compose 0x33 0x22 0x11) = compose 0x11 0x22 0x33 /\
  to_surface 0 (compose 0x33 0x22 0x11) <> compose 0x33 0x22 0x11.
Proof.
  intros r g b. subst r g b.
  assert (to_surface is_bgr abgr
          = if is_bgr =? 0
            then compose (byte_of 0 abgr) (byte_of 1 abgr) (byte_of 2 abgr)
            else Z.land abgr 0xFFFFFF) as E.
  { unfold to_surface. destruct (is_bgr =? 0); [apply bgr_to_rgb_bytes|done]. }
  split; [exact E|]. split; [apply land_24_bytes|].
  split; [|split; [|split; [|split]]].
  - rewrite <- land_24_bytes. split.
    + intros ->. apply land_range; lia.
    + intros H. symmetry. change 0xFFFFFF with (Z.ones 24).
      rewrite Z.land_ones by lia. by apply Z.mod_small.
  - rewrite E. unfold byte_of, compose.
    change 0xFFFFFF with (Z.ones 24). change 0xff with (Z.ones 8).
    destruct (is_bgr =? 0); Z.bitblast.
  - rewrite E. unfold byte_of, compose.
    change 0xFFFFFF with (Z.ones 24). change 0xff with (Z.ones 8).
    destruct (is_bgr =? 0); Z.bitblast.
  - reflexivity.
  - by vm_compute.
Qed.

(** ** Video-memory windows *)

Lemma land_u64 (x m : Z) :
  0 <= m < 2 ^ 32 -> Z.land (u64 x) m = Z.land x m.
Proof.
  intros Hm. unfold u64. apply Z.bits_inj'. intros i Hi.
  rewrite !Z.land_spec.
  destruct (Z.ltb_spec i 64) as [Hlt|Hge].
  - by rewrite Z.mod_pow2_bits_low.
  - rewrite (testbit_above_range m 32 i) by (done || lia).
    by rewrite !andb_false_r.
Qed.

Lemma land_shiftl1_even (a m : Z) :
  Z.land (Z.shiftl a 1) m = 2 * Z.land a (Z.shiftr m 1).
Proof.
  replace (2 * Z.land a (Z.shiftr m 1))
    with (Z.shiftl (Z.land a (Z.shiftr m 1)) 1)
    by (rewrite Z.shiftl_mul_pow2; lia).
  Z.bitblast.
  match goal with
  | |- Z.testbit ?x ?l && _ = _ => by rewrite (Z.testbit_neg_r x l) by lia
  end.
Qed.

Lemma land_1_b2z (x : Z) : Z.land x 1 = Z.b2z (Z.testbit x 0).
Proof.
  change 1 with (Z.ones 1) at 1. rewrite Z.land_ones by lia.
  by rewrite Z.bit0_mod.
Qed.

Lemma window2_offset_u32 (amask a : Z) :
  0 <= amask < 2 ^ 32 ->
  u32 (Z.land (u64 (Z.shiftl a 1)) amask + Z.land (Z.shiftr a 23) 1)
  = window2_offset amask a.
Proof.
  intros Hm. rewrite land_u64 by done. unfold window2_offset.
  apply u32_small.
  rewrite land_shiftl1_even, land_1_b2z.
  assert (0 <= Z.land a (Z.shiftr amask 1) < 2 ^ 31) as Hq.
  { apply land_range; [lia|]. rewrite Z.shiftr_div_pow2 by lia.
    change (2 ^ 1) with 2. change (2 ^ 32) with (2 * 2 ^ 31) in Hm.
    Z.div_mod_to_equations. lia. }
  change (2 ^ 32) with (2 * 2 ^ 31).
  destruct (Z.testbit _ 0); simpl; lia.
Qed.

(** In window 2 a byte read fetches the byte stored at the window-2
    offset. *)
Lemma cg14_vram_readb_window2 (s : CG14State) (a : Z) :
  0 <= vram_amask s < 2 ^ 32 ->
  Z.land a 0x3000000 = 0x2000000 ->
  cg14_vram_readb s a = ldub_p (vram s) (window2_offset (vram_amask s) a).
Proof.
  intros Hm Hw. unfold cg14_vram_readb. cbv zeta. rewrite Hw. simpl.
  by rewrite window2_offset_u32.
Qed.

(** Flipping address bit 23 moves the window-2 offset by one, when the
    mask is [2 ^ k - 1] with [k <= 24]. *)
Lemma window2_offset_bit23 (k a a' : Z) :
  0 <= k <= 24 ->
  Z.lxor a a' = 2 ^ 23 ->
  window2_offset (2 ^ k - 1) a' - window2_offset (2 ^ k - 1) a
  = if Z.testbit a 23 then -1 else 1.
Proof.
  intros Hk Hx.
  assert (a' = Z.lxor a (2 ^ 23)) as ->.
  { rewrite <- Hx, <- Z.lxor_assoc, Z.lxor_nilpotent. apply Z.lxor_0_l. }
  unfold window2_offset.
  assert (Z.land (Z.shiftl (Z.lxor a (2 ^ 23)) 1) (2 ^ k - 1)
          = Z.land (Z.shiftl a 1) (2 ^ k - 1)) as ->.
  { replace (2 ^ k - 1) with (Z.ones k) by (rewrite Z.ones_equiv; lia).
    apply Z.bits_inj'. intros i Hi.
    rewrite !Z.land_spec, !Z.testbit_ones_nonneg by lia.
    destruct (Z.ltb_spec i k) as [Hlt|Hge]; [|by rewrite !andb_false_r].
    rewrite !andb_true_r, !Z.shiftl_spec, Z.lxor_spec by lia.
    rewrite (Z.pow2_bits_false 23 (i - 1)) by lia.
    by rewrite xorb_false_r. }
  rewrite !land_1_b2z, !Z.shiftr_spec, Z.lxor_spec by lia.
  change (0 + 23) with 23. rewrite (Z.pow2_bits_true 23) by lia.
  destruct (Z.testbit a 23); simpl; lia.
Qed.

Lemma window_bit23 (a a' w : Z) :
  Z.lxor a a' = 2 ^ 23 ->
  Z.land a 0x3000000 = w -> Z.land a' 0x3000000 = w.
Proof.
  intros Hx <-.
  assert (a' = Z.lxor a (2 ^ 23)) as ->.
  { rewrite <- Hx, <- Z.lxor_assoc, Z.lxor_nilpotent. apply Z.lxor_0_l. }
  apply Z.bits_inj'. intros i Hi.
  rewrite !Z.land_spec, Z.lxor_spec.
  destruct (Z.eq_dec i 23) as [->|Hne].
  { change (Z.testbit 0x3000000 23) with false. by rewrite !andb_false_r. }
  rewrite (Z.pow2_bits_false 23 i) by lia. by rewrite xorb_false_r.
Qed.

(** With at least two bytes of video memory the window-2 offset stays
    inside the buffer. *)
Lemma window2_offset_range (k a : Z) :
  1 <= k -> 0 <= window2_offset (2 ^ k - 1) a < 2 ^ k.
Proof.
  intros Hk. unfold window2_offset.
  rewrite land_shiftl1_even, land_1_b2z.
  assert (2 ^ k = 2 * 2 ^ (k - 1)) as E.
  { rewrite <- Z.pow_succ_r by lia. f_equal. lia. }
  assert (Z.shiftr (2 ^ k - 1) 1 = 2 ^ (k - 1) - 1) as ->.
  { rewrite Z.shiftr_div_pow2, E by lia. change (2 ^ 1) with 2.
    Z.div_mod_to_equations. lia. }
  pose proof (land_ones_range a (k - 1)) as Hq.
  destruct (Z.testbit _ 0); simpl; lia.
Qed.

(** C2: with a video memory of [2 ^ k] bytes, [1 <= k <= 24] (at most
    16 MiB), a byte read at an address [a] of window 2 returns the byte
    stored at offset [((a << 1) & vram_amask) + ((a >> 23) & 1)], which is
    [window2_offset (vram_amask s) a]; the address [a'] that differs from [a]
    in bit 23 only is in window 2 as well, is read in the same way, and the
    two storage offsets differ by exactly 1. *)
Theorem cg14_vram_window2_interleave (s : CG14State) (k a a' : Z) :
  1 <= k <= 24 ->
  vram_amask s = 2 ^ k - 1 ->
  Z.of_nat (length (vram s)) = 2 ^ k ->
  Z.land a 0x3000000 = 0x2000000 ->
  Z.lxor a a' = 2 ^ 23 ->
  (exists b, cg14_vram_readb s a = Some b /\
     vram s !! Z.to_nat (window2_offset (vram_amask s) a) = Some b) /\
  Z.land a' 0x3000000 = 0x2000000 /\
  (exists b', cg14_vram_readb s a' = Some b' /\
     vram s !! Z.to_nat (window2_offset (vram_amask s) a') = Some b') /\
  Z.abs (window2_offset (vram_amask s) a' - window2_offset (vram_amask s) a) = 1.
Proof.
  intros Hk Hm Hlen Hw Hx.
  assert (0 <= vram_amask s < 2 ^ 32) as Hr.
  { rewrite Hm. assert (0 < 2 ^ k <= 2 ^ 24).
    { split; [lia|]. apply Z.pow_le_mono_r; lia. }
    lia. }
  pose proof (window_bit23 a a' _ Hx Hw) as Hw'.
  assert (forall x, Z.land x 0x3000000 = 0x2000000 ->
            exists b, cg14_vram_readb s x = Some b /\
              vram s !! Z.to_nat (window2_offset (vram_amask s) x) = Some b)
    as Hread.
  { intros x Hwx. rewrite cg14_vram_readb_window2 by done.
    assert (0 <= window2_offset (vram_amask s) x < 2 ^ k) as Ho.
    { rewrite Hm. apply window2_offset_range. lia. }
    unfold ldub_p, array_get. rewrite decide_True by lia.
    destruct (lookup_lt_is_Some_2 (vram s)
                (Z.to_nat (window2_offset (vram_amask s) x))) as [b Hb]; [lia|].
    by exists b. }
  split; [by apply Hread|]. split; [done|]. split; [by apply Hread|].
  rewrite Hm, (window2_offset_bit23 k a a') by (done || lia).
  by destruct (Z.testbit a 23).
Qed.

Lemma cg14_vram_window2_interleave_witness :
  (exists b, cg14_vram_readb small_device 0x2000003 = Some b /\
     vram small_device
       !! Z.to_nat (window2_offset (vram_amask small_device) 0x2000003)
     = Some b) /\
  Z.land 0x2800003 0x3000000 = 0x2000000 /\
  (exists b', cg14_vram_readb small_device 0x2800003 = Some b' /\
     vram small_device
       !! Z.to_nat (window2_offset (vram_amask small_device) 0x2800003)
     = Some b') /\
  Z.abs (window2_offset (vram_amask small_device) 0x2800003
         - window2_offset (vram_amask small_device) 0x2000003) = 1.
Proof.
  apply (cg14_vram_window2_interleave small_device 4 0x2000003 0x2800003);
    [lia | reflexivity | reflexivity | reflexivity | reflexivity].
Defined.

(** ** Writes to video-memory window 0 *)

Lemma visible_bytes_exact (s : CG14State) :
  geometry_fits s -> visible_bytes s = 4 * width s * height s.
Proof.
  intros (Hw & Hh & H4 & Hp). unfold visible_bytes.
  assert (0 <= width s * height s) as Hwh by (by apply Z.mul_nonneg_nonneg).
  rewrite (s32_small (4 * width s)) by lia.
  rewrite s32_small by lia.
  apply u32_small. unfold INT_MAX in Hp. lia.
Qed.

Lemma window0_offset_u32 (s : CG14State) (addr : Z) :
  0 <= vram_amask s < 2 ^ 32 ->
  u32 (Z.land addr (vram_amask s)) = Z.land addr (vram_amask s).
Proof. intros H. unfold u32. apply land_mod_pow2; [lia | done]. Qed.

Lemma wf_vram_amask (s : CG14State) : wf_vram s -> 0 <= vram_amask s < 2 ^ 32.
Proof.
  intros (k & Hk & -> & _).
  assert (0 < 2 ^ k <= 2 ^ 32).
  { split; [lia|]. apply Z.pow_le_mono_r; lia. }
  lia.
Qed.

(** Masked offsets stay inside the buffer. *)
Lemma wf_vram_offset (s : CG14State) (addr : Z) :
  wf_vram s ->
  0 <= Z.land addr (vram_amask s) < Z.of_nat (length (vram s)).
Proof.
  intros (k & Hk & -> & -> & _). apply land_ones_range. lia.
Qed.

Lemma stl_be_p_Some (m : list Z) (off v : Z) :
  0 <= off -> off + 4 <= Z.of_nat (length m) ->
  stl_be_p m off v
  = Some (<[Z.to_nat (off + 3) := u8 v]>
          (<[Z.to_nat (off + 2) := u8 (Z.shiftr v 8)]>
           (<[Z.to_nat (off + 1) := u8 (Z.shiftr v 16)]>
            (<[Z.to_nat off := u8 (Z.shiftr v 24)]> m)))).
Proof.
  intros H0 H4. unfold stl_be_p.
  rewrite array_set_Some by lia. simpl.
  rewrite array_set_Some by (rewrite length_insert; lia). simpl.
  rewrite array_set_Some by (rewrite !length_insert; lia). simpl.
  by rewrite array_set_Some by (rewrite !length_insert; lia).
Qed.

Lemma be_bytes_u32 (v : Z) :
  Z.lor (Z.shiftl (u8 (Z.shiftr v 24)) 24)
    (Z.lor (Z.shiftl (u8 (Z.shiftr v 16)) 16)
       (Z.lor (Z.shiftl (u8 (Z.shiftr v 8)) 8) (u8 v)))
  = u32 v.
Proof. unfold u8, u32. Z.bitblast. Qed.

(** A big-endian word store followed by a load at the same offset. *)
Lemma ldl_stl_be_p (m m' : list Z) (off v : Z) :
  0 <= off -> off + 4 <= Z.of_nat (length m) ->
  stl_be_p m off v = Some m' ->
  ldl_be_p m' off = Some (u32 v).
Proof.
  intros H0 H4. rewrite stl_be_p_Some by done. intros [= <-].
  unfold ldl_be_p.
  rewrite (array_get_insert_ne _ (off + 3) off),
    (array_get_insert_ne _ (off + 2) off),
    (array_get_insert_ne _ (off + 1) off),
    (array_get_insert_eq _ off) by lia. simpl.
  rewrite (array_get_insert_ne _ (off + 3) (off + 1)),
    (array_get_insert_ne _ (off + 2) (off + 1)),
    (array_get_insert_eq _ (off + 1)) by (rewrite ?length_insert; lia). simpl.
  rewrite (array_get_insert_ne _ (off + 3) (off + 2)),
    (array_get_insert_eq _ (off + 2)) by (rewrite ?length_insert; lia). simpl.
  rewrite (array_get_insert_eq _ (off + 3)) by (rewrite ?length_insert; lia).
  simpl.
  by rewrite be_bytes_u32.
Qed.

Lemma ldub_stb_p (m m' : list Z) (off v : Z) :
  stb_p m off v = Some m' -> ldub_p m' off = Some (u8 v).
Proof.
  unfold stb_p, ldub_p. intros H. apply array_set_inv in H as [Hr ->].
  by apply array_get_insert_eq.
Qed.

(** C6: let the [int] product [4 * width * height] not overflow.  A byte
    write at [addr_b] and a word write at [addr_w], both in video-memory
    window 0 ([addr & 0x3000000 == 0]), the four bytes of the word inside the
    buffer, succeed and put the value in storage at [addr & vram_amask] (the
    word in big-endian order); the dirty flag is set when that offset is
    strictly less than [4 * width * height] and keeps its value
    otherwise. *)
Theorem cg14_vram_write_window0 (s : CG14State) (addr_b val_b addr_w val_w : Z) :
  wf_vram s ->
  geometry_fits s ->
  Z.land addr_b 0x3000000 = 0 ->
  Z.land addr_w 0x3000000 = 0 ->
  Z.land addr_w (vram_amask s) + 4 <= Z.of_nat (length (vram s)) ->
  (exists s', cg14_vram_writeb s addr_b val_b = Some s' /\
     ldub_p (vram s') (Z.land addr_b (vram_amask s)) = Some (u8 val_b) /\
     dirty s' = (if Z.land addr_b (vram_amask s) <? 4 * width s * height s
                 then 1 else dirty s)) /\
  (exists s', cg14_vram_writel s addr_w val_w = Some s' /\
     ldl_be_p (vram s') (Z.land addr_w (vram_amask s)) = Some (u32 val_w) /\
     dirty s' = (if Z.land addr_w (vram_amask s) <? 4 * width s * height s
                 then 1 else dirty s)).
Proof.
  intros Hwf Hg Hb Hw Hin.
  pose proof (wf_vram_amask s Hwf) as Hm.
  pose proof (visible_bytes_exact s Hg) as Hv.
  split.
  - pose proof (wf_vram_offset s addr_b Hwf) as Ho.
    unfold cg14_vram_writeb. cbv zeta. rewrite Hb. simpl.
    rewrite window0_offset_u32 by done.
    destruct (stb_p (vram s) (Z.land addr_b (vram_amask s)) val_b) as [m|] eqn:E.
    2:{ unfold stb_p in E. by rewrite array_set_Some in E. }
    simpl. change (visible_bytes (set_vram m s)) with (visible_bytes s).
    rewrite Hv. apply ldub_stb_p in E.
    destruct (_ <? _); eexists; (split; [done|]); by split.
  - pose proof (wf_vram_offset s addr_w Hwf) as Ho.
    unfold cg14_vram_writel. cbv zeta. rewrite Hw. simpl.
    rewrite window0_offset_u32 by done.
    destruct (stl_be_p (vram s) (Z.land addr_w (vram_amask s)) val_w) as [m|] eqn:E.
    2:{ by rewrite stl_be_p_Some in E by lia. }
    simpl. change (visible_bytes (set_vram m s)) with (visible_bytes s).
    rewrite Hv. apply ldl_stl_be_p in E; [|lia..].
    destruct (_ <? _); eexists; (split; [done|]); by split.
Qed.

Lemma small_device_wf_vram : wf_vram small_device.
Proof.
  exists 4. split; [lia|]. split; [reflexivity|]. split; [reflexivity|].
  unfold bytes_ok. repeat (constructor; [lia|]). constructor.
Qed.

Lemma cg14_vram_write_window0_witness :
  (exists s', cg14_vram_writeb small_device 9 0x5a = Some s' /\
     ldub_p (vram s') (Z.land 9 (vram_amask small_device)) = Some (u8 0x5a) /\
     dirty s' = (if Z.land 9 (vram_amask small_device)
                    <? 4 * width small_device * height small_device
                 then 1 else dirty small_device)) /\
  (exists s', cg14_vram_writel small_device 4 0xdeadbeef = Some s' /\
     ldl_be_p (vram s') (Z.land 4 (vram_amask small_device))
       = Some (u32 0xdeadbeef) /\
     dirty s' = (if Z.land 4 (vram_amask small_device)
                    <? 4 * width small_device * height small_device
                 then 1 else dirty small_device)).
Proof.
  apply (cg14_vram_write_window0 small_device 9 0x5a 4 0xdeadbeef).
  - exact small_device_wf_vram.
  - unfold geometry_fits, INT_MAX. simpl. lia.
  - reflexivity.
  - reflexivity.
  - by vm_compute.
Defined.

(** ** Refresh *)

Lemma cg14_update_display_unsupported_depth (s : CG14State) (ds : DisplayState) :
  ds_bits_per_pixel ds <> 32 ->
  cg14_update_display s ds = Some (resize_check s ds).
Proof.
  intros Hbpp. apply Z.eqb_neq in Hbpp.
  unfold cg14_update_display, resize_check.
  destruct (size_changed s =? 0); cbv zeta.
  - rewrite Hbpp. simpl. by destruct (_ || _).
  - destruct (_ && _); simpl; rewrite ?Hbpp; simpl; by destruct (_ || _).
Qed.

Lemma resize_check_host (s : CG14State) (ds : DisplayState) :
  ds_data (resize_check s ds).2 = ds_data ds /\
  presented (ds_calls (resize_check s ds).2) = presented (ds_calls ds) /\
  ds_bits_per_pixel (resize_check s ds).2 = ds_bits_per_pixel ds.
Proof.
  unfold resize_check.
  destruct (size_changed s =? 0); [done|]. cbv zeta.
  destruct (_ && _); [|done]. simpl. split; [done|]. split; [|done].
  unfold presented. by rewrite filter_app, filter_cons_False, app_nil_r by done.
Qed.

Lemma resize_check_dirty (s : CG14State) (ds : DisplayState) :
  dirty (resize_check s ds).1 = dirty s \/ dirty (resize_check s ds).1 = 1.
Proof.
  unfold resize_check.
  destruct (size_changed s =? 0); [by left|]. cbv zeta.
  destruct (_ && _); [by right | by left].
Qed.

Lemma resize_check_vram (s : CG14State) (ds : DisplayState) :
  vram (resize_check s ds).1 = vram s.
Proof.
  unfold resize_check.
  destruct (size_changed s =? 0); [done|]. cbv zeta.
  by destruct (_ && _).
Qed.

(** C3: a refresh made while the host surface reports a depth other than
    32 bits returns after the resize check alone: nothing is rendered, the
    words of the host framebuffer are those of before, no region is
    presented, and a dirty flag that was set, or that the resize check has
    just set, is still set afterwards. *)
Theorem cg14_update_display_refused (s : CG14State) (ds : DisplayState) :
  ds_bits_per_pixel ds <> 32 ->
  exists s' ds',
    cg14_update_display s ds = Some (s', ds') /\
    (s', ds') = resize_check s ds /\
    ds_data ds' = ds_data ds /\
    presented (ds_calls ds') = presented (ds_calls ds) /\
    (dirty s <> 0 -> dirty s' <> 0) /\
    (dirty s' = dirty s \/ dirty s' = 1) /\
    ds_bits_per_pixel ds' <> 32.
Proof.
  intros Hbpp.
  exists (resize_check s ds).1, (resize_check s ds).2.
  rewrite <- surjective_pairing.
  split; [by apply cg14_update_display_unsupported_depth|].
  split; [done|].
  destruct (resize_check_host s ds) as (Hd & Hp & Hb).
  pose proof (resize_check_dirty s ds) as Hdirty.
  repeat split; try done.
  - intros Hs. destruct Hdirty as [-> | ->]; [done | lia].
  - by rewrite Hb.
Qed.

Lemma cg14_update_display_refused_witness :
  exists s' ds',
    cg14_update_display (set_dirty 1 (cg14_init 16)) (mkDS 16 1280 0 ∅ [])
      = Some (s', ds') /\
    (s', ds') = resize_check (set_dirty 1 (cg14_init 16)) (mkDS 16 1280 0 ∅ []) /\
    ds_data ds' = ds_data (mkDS 16 1280 0 ∅ []) /\
    presented (ds_calls ds') = presented (ds_calls (mkDS 16 1280 0 ∅ [])) /\
    (dirty (set_dirty 1 (cg14_init 16)) <> 0 -> dirty s' <> 0) /\
    (dirty s' = dirty (set_dirty 1 (cg14_init 16)) \/ dirty s' = 1) /\
    ds_bits_per_pixel ds' <> 32.
Proof.
  apply (cg14_update_display_refused (set_dirty 1 (cg14_init 16))
           (mkDS 16 1280 0 ∅ [])).
  simpl. lia.
Defined.

Lemma resize_check_size_changed (s : CG14State) (ds : DisplayState) :
  size_changed (resize_check s ds).1 = 0.
Proof.
  unfold resize_check.
  destruct (size_changed s =? 0) eqn:E; [by apply Z.eqb_eq in E|]. cbv zeta.
  by destruct (_ && _).
Qed.

(** Once the resize check is done, a refresh of a dirty device with a
    non-empty geometry on a 32-bit surface that completes presents the whole
    frame and clears the dirty flag: the refused rendering is retried. *)
Lemma cg14_update_display_renders (s s2 : CG14State) (ds ds2 : DisplayState) :
  size_changed s = 0 -> dirty s <> 0 -> width s <> 0 -> height s <> 0 ->
  ds_bits_per_pixel ds = 32 ->
  cg14_update_display s ds = Some (s2, ds2) ->
  dirty s2 = 0 /\
  ds_calls ds2 = ds_calls ds ++ [DpyUpdate 0 0 (width s) (height s)].
Proof.
  intros Hsc Hd Hw Hh Hbpp. unfold cg14_update_display.
  rewrite Hsc. simpl.
  apply Z.eqb_neq in Hd, Hw, Hh. rewrite Hd, Hw, Hh, Hbpp. simpl.
  destruct (draw_lines _ _ _ _ _ _ _); simpl; [|done].
  by intros [= <- <-].
Qed.

(** ** Pixel reconstruction *)

Lemma array_get_bytes (m : list Z) (i x : Z) :
  bytes_ok m -> array_get m i = Some x -> 0 <= x < 2 ^ 8.
Proof.
  unfold bytes_ok, array_get. intros Hm H. case_decide; [|done].
  by apply (Forall_lookup_1 _ _ _ _ Hm H).
Qed.

Lemma u32_compose (hi mid lo : Z) :
  0 <= hi < 2 ^ 8 -> 0 <= mid < 2 ^ 8 -> 0 <= lo < 2 ^ 8 ->
  u32 (Z.lor (Z.lor (Z.shiftl hi 16) (Z.shiftl mid 8)) lo) = compose hi mid lo.
Proof.
  intros Hh Hm Hl. pose proof (compose_range hi mid lo Hh Hm Hl).
  apply u32_small. unfold compose in *. lia.
Qed.

(** One iteration of the loop computes the colour of the specification,
    advances the source pointer by the pixel size, and in 8-bit mode leaves
    [xlut_val] at the packing-ratio register. *)
Lemma cg14_pixel_abgr_colour (s : CG14State) (pixmode src xv src' xv' abgr : Z) :
  bytes_ok (vram s) ->
  (pixmode = 8 -> xv = ppr (ctrl s)) ->
  cg14_pixel_abgr s pixmode src xv = Some (src', xv', abgr) ->
  src' = src + bytes_per_pixel pixmode /\
  (pixmode = 8 -> xv' = ppr (ctrl s)) /\
  pixel_colour s pixmode src = Some abgr.
Proof.
  intros Hb Hxv. unfold cg14_pixel_abgr, pixel_colour, selected_xlut,
    bytes_per_pixel, palette_rule, ldub_p.
  destruct (array_get (vram s) src) as [x|] eqn:Ex; simpl; [|done].
  pose proof (array_get_bytes _ _ _ Hb Ex) as Hx.
  destruct (Z.eqb_spec pixmode 8) as [->|H8]; simpl.
  - rewrite (Hxv eq_refl).
    destruct (ppr (ctrl s) =? 0) eqn:E0.
    + rewrite u32_compose by done. intros [= <- <- <-]. by repeat split.
    + destruct (ppr (ctrl s) =? 64) eqn:E40; simpl.
      * destruct (array_get (clut1 s) x); simpl; [|done].
        intros [= <- <- <-]. by repeat split.
      * intros [= <- <- <-]. by repeat split.
  - destruct (array_get (vram s) (src + 1)) as [b|] eqn:Eb; simpl;
      [|by destruct (array_get (xlut s) x)].
    pose proof (array_get_bytes _ _ _ Hb Eb) as Hbb.
    destruct (array_get (xlut s) x) as [sel|] eqn:Es; simpl; [|done].
    destruct (Z.eqb_spec pixmode 32) as [->|H32]; simpl.
    + replace (src + 2 + 1) with (src + 3) by lia.
      destruct (array_get (vram s) (src + 2)) as [g|] eqn:Eg; simpl; [|done].
      destruct (array_get (vram s) (src + 3)) as [r|] eqn:Er; simpl; [|done].
      pose proof (array_get_bytes _ _ _ Hb Eg) as Hg.
      pose proof (array_get_bytes _ _ _ Hb Er) as Hr.
      replace (src + 2 + 2) with (src + 4) by lia.
      destruct (sel =? 0).
      * rewrite u32_compose by done. intros [= <- <- <-]. by repeat split.
      * destruct (sel =? 64); simpl.
        -- destruct (array_get (clut1 s) x); simpl; [|done].
           intros [= <- <- <-]. by repeat split.
        -- intros [= <- <- <-]. by repeat split.
    + destruct (sel =? 0).
      * rewrite u32_compose by done. intros [= <- <- <-]. by repeat split.
      * destruct (sel =? 64); simpl.
        -- destruct (array_get (clut1 s) x); simpl; [|done].
           intros [= <- <- <-]. by repeat split.
        -- intros [= <- <- <-]. by repeat split.
Qed.

(** With the tables at their declared size and the pixel inside the video
    memory, an iteration of the loop does not fail. *)
Lemma cg14_pixel_abgr_is_Some (s : CG14State) (pixmode src xv : Z) :
  wf_tables s -> bytes_ok (vram s) ->
  0 <= src -> src + bytes_per_pixel pixmode <= Z.of_nat (length (vram s)) ->
  is_Some (cg14_pixel_abgr s pixmode src xv).
Proof.
  intros (Hx & H1 & _) Hb H0 Hlen.
  assert (forall x, 0 <= x < 2 ^ 8 -> is_Some (array_get (clut1 s) x)) as Hclut.
  { intros x Hr. apply array_get_is_Some. rewrite H1. lia. }
  assert (forall x, 0 <= x < 2 ^ 8 -> is_Some (array_get (xlut s) x)) as Hxlut.
  { intros x Hr. apply array_get_is_Some. rewrite Hx. lia. }
  assert (forall d, 0 <= d < bytes_per_pixel pixmode ->
            exists x, array_get (vram s) (src + d) = Some x /\ 0 <= x < 2 ^ 8)
    as Hread.
  { intros d Hd. destruct (array_get_is_Some (vram s) (src + d)) as [x E];
      [lia|]. exists x. split; [done|]. by apply (array_get_bytes _ _ _ Hb E). }
  unfold bytes_per_pixel in Hread.
  unfold cg14_pixel_abgr, ldub_p.
  destruct (Z.eqb_spec pixmode 8) as [->|H8]; simpl in *.
  - destruct (Hread 0) as (x & E & Hr); [lia|].
    rewrite Z.add_0_r in E. rewrite E. simpl.
    destruct (xv =? 0); [done|]. destruct (xv =? 64); [|done].
    destruct (Hclut x Hr) as [c ->]. done.
  - destruct (Z.eqb_spec pixmode 32) as [->|H32]; simpl in *.
    + destruct (Hread 0) as (x & E & Hr); [lia|].
      destruct (Hread 1) as (b & Eb & _); [lia|].
      destruct (Hread 2) as (g & Eg & _); [lia|].
      destruct (Hread 3) as (r & Er & _); [lia|].
      rewrite Z.add_0_r in E. rewrite E. simpl. rewrite Eb. simpl.
      destruct (Hxlut x Hr) as [sel ->]. simpl. rewrite Eg. simpl.
      replace (src + 2 + 1) with (src + 3) by lia. rewrite Er. simpl.
      destruct (sel =? 0); [done|]. destruct (sel =? 64); [|done].
      destruct (Hclut x Hr) as [c ->]. done.
    + destruct (Hread 0) as (x & E & Hr); [lia|].
      destruct (Hread 1) as (b & Eb & _); [lia|].
      rewrite Z.add_0_r in E. rewrite E. simpl. rewrite Eb. simpl.
      destruct (Hxlut x Hr) as [sel ->]. simpl.
      destruct (sel =? 0); [done|]. destruct (sel =? 64); [|done].
      destruct (Hclut x Hr) as [c ->]. done.
Qed.

Lemma bytes_per_pixel_pos (pixmode : Z) : 0 < bytes_per_pixel pixmode.
Proof.
  unfold bytes_per_pixel. destruct (pixmode =? 8); [lia|].
  destruct (pixmode =? 32); lia.
Qed.

(** The loop, for [n] pixels from index [i]: pixel [i + j] of the line
    receives the surface word of the colour of the [j]-th source pixel, and
    the framebuffer is unchanged elsewhere. *)
Lemma draw_line32_loop_pixels (s : CG14State) (dst pixmode is_bgr : Z) (n : nat) :
  forall (i src xv : Z) (fb fb' : gmap Z Z),
  bytes_ok (vram s) ->
  (pixmode = 8 -> xv = ppr (ctrl s)) ->
  draw_line32_loop s dst pixmode is_bgr n i src xv fb = Some fb' ->
  (forall j, 0 <= j < Z.of_nat n ->
     exists abgr,
       pixel_colour s pixmode (src + j * bytes_per_pixel pixmode) = Some abgr /\
       fb' !! (dst + 4 * (i + j)) = Some (to_surface is_bgr abgr)) /\
  (forall key, (forall j, 0 <= j < Z.of_nat n -> key <> dst + 4 * (i + j)) ->
     fb' !! key = fb !! key).
Proof.
  induction n as [|n IH]; intros i src xv fb fb' Hb Hxv Hloop.
  - simpl in Hloop. injection Hloop as <-. split; [lia | done].
  - simpl in Hloop.
    destruct (cg14_pixel_abgr s pixmode src xv) as [[[src1 xv1] abgr]|] eqn:Epix;
      simpl in Hloop; [|done].
    destruct (cg14_pixel_abgr_colour _ _ _ _ _ _ _ Hb Hxv Epix)
      as (-> & Hxv1 & Hcol).
    destruct (IH _ _ _ _ _ Hb Hxv1 Hloop) as [IHpix IHframe].
    split.
    + intros j Hj. destruct (Z.eq_dec j 0) as [->|Hj0].
      * exists abgr. rewrite Z.mul_0_l, !Z.add_0_r. split; [done|].
        rewrite IHframe by (intros j' Hj'; lia).
        apply lookup_insert_eq.
      * destruct (IHpix (j - 1)) as (c & Hc & Hfb); [lia|].
        exists c. split.
        -- rewrite <- Hc. f_equal. lia.
        -- rewrite <- Hfb. f_equal. lia.
    + intros key Hkey.
      rewrite IHframe.
      * apply lookup_insert_ne. specialize (Hkey 0). lia.
      * intros j Hj. specialize (Hkey (j + 1)).
        replace (i + 1 + j) with (i + (j + 1)) by lia. apply Hkey. lia.
Qed.

Lemma draw_line32_loop_is_Some (s : CG14State) (dst pixmode is_bgr : Z) (n : nat) :
  forall (i src xv : Z) (fb : gmap Z Z),
  wf_tables s -> bytes_ok (vram s) ->
  (pixmode = 8 -> xv = ppr (ctrl s)) ->
  0 <= src ->
  src + Z.of_nat n * bytes_per_pixel pixmode <= Z.of_nat (length (vram s)) ->
  is_Some (draw_line32_loop s dst pixmode is_bgr n i src xv fb).
Proof.
  pose proof (bytes_per_pixel_pos pixmode) as Hpos.
  induction n as [|n IH]; intros i src xv fb Ht Hb Hxv H0 Hlen; [done|].
  simpl.
  destruct (cg14_pixel_abgr_is_Some s pixmode src xv Ht Hb H0)
    as [[[src1 xv1] abgr] Epix]; [nia|].
  rewrite Epix. simpl.
  destruct (cg14_pixel_abgr_colour _ _ _ _ _ _ _ Hb Hxv Epix) as (-> & Hxv1 & _).
  apply IH; try done; nia.
Qed.

(** C1: when the tables have their 256 entries and the [width] pixels of
    the line lie inside the video memory, [cg14_draw_line32] completes and
    the word stored for pixel [i] is the surface form of the colour given by
    the palette rule for the pixel at [src + i * bytes_per_pixel]: with the
    selector the packing-ratio register in 8-bit mode and [xlut] of the
    first consumed byte otherwise, the colour is
    [(blue << 16) | (green << 8) | red] for the selector 0 (green and red
    equal to blue outside 32-bit mode), [clut1] of the first consumed byte
    for 0x40, and 0 for any other selector.  In 8-bit mode: selector 0 and
    source byte 0x80 give r = g = b = 0x80, selector 0x40 and source byte 5
    give [clut1[5]], selector 0x01 gives 0. *)
Theorem cg14_draw_line32_pixels (s : CG14State) (fb : gmap Z Z)
    (dst src pixmode is_bgr : Z) :
  wf_tables s ->
  bytes_ok (vram s) ->
  0 <= src ->
  src + width s * bytes_per_pixel pixmode <= Z.of_nat (length (vram s)) ->
  (exists fb', cg14_draw_line32 s fb dst src pixmode is_bgr = Some fb' /\
     forall i, 0 <= i < width s ->
       exists abgr,
         pixel_colour s pixmode (src + i * bytes_per_pixel pixmode) = Some abgr /\
         fb' !! (dst + 4 * i) = Some (to_surface is_bgr abgr)) /\
  cg14_draw_line32 (one_pixel_8bit s 0x80 0) fb dst 0 8 is_bgr
    = Some (<[dst + 4 * 0 := compose 0x80 0x80 0x80]> fb) /\
  cg14_draw_line32 (one_pixel_8bit s 5 0x40) fb dst 0 8 is_bgr
    = (c ← array_get (clut1 s) 5;
       Some (<[dst + 4 * 0 := to_surface is_bgr c]> fb)) /\
  (forall x, cg14_draw_line32 (one_pixel_8bit s x 0x01) fb dst 0 8 is_bgr
             = Some (<[dst + 4 * 0 := 0]> fb)).
Proof.
  intros Ht Hb H0 Hlen. split; [|split; [|split]].
  - unfold cg14_draw_line32.
    destruct (Z.le_gt_cases 0 (width s)) as [Hw|Hw].
    + destruct (draw_line32_loop_is_Some s dst pixmode is_bgr
                  (Z.to_nat (width s)) 0 src (ppr (ctrl s)) fb) as [fb' Hfb];
        [done.. | by rewrite Z2Nat.id | ].
      exists fb'. split; [done|]. intros i Hi.
      destruct (draw_line32_loop_pixels _ _ _ _ _ _ _ _ _ _ Hb (fun _ => eq_refl) Hfb)
        as [Hpix _].
      destruct (Hpix i) as (abgr & Hc & Hw'); [lia|].
      exists abgr. by rewrite Z.add_0_l in Hw'.
    + replace (Z.to_nat (width s)) with 0%nat by lia. simpl.
      exists fb. split; [done|]. intros i Hi. lia.
  - unfold cg14_draw_line32, one_pixel_8bit. simpl. unfold to_surface.
    destruct (is_bgr =? 0); reflexivity.
  - unfold cg14_draw_line32, one_pixel_8bit. simpl.
    unfold cg14_pixel_abgr. simpl.
    by destruct (array_get (clut1 s) 5).
  - intros x. unfold cg14_draw_line32, one_pixel_8bit. simpl.
    unfold to_surface. destruct (is_bgr =? 0); reflexivity.
Qed.

Lemma cg14_draw_line32_pixels_witness :
  (exists fb', cg14_draw_line32 two_pixel_line ∅ 0 0 16 0 = Some fb' /\
     forall i, 0 <= i < width two_pixel_line ->
       exists abgr,
         pixel_colour two_pixel_line 16 (0 + i * bytes_per_pixel 16) = Some abgr /\
         fb' !! (0 + 4 * i) = Some (to_surface 0 abgr)) /\
  cg14_draw_line32 (one_pixel_8bit two_pixel_line 0x80 0) ∅ 0 0 8 0
    = Some (<[0 + 4 * 0 := compose 0x80 0x80 0x80]> ∅) /\
  cg14_draw_line32 (one_pixel_8bit two_pixel_line 5 0x40) ∅ 0 0 8 0
    = (c ← array_get (clut1 two_pixel_line) 5;
       Some (<[0 + 4 * 0 := to_surface 0 c]> ∅)) /\
  (forall x, cg14_draw_line32 (one_pixel_8bit two_pixel_line x 0x01) ∅ 0 0 8 0
             = Some (<[0 + 4 * 0 := 0]> ∅)).
Proof.
  apply (cg14_draw_line32_pixels two_pixel_line ∅ 0 0 16 0).
  - repeat split; reflexivity.
  - unfold bytes_ok. repeat (constructor; [lia|]). constructor.
  - lia.
  - by vm_compute.
Defined.

(** C9: when the tables have their 256 entries and the line lies inside the
    video memory, [cg14_draw_line32] completes and the 32-bit word it stores
    for pixel [i], whose composed colour is [abgr] (blue in bits 23..16,
    green in bits 15..8, red in bits 7..0), is [abgr & 0xFFFFFF] when the
    surface is blue-first, which keeps the three colour bytes in place and is
    [abgr] itself when it has 24 bits; otherwise the stored word has the red
    byte in bits 23..16, the green byte in place, the blue byte in bits 7..0
    and a zero high byte.  For a pixel of direct colour with r = 0x11,
    g = 0x22, b = 0x33 the word stored on a surface that is not blue-first is
    0x112233, not the raw 0x332211, which is stored on a blue-first one. *)
Theorem cg14_draw_line32_channel_order (s : CG14State) (fb : gmap Z Z)
    (dst src pixmode is_bgr : Z) :
  wf_tables s ->
  bytes_ok (vram s) ->
  0 <= src ->
  src + width s * bytes_per_pixel pixmode <= Z.of_nat (length (vram s)) ->
  (exists fb', cg14_draw_line32 s fb dst src pixmode is_bgr = Some fb' /\
     forall i, 0 <= i < width s ->
       exists abgr,
         pixel_colour s pixmode (src + i * bytes_per_pixel pixmode) = Some abgr /\
         fb' !! (dst + 4 * i)
         = Some (if is_bgr =? 0
                 then compose (byte_of 0 abgr) (byte_of 1 abgr) (byte_of 2 abgr)
                 else Z.land abgr 0xFFFFFF) /\
         Z.land abgr 0xFFFFFF
         = compose (byte_of 2 abgr) (byte_of 1 abgr) (byte_of 0 abgr) /\
         (0 <= abgr < 2 ^ 24 -> Z.land abgr 0xFFFFFF = abgr)) /\
  cg14_draw_line32 (rgb_pixel_32bit s) fb dst 0 32 is_bgr
    = Some (<[dst + 4 * 0 := if is_bgr =? 0 then compose 0x11 0x22 0x33
                             else compose 0x33 0x22 0x11]> fb) /\
  compose 0x11 0x22 0x33 <> compose 0x33 0x22 0x11.
Proof.
  intros Ht Hb H0 Hlen. split; [|split].
  - unfold cg14_draw_line32.
    destruct (Z.le_gt_cases 0 (width s)) as [Hw|Hw].
    + destruct (draw_line32_loop_is_Some s dst pixmode is_bgr
                  (Z.to_nat (width s)) 0 src (ppr (ctrl s)) fb) as [fb' Hfb];
        [done.. | by rewrite Z2Nat.id | ].
      exists fb'. split; [done|]. intros i Hi.
      destruct (draw_line32_loop_pixels _ _ _ _ _ _ _ _ _ _ Hb (fun _ => eq_refl) Hfb)
        as [Hpix _].
      destruct (Hpix i) as (abgr & Hc & Hw'); [lia|].
      exists abgr. rewrite Z.add_0_l in Hw'.
      split; [done|]. split; [|split].
      * rewrite Hw'. unfold to_surface.
        destruct (is_bgr =? 0); [by rewrite bgr_to_rgb_bytes | done].
      * apply land_24_bytes.
      * intros Hr. change 0xFFFFFF with (Z.ones 24).
        rewrite Z.land_ones by lia. by apply Z.mod_small.
    + replace (Z.to_nat (width s)) with 0%nat by lia. simpl.
      exists fb. split; [done|]. intros i Hi. lia.
  - unfold cg14_draw_line32, rgb_pixel_32bit. simpl. unfold to_surface.
    destruct (is_bgr =? 0); reflexivity.
  - by vm_compute.
Qed.

Lemma cg14_draw_line32_channel_order_witness :
  (exists fb', cg14_draw_line32 two_pixel_line ∅ 0 0 16 0 = Some fb' /\
     forall i, 0 <= i < width two_pixel_line ->
       exists abgr,
         pixel_colour two_pixel_line 16 (0 + i * bytes_per_pixel 16) = Some abgr /\
         fb' !! (0 + 4 * i)
         = Some (if 0 =? 0
                 then compose (byte_of 0 abgr) (byte_of 1 abgr) (byte_of 2 abgr)
                 else Z.land abgr 0xFFFFFF) /\
         Z.land abgr 0xFFFFFF
         = compose (byte_of 2 abgr) (byte_of 1 abgr) (byte_of 0 abgr) /\
         (0 <= abgr < 2 ^ 24 -> Z.land abgr 0xFFFFFF = abgr)) /\
  cg14_draw_line32 (rgb_pixel_32bit two_pixel_line) ∅ 0 0 32 0
    = Some (<[0 + 4 * 0 := if 0 =? 0 then compose 0x11 0x22 0x33
                           else compose 0x33 0x22 0x11]> ∅) /\
  compose 0x11 0x22 0x33 <> compose 0x33 0x22 0x11.
Proof.
  apply (cg14_draw_line32_channel_order two_pixel_line ∅ 0 0 16 0).
  - repeat split; reflexivity.
  - unfold bytes_ok. repeat (constructor; [lia|]). constructor.
  - lia.
  - by vm_compute.
Defined.

(** * Further properties of the handlers *)

(** ** Surface format *)

Lemma shiftl_lor_add (a b n : Z) :
  0 <= n -> 0 <= b < 2 ^ n -> Z.lor (Z.shiftl a n) b = a * 2 ^ n + b.
Proof.
  intros Hn Hb.
  assert (Z.land (Z.shiftl a n) b = 0) as Hd.
  { apply Z.bits_inj'. intros i Hi. rewrite Z.land_spec, Z.bits_0.
    destruct (Z.ltb_spec i n) as [Hlt|Hge].
    - by rewrite Z.shiftl_spec_low.
    - rewrite (testbit_above_range b n i) by done. apply andb_false_r. }
  rewrite <- Z.lxor_lor, <- Z.add_nocarry_lxor by done.
  by rewrite Z.shiftl_mul_pow2.
Qed.

Lemma compose_add (hi mid lo : Z) :
  0 <= mid < 2 ^ 8 -> 0 <= lo < 2 ^ 8 ->
  compose hi mid lo = hi * 2 ^ 16 + mid * 2 ^ 8 + lo.
Proof.
  intros Hm Hl. unfold compose.
  rewrite (Z.shiftl_mul_pow2 mid 8) by lia.
  rewrite (shiftl_lor_add hi (mid * 2 ^ 8) 16) by lia.
  replace (hi * 2 ^ 16 + mid * 2 ^ 8) with (Z.shiftl (hi * 2 ^ 8 + mid) 8)
    by (rewrite Z.shiftl_mul_pow2; lia).
  rewrite shiftl_lor_add, Z.shiftl_mul_pow2 by lia. reflexivity.
Qed.

Lemma byte_of_div (k x : Z) : 0 <= k -> byte_of k x = (x / 2 ^ (8 * k)) mod 2 ^ 8.
Proof.
  intros Hk. unfold byte_of. change 0xff with (Z.ones 8).
  by rewrite Z.land_ones, Z.shiftr_div_pow2 by lia.
Qed.

Lemma byte_of_compose (hi mid lo : Z) :
  0 <= hi < 2 ^ 8 -> 0 <= mid < 2 ^ 8 -> 0 <= lo < 2 ^ 8 ->
  byte_of 0 (compose hi mid lo) = lo /\
  byte_of 1 (compose hi mid lo) = mid /\
  byte_of 2 (compose hi mid lo) = hi /\
  byte_of 3 (compose hi mid lo) = 0.
Proof.
  intros Hh Hm Hl. rewrite !byte_of_div, compose_add by lia.
  change (2 ^ (8 * 0)) with 1. change (2 ^ (8 * 1)) with 256.
  change (2 ^ (8 * 2)) with 65536. change (2 ^ (8 * 3)) with 16777216.
  change (2 ^ 16) with 65536. change (2 ^ 8) with 256 in *.
  repeat split; Z.div_mod_to_equations; lia.
Qed.

(** X1: swapping red and blue twice gives back the 24 colour bits. *)
Theorem bgr_to_rgb_involutive (bgr : Z) :
  bgr_to_rgb (bgr_to_rgb bgr) = Z.land bgr 0xFFFFFF.
Proof.
  rewrite land_24_bytes, (bgr_to_rgb_bytes (bgr_to_rgb bgr)), bgr_to_rgb_bytes.
  destruct (byte_of_compose (byte_of 0 bgr) (byte_of 1 bgr) (byte_of 2 bgr))
    as (-> & -> & -> & _); by try apply byte_of_range.
Qed.

(** ** Timing registers *)

Lemma timing_offset_low16 (base off : Z) :
  Z.land base 0xffff = 0 -> timing_offset off ->
  Z.land (base + off) 0xffff = off.
Proof.
  intros Hb Ho. apply land_base_offset; [done|].
  destruct Ho as [-> | [-> | [-> | ->]]]; lia.
Qed.

(** X2: a halfword write of a 16-bit value to one of the four timing
    registers is read back at the same offset, and the other three timing
    registers read as before. *)
Theorem cg14_timing_write_read (s : CG14State) (base off off' val : Z) :
  Z.land base 0xffff = 0 ->
  timing_offset off -> timing_offset off' -> off' <> off ->
  0 <= val < 2 ^ 16 ->
  cg14_reg_readw (cg14_reg_writew s (base + off) val) (base + off) = val /\
  cg14_reg_readw (cg14_reg_writew s (base + off) val) (base + off')
  = cg14_reg_readw s (base + off').
Proof.
  intros Hb Ho Ho' Hne Hv. unfold cg14_reg_readw, cg14_reg_writew. cbv zeta.
  rewrite !timing_offset_low16 by done.
  destruct Ho as [-> | [-> | [-> | ->]]];
    destruct Ho' as [-> | [-> | [-> | ->]]]; try done; simpl;
    by rewrite (u16_small val Hv).
Qed.

Lemma cg14_timing_write_read_witness :
  cg14_reg_readw (cg14_reg_writew small_device (0x10000 + 0x0022) 500)
    (0x10000 + 0x0022) = 500 /\
  cg14_reg_readw (cg14_reg_writew small_device (0x10000 + 0x0022) 500)
    (0x10000 + 0x0018)
  = cg14_reg_readw small_device (0x10000 + 0x0018).
Proof.
  apply (cg14_timing_write_read small_device 0x10000 0x0022 0x0018 500);
    unfold timing_offset; [reflexivity | tauto | tauto | lia | lia].
Defined.

(** At a halfword offset that is not one of the four timing registers
    (the sync registers among them) a read returns 0 and a write leaves the
    whole state unchanged, dirty flag included. *)
Lemma cg14_reg_halfword_ignored (s : CG14State) (addr val : Z) :
  ~ timing_offset (Z.land addr 0xffff) ->
  cg14_reg_readw s addr = 0 /\ cg14_reg_writew s addr val = s.
Proof.
  intros Hn. unfold timing_offset in Hn.
  unfold cg14_reg_readw, cg14_reg_writew. cbv zeta.
  destruct (Z.eqb_spec (Z.land addr 0xffff) 0x0018); [tauto|].
  destruct (Z.eqb_spec (Z.land addr 0xffff) 0x001a); [tauto|].
  destruct (Z.eqb_spec (Z.land addr 0xffff) 0x0022); [tauto|].
  destruct (Z.eqb_spec (Z.land addr 0xffff) 0x0024); [tauto|].
  done.
Qed.

Lemma cg14_reg_halfword_ignored_witness :
  cg14_reg_readw small_device 0x001c = 0 /\
  cg14_reg_writew small_device 0x001c 0x1234 = small_device.
Proof.
  apply (cg14_reg_halfword_ignored small_device 0x001c 0x1234).
  unfold timing_offset. vm_compute. intros [H | [H | [H | H]]]; discriminate H.
Defined.

(** ** What the write handlers never touch *)

(** X3: no write handler and no invalidation changes the geometry, the
    address mask or the host display: only a refresh does. *)
Theorem cg14_writes_keep_geometry (a : cg14_access)
    (s s' : CG14State) (ds ds' : DisplayState) :
  a <> UpdateDisplay ->
  cg14_step a (s, ds) = Some (s', ds') ->
  width s' = width s /\ height s' = height s /\
  vram_amask s' = vram_amask s /\ ds' = ds.
Proof.
  intros Ha. destruct a as [addr val|addr val|addr val|addr val|addr val|addr val| |];
    simpl; try done.
  - unfold cg14_reg_writeb.
    destruct (_ =? 0x2000); [by intros [= <- <-]|].
    destruct (_ =? 0x3000).
    + destruct (array_get _ _) as [old|]; simpl; [|done].
      destruct (old =? val); [by intros [= <- <-]|].
      destruct (array_set _ _ _); simpl; [|done]. by intros [= <- <-].
    + cbv zeta. repeat (destruct (_ =? _)); by intros [= <- <-].
  - unfold cg14_reg_writew. cbv zeta.
    repeat (destruct (_ =? _)); by intros [= <- <-].
  - unfold cg14_reg_writel. cbv zeta.
    repeat (destruct (_ =? _));
      try (destruct (array_set _ _ _); simpl; [|done]); by intros [= <- <-].
  - unfold cg14_vram_writeb. cbv zeta.
    destruct (_ =? 0); [|by intros [= <- <-]].
    destruct (stb_p _ _ _); simpl; [|done].
    destruct (_ <? _); by intros [= <- <-].
  - by intros [= <- <-].
  - unfold cg14_vram_writel. cbv zeta.
    destruct (_ =? 0); [|by intros [= <- <-]].
    destruct (stl_be_p _ _ _); simpl; [|done].
    destruct (_ <? _); by intros [= <- <-].
  - by intros [= <- <-].
Qed.

Lemma cg14_writes_keep_geometry_witness :
  width (cg14_reg_writew small_device 0x001a 7) = width small_device /\
  height (cg14_reg_writew small_device 0x001a 7) = height small_device /\
  vram_amask (cg14_reg_writew small_device 0x001a 7) = vram_amask small_device /\
  small_surface = small_surface.
Proof.
  apply (cg14_writes_keep_geometry (RegWriteW 0x001a 7) small_device _
           small_surface small_surface); [discriminate | reflexivity].
Defined.

(** ** XLUT *)

Lemma xlut_address (base i : Z) :
  Z.land base 0xffff = 0 -> 0 <= i <= 255 ->
  Z.land (base + 0x3000 + i) 0xfcff <> 0x2000 /\
  Z.land (base + 0x3000 + i) 0xff00 = 0x3000 /\
  Z.land (base + 0x3000 + i) 0xff = i /\
  Z.land (base + 0x3000 + i) 0xffff = 0x3000 + i.
Proof.
  intros Hb Hi.
  assert (Z.land (base + 0x3000 + i) 0xffff = 0x3000 + i) as H16.
  { rewrite <- Z.add_assoc. apply land_base_offset; [done | lia]. }
  rewrite (land_low16 _ 0xfcff), (land_low16 _ 0xff00), (land_low16 _ 0xff),
    H16 by done.
  assert (Z.land (0x3000 + i) 0xff = i) as Hlow.
  { change 0xff with (Z.ones 8). rewrite Z.land_ones by lia.
    Z.div_mod_to_equations. lia. }
  assert (Z.land (0x3000 + i) 0xff00 = 0x3000) as Hhigh.
  { assert (Z.land (0x3000 + i) 0xffff = 0x3000 + i) as E.
    { change 0xffff with (Z.ones 16). rewrite Z.land_ones by lia.
      apply Z.mod_small. lia. }
    assert (Z.land (Z.land (0x3000 + i) 0xff00) (Z.land (0x3000 + i) 0xff) = 0)
      as Hd.
    { change 0xff00 with (Z.shiftl (Z.ones 8) 8). change 0xff with (Z.ones 8).
      Z.bitblast. }
    assert (Z.land (0x3000 + i) 0xffff
            = Z.lor (Z.land (0x3000 + i) 0xff00) (Z.land (0x3000 + i) 0xff)) as E2.
    { rewrite <- Z.land_lor_distr_r. reflexivity. }
    rewrite <- Z.lxor_lor, <- Z.add_nocarry_lxor in E2 by done. lia. }
  repeat split; try done.
  assert (Z.land (0x3000 + i) 0xfcff
          = Z.lor (Z.land (Z.land (0x3000 + i) 0xff00) 0xfc00)
                  (Z.land (0x3000 + i) 0xff)) as ->.
  { rewrite <- Z.land_assoc. change (Z.land 0xff00 0xfc00) with 0xfc00.
    rewrite <- Z.land_lor_distr_r. reflexivity. }
  rewrite Hhigh, Hlow. change (Z.land 0x3000 0xfc00) with 0x3000.
  intros H.
  assert (Z.testbit (Z.lor 0x3000 i) 12 = Z.testbit 0x2000 12) as Hbit
    by (by rewrite H).
  rewrite Z.lor_spec in Hbit. by vm_compute in Hbit.
Qed.

(** Byte reads above the control registers return 0. *)
Lemma cg14_reg_readb_high (s : CG14State) (addr : Z) :
  8 <= Z.land addr 0xffff -> cg14_reg_readb s addr = 0.
Proof.
  intros H. unfold cg14_reg_readb. cbv zeta.
  destruct (Z.eqb_spec (Z.land addr 0xffff) 0x0000); [lia|].
  destruct (Z.eqb_spec (Z.land addr 0xffff) 0x0001); [lia|].
  destruct (Z.eqb_spec (Z.land addr 0xffff) 0x0004); [lia|].
  destruct (Z.eqb_spec (Z.land addr 0xffff) 0x0006); [lia|].
  done.
Qed.

(** The XLUT branch of [cg14_reg_writeb], decoded. *)
Lemma cg14_reg_writeb_xlut (s : CG14State) (base i val old : Z) :
  length (xlut s) = 256%nat ->
  Z.land base 0xffff = 0 -> 0 <= i <= 255 ->
  array_get (xlut s) i = Some old ->
  cg14_reg_writeb s (base + 0x3000 + i) val
  = Some (if old =? val then s
          else set_xlut (<[Z.to_nat i := u8 val]> (xlut s)) (set_dirty 1 s)).
Proof.
  intros Hx Hbase Hi Hold.
  destruct (xlut_address base i Hbase Hi) as (Hd & Hr & Hidx & _).
  unfold cg14_reg_writeb.
  apply Z.eqb_neq in Hd. rewrite Hd, Hr, Hidx. simpl.
  rewrite (u32_small i), Hold by lia. simpl.
  destruct (old =? val); [done|].
  by rewrite array_set_Some by (rewrite Hx; lia).
Qed.

(** X4: a byte write to entry [i] of the XLUT ([0x3000 + i]) stores the low
    eight bits of the value and leaves the other entries alone; the state is
    left as it was when the entry already holds the written value, and the
    dirty flag is set otherwise.  The table cannot be read back: a byte read
    at the same offset returns 0. *)
Theorem cg14_xlut_write (s : CG14State) (base i val : Z) :
  wf_tables s -> bytes_ok (xlut s) ->
  Z.land base 0xffff = 0 -> 0 <= i <= 255 ->
  exists s', cg14_reg_writeb s (base + 0x3000 + i) val = Some s' /\
    array_get (xlut s') i = Some (u8 val) /\
    (forall j, 0 <= j -> j <> i -> array_get (xlut s') j = array_get (xlut s) j) /\
    (array_get (xlut s) i = Some val -> s' = s) /\
    (array_get (xlut s) i <> Some val -> dirty s' = 1) /\
    cg14_reg_readb s' (base + 0x3000 + i) = 0.
Proof.
  intros (Hx & _ & _) Hb Hbase Hi.
  destruct (xlut_address base i Hbase Hi) as (_ & _ & _ & H16).
  assert (forall s0, cg14_reg_readb s0 (base + 0x3000 + i) = 0) as Hread0.
  { intros s0. apply cg14_reg_readb_high. lia. }
  destruct (array_get_is_Some (xlut s) i) as [old Hold]; [rewrite Hx; lia|].
  rewrite (cg14_reg_writeb_xlut s base i val old) by done.
  pose proof (array_get_bytes _ _ _ Hb Hold) as Hob.
  destruct (Z.eqb_spec old val) as [->|Hne].
  - exists s. rewrite (u8_small val Hob). repeat split; try done.
  - eexists. split; [done|]. simpl.
    rewrite array_get_insert_eq by (rewrite Hx; lia).
    repeat split; try done.
    + intros j Hj Hji. apply array_get_insert_ne; lia.
    + intros E. congruence.
Qed.

Lemma cg14_xlut_write_witness :
  exists s', cg14_reg_writeb small_device (0 + 0x3000 + 7) 0x140 = Some s' /\
    array_get (xlut s') 7 = Some (u8 0x140) /\
    (forall j, 0 <= j -> j <> 7 ->
       array_get (xlut s') j = array_get (xlut small_device) j) /\
    (array_get (xlut small_device) 7 = Some 0x140 -> s' = small_device) /\
    (array_get (xlut small_device) 7 <> Some 0x140 -> dirty s' = 1) /\
    cg14_reg_readb s' (0 + 0x3000 + 7) = 0.
Proof.
  apply (cg14_xlut_write small_device 0 7 0x140).
  - repeat split; reflexivity.
  - apply Forall_replicate. lia.
  - reflexivity.
  - lia.
Defined.

(** ** DAC *)

Lemma dac_lut_writes (vals : list Z) :
  forall d : ADV7152_state,
  - 2 ^ 31 <= rgb_seq d ->
  rgb_seq d + Z.of_nat (length vals) <= INT_MAX ->
  foldl (fun d v => ADV7152_write d 1 v) d vals
  = mkADV7152 (mode d) (address d) (rgb_seq d + Z.of_nat (length vals)).
Proof.
  induction vals as [|v vals IH]; intros d Hlo Hhi; simpl.
  - rewrite Z.add_0_r. by destruct d.
  - rewrite ADV7152_write_lut by (simpl in Hhi; lia).
    rewrite IH by (simpl in *; lia). simpl. f_equal. lia.
Qed.

(** X5: after an address write, the sequence counter counts the
    look-up-table writes made since: it equals their number, the address
    register holds the low eight bits of the address written, and the mode
    register is untouched. *)
Theorem ADV7152_sequence_counter (d : ADV7152_state) (a : Z) (vals : list Z) :
  Z.of_nat (length vals) <= INT_MAX ->
  dac_triplet_writes d a vals
  = mkADV7152 (mode d) (u8 a) (Z.of_nat (length vals)).
Proof.
  intros Hn. unfold dac_triplet_writes.
  rewrite ADV7152_write_address, dac_lut_writes; simpl; [done | lia | lia].
Qed.

Lemma ADV7152_sequence_counter_witness :
  dac_triplet_writes (mkADV7152 4 9 17) 0x105 [0xff; 0x80; 0x00]
  = mkADV7152 (mode (mkADV7152 4 9 17)) (u8 0x105)
              (Z.of_nat (length [0xff; 0x80; 0x00])).
Proof.
  apply (ADV7152_sequence_counter (mkADV7152 4 9 17) 0x105 [0xff; 0x80; 0x00]).
  by vm_compute.
Defined.

Lemma dac_address (base r : Z) :
  Z.land base 0xffff = 0 -> 0 <= r <= 3 ->
  Z.land (base + 0x2000 + 0x100 * r) 0xfcff = 0x2000 /\
  Z.shiftr (Z.land (base + 0x2000 + 0x100 * r) 0x300) 8 = r.
Proof.
  intros Hb Hr.
  assert (Z.land (base + 0x2000 + 0x100 * r) 0xffff = 0x2000 + 0x100 * r) as H16.
  { rewrite <- Z.add_assoc. apply land_base_offset; [done | lia]. }
  rewrite (land_low16 _ 0xfcff), (land_low16 _ 0x300), H16 by done.
  assert (r = 0 \/ r = 1 \/ r = 2 \/ r = 3) as [-> | [-> | [-> | ->]]] by lia;
    by vm_compute.
Qed.

(** X6: a byte write at [0x2000 + 0x100 * r] is a write to DAC
    sub-register [r]; it changes the DAC state only: the dirty flag, the
    tables, the registers and the video memory are those of before. *)
Theorem cg14_dac_write_dispatch (s : CG14State) (base r val : Z) :
  Z.land base 0xffff = 0 -> 0 <= r <= 3 ->
  cg14_reg_writeb s (base + 0x2000 + 0x100 * r) val
  = Some (set_dac (ADV7152_write (dac s) r val) s).
Proof.
  intros Hb Hr. destruct (dac_address base r Hb Hr) as [Hp Hi].
  unfold cg14_reg_writeb. rewrite Hp, Hi. simpl.
  by rewrite u32_small by lia.
Qed.

Lemma cg14_dac_write_dispatch_witness :
  cg14_reg_writeb small_device (0x10000 + 0x2000 + 0x100 * 3) 6
  = Some (set_dac (ADV7152_write (dac small_device) 3 6) small_device).
Proof.
  apply (cg14_dac_write_dispatch small_device 0x10000 3 6); [reflexivity | lia].
Defined.

(** ** Video-memory windows, continued *)

Lemma land_shiftl_shiftr (a m n : Z) :
  0 <= n ->
  Z.land (Z.shiftl a n) m = Z.shiftl (Z.land a (Z.shiftr m n)) n.
Proof.
  intros Hn. apply Z.bits_inj'. intros i Hi. rewrite Z.land_spec.
  destruct (Z.ltb_spec i n) as [Hlt|Hge].
  - by rewrite !Z.shiftl_spec_low.
  - rewrite !Z.shiftl_spec, Z.land_spec, Z.shiftr_spec by lia.
    do 2 f_equal. lia.
Qed.

Lemma shiftr_pow2_pred (k n : Z) :
  0 <= n <= k -> Z.shiftr (2 ^ k - 1) n = 2 ^ (k - n) - 1.
Proof.
  intros H. rewrite Z.shiftr_div_pow2 by lia.
  assert (2 ^ k = 2 ^ (k - n) * 2 ^ n) as ->.
  { rewrite <- Z.pow_add_r by lia. f_equal. lia. }
  assert (0 < 2 ^ n) by lia. assert (0 < 2 ^ (k - n)) by lia.
  symmetry. apply Z.div_unique with (r := 2 ^ n - 1); lia.
Qed.

Lemma window3_offset_parts (amask a : Z) :
  window3_offset amask a
  = 4 * Z.land a (Z.shiftr amask 2) + Z.land (Z.shiftr a 22) 3 /\
  0 <= Z.land (Z.shiftr a 22) 3 <= 3.
Proof.
  unfold window3_offset. rewrite land_shiftl_shiftr, Z.shiftl_mul_pow2 by lia.
  pose proof (land_range (Z.shiftr a 22) 3 2). split; lia.
Qed.

Lemma window3_offset_u32 (amask a : Z) :
  0 <= amask < 2 ^ 32 ->
  u32 (Z.land (u64 (Z.shiftl a 2)) amask + Z.land (Z.shiftr a 22) 3)
  = window3_offset amask a.
Proof.
  intros Hm. rewrite land_u64 by done.
  change (Z.land (Z.shiftl a 2) amask + Z.land (Z.shiftr a 22) 3)
    with (window3_offset amask a).
  destruct (window3_offset_parts amask a) as [-> Hp].
  apply u32_small.
  assert (0 <= Z.land a (Z.shiftr amask 2) < 2 ^ 30) as Hq.
  { apply land_range; [lia|]. rewrite Z.shiftr_div_pow2 by lia.
    change (2 ^ 2) with 4. change (2 ^ 32) with (4 * 2 ^ 30) in Hm.
    Z.div_mod_to_equations. lia. }
  lia.
Qed.

Lemma window3_offset_range (k a : Z) :
  2 <= k -> 0 <= window3_offset (2 ^ k - 1) a < 2 ^ k.
Proof.
  intros Hk. destruct (window3_offset_parts (2 ^ k - 1) a) as [-> Hp].
  rewrite shiftr_pow2_pred by lia.
  pose proof (land_ones_range a (k - 2)) as Hq.
  assert (2 ^ k = 4 * 2 ^ (k - 2)) as ->.
  { change 4 with (2 ^ 2). rewrite <- Z.pow_add_r by lia. f_equal. lia. }
  lia.
Qed.

Lemma cg14_vram_readb_window3 (s : CG14State) (a : Z) :
  0 <= vram_amask s < 2 ^ 32 ->
  Z.land a 0x3000000 = 0x3000000 ->
  cg14_vram_readb s a = ldub_p (vram s) (window3_offset (vram_amask s) a).
Proof.
  intros Hm Hw. unfold cg14_vram_readb. cbv zeta. rewrite Hw. simpl.
  by rewrite window3_offset_u32.
Qed.

Lemma pow2_mask_range (k : Z) : 0 <= k < 32 -> 0 <= 2 ^ k - 1 < 2 ^ 32.
Proof.
  intros Hk. assert (0 < 2 ^ k <= 2 ^ 32).
  { split; [lia|]. apply Z.pow_le_mono_r; lia. }
  lia.
Qed.

(** Two addresses that agree outside bits 22 and 23. *)
Lemma agree_outside_22_23 (a a' i : Z) :
  Z.ldiff (Z.lxor a a') 0xC00000 = 0 -> 0 <= i -> i <> 22 -> i <> 23 ->
  Z.testbit a' i = Z.testbit a i.
Proof.
  intros H Hi H22 H23.
  assert (Z.testbit (Z.ldiff (Z.lxor a a') 0xC00000) i = false) as Hb
    by (by rewrite H, Z.bits_0).
  rewrite Z.ldiff_spec, Z.lxor_spec in Hb.
  assert (Z.testbit 0xC00000 i = false) as Hc.
  { change 0xC00000 with (Z.shiftl (Z.ones 2) 22).
    destruct (Z.ltb_spec i 22) as [Hlt|Hge].
    - by rewrite Z.shiftl_spec_low.
    - rewrite Z.shiftl_spec, Z.testbit_ones_nonneg by lia.
      apply Z.ltb_ge. lia. }
  rewrite Hc in Hb. simpl in Hb. rewrite andb_true_r in Hb.
  by destruct (Z.testbit a i), (Z.testbit a' i).
Qed.

(** X7: with a video memory of [2 ^ k] bytes, [2 <= k <= 24], a byte read
    at an address [a] of window 3 returns the byte stored at offset
    [((a << 2) & vram_amask) + ((a >> 22) & 3)]; an address [a'] that agrees
    with [a] outside bits 22 and 23 is in window 3 too and its offset differs
    from that of [a] by the difference of their two-bit phases, so that the
    four phases select four consecutive bytes. *)
Theorem cg14_vram_window3_interleave (s : CG14State) (k a a' : Z) :
  2 <= k <= 24 ->
  vram_amask s = 2 ^ k - 1 ->
  Z.of_nat (length (vram s)) = 2 ^ k ->
  Z.land a 0x3000000 = 0x3000000 ->
  Z.ldiff (Z.lxor a a') 0xC00000 = 0 ->
  (exists b, cg14_vram_readb s a = Some b /\
     vram s !! Z.to_nat (window3_offset (vram_amask s) a) = Some b) /\
  Z.land a' 0x3000000 = 0x3000000 /\
  0 <= Z.land (Z.shiftr a 22) 3 <= 3 /\
  window3_offset (vram_amask s) a' - window3_offset (vram_amask s) a
  = Z.land (Z.shiftr a' 22) 3 - Z.land (Z.shiftr a 22) 3.
Proof.
  intros Hk Hm Hlen Hw Hx.
  pose proof (pow2_mask_range k ltac:(lia)) as Hr. rewrite <- Hm in Hr.
  split; [|split; [|split]].
  - rewrite cg14_vram_readb_window3 by done.
    assert (0 <= window3_offset (vram_amask s) a < 2 ^ k) as Ho.
    { rewrite Hm. apply window3_offset_range. lia. }
    unfold ldub_p, array_get. rewrite decide_True by lia.
    destruct (lookup_lt_is_Some_2 (vram s)
                (Z.to_nat (window3_offset (vram_amask s) a))) as [b Hb]; [lia|].
    by exists b.
  - assert (Z.land a' 0x3000000 = Z.land a 0x3000000) as ->; [|done].
    apply Z.bits_inj'. intros i Hi. rewrite !Z.land_spec.
    destruct (Z.eq_dec i 22) as [->|H22].
    { change (Z.testbit 0x3000000 22) with false. by rewrite !andb_false_r. }
    destruct (Z.eq_dec i 23) as [->|H23].
    { change (Z.testbit 0x3000000 23) with false. by rewrite !andb_false_r. }
    by rewrite (agree_outside_22_23 a a' i).
  - apply (window3_offset_parts (vram_amask s) a).
  - unfold window3_offset.
    assert (Z.land (Z.shiftl a' 2) (vram_amask s)
            = Z.land (Z.shiftl a 2) (vram_amask s)) as ->; [|lia].
    rewrite Hm. replace (2 ^ k - 1) with (Z.ones k)
      by (rewrite Z.ones_equiv; lia).
    apply Z.bits_inj'. intros i Hi.
    rewrite !Z.land_spec, !Z.testbit_ones_nonneg by lia.
    destruct (Z.ltb_spec i k) as [Hlt|Hge]; [|by rewrite !andb_false_r].
    rewrite !andb_true_r.
    destruct (Z.ltb_spec i 2) as [Hlt2|Hge2].
    + by rewrite !Z.shiftl_spec_low.
    + rewrite !Z.shiftl_spec by lia.
      apply agree_outside_22_23; [done | lia..].
Qed.

Lemma cg14_vram_window3_interleave_witness :
  (exists b, cg14_vram_readb small_device 0x3000001 = Some b /\
     vram small_device
       !! Z.to_nat (window3_offset (vram_amask small_device) 0x3000001)
     = Some b) /\
  Z.land 0x3C00001 0x3000000 = 0x3000000 /\
  0 <= Z.land (Z.shiftr 0x3000001 22) 3 <= 3 /\
  window3_offset (vram_amask small_device) 0x3C00001
  - window3_offset (vram_amask small_device) 0x3000001
  = Z.land (Z.shiftr 0x3C00001 22) 3 - Z.land (Z.shiftr 0x3000001 22) 3.
Proof.
  apply (cg14_vram_window3_interleave small_device 4 0x3000001 0x3C00001);
    [lia | reflexivity | reflexivity | reflexivity | reflexivity].
Defined.

(** ** Window 0: stores and their views *)

Lemma cg14_vram_writeb_window0 (s : CG14State) (addr val : Z) :
  0 <= vram_amask s < 2 ^ 32 ->
  Z.land addr 0x3000000 = 0 ->
  0 <= Z.land addr (vram_amask s) < Z.of_nat (length (vram s)) ->
  exists s', cg14_vram_writeb s addr val = Some s' /\
    vram s' = <[Z.to_nat (Z.land addr (vram_amask s)) := u8 val]> (vram s) /\
    vram_amask s' = vram_amask s.
Proof.
  intros Hm Hw Ho. unfold cg14_vram_writeb. cbv zeta. rewrite Hw. simpl.
  rewrite window0_offset_u32 by done. unfold stb_p.
  rewrite array_set_Some by done. simpl.
  destruct (_ <? _); eexists; by repeat split.
Qed.

Lemma cg14_vram_readb_window0 (s : CG14State) (addr : Z) :
  0 <= vram_amask s < 2 ^ 32 ->
  Z.land addr 0x3000000 = 0 ->
  cg14_vram_readb s addr = array_get (vram s) (Z.land addr (vram_amask s)).
Proof.
  intros Hm Hw. unfold cg14_vram_readb. cbv zeta. rewrite Hw. simpl.
  by rewrite window0_offset_u32.
Qed.

(** X8: in window 0 a byte write is read back, truncated to eight bits, at
    every address with the same masked offset (addresses beyond the memory
    size wrap around), and changes no byte read at another masked offset. *)
Theorem cg14_vram_byte_write_read (s : CG14State) (addr addr' val : Z) :
  wf_vram s ->
  Z.land addr 0x3000000 = 0 ->
  Z.land addr' 0x3000000 = 0 ->
  exists s', cg14_vram_writeb s addr val = Some s' /\
    cg14_vram_readb s' addr = Some (u8 val) /\
    cg14_vram_readb s' addr'
    = (if decide (Z.land addr' (vram_amask s) = Z.land addr (vram_amask s))
       then Some (u8 val) else cg14_vram_readb s addr').
Proof.
  intros Hwf Hw Hw'.
  pose proof (wf_vram_amask s Hwf) as Hm.
  pose proof (wf_vram_offset s addr Hwf) as Ho.
  pose proof (wf_vram_offset s addr' Hwf) as Ho'.
  destruct (cg14_vram_writeb_window0 s addr val Hm Hw Ho) as (s' & Hs' & Hv & Ha).
  exists s'. split; [done|].
  rewrite !cg14_vram_readb_window0 by (done || by rewrite Ha).
  rewrite Ha, Hv. split; [by apply array_get_insert_eq|].
  case_decide as E.
  - rewrite E. by apply array_get_insert_eq.
  - apply array_get_insert_ne; lia.
Qed.

Lemma cg14_vram_byte_write_read_witness :
  exists s', cg14_vram_writeb small_device 0x13 0x1ff = Some s' /\
    cg14_vram_readb s' 0x13 = Some (u8 0x1ff) /\
    cg14_vram_readb s' 0x3
    = (if decide (Z.land 0x3 (vram_amask small_device)
                  = Z.land 0x13 (vram_amask small_device))
       then Some (u8 0x1ff) else cg14_vram_readb small_device 0x3).
Proof.
  apply (cg14_vram_byte_write_read small_device 0x13 0x3 0x1ff);
    [exact small_device_wf_vram | reflexivity | reflexivity].
Defined.

(** X9: nothing is stored through windows 1 to 3: there a byte write and a
    word write leave the state as it is, a halfword write changes the dirty
    flag only, and a word read returns 0; video-memory halfword reads return
    0 everywhere.  A byte read in window 1 returns 0 whatever the memory
    holds. *)
Theorem cg14_vram_windows_read_only (s : CG14State) (addr val : Z) :
  Z.land addr 0x3000000 <> 0 ->
  cg14_vram_writeb s addr val = Some s /\
  cg14_vram_writel s addr val = Some s /\
  cg14_vram_writew s addr val = set_dirty 1 s /\
  cg14_vram_readl s addr = Some 0 /\
  cg14_vram_readw s addr = 0 /\
  (Z.land addr 0x3000000 = 0x1000000 -> cg14_vram_readb s addr = Some 0).
Proof.
  intros Hw. apply Z.eqb_neq in Hw.
  unfold cg14_vram_writeb, cg14_vram_writel, cg14_vram_readl, cg14_vram_readb.
  cbv zeta. rewrite Hw. repeat split. by intros ->.
Qed.

Lemma cg14_vram_windows_read_only_witness :
  cg14_vram_writeb small_device 0x1000004 0xff = Some small_device /\
  cg14_vram_writel small_device 0x1000004 0xff = Some small_device /\
  cg14_vram_writew small_device 0x1000004 0xff = set_dirty 1 small_device /\
  cg14_vram_readl small_device 0x1000004 = Some 0 /\
  cg14_vram_readw small_device 0x1000004 = 0 /\
  (Z.land 0x1000004 0x3000000 = 0x1000000 ->
   cg14_vram_readb small_device 0x1000004 = Some 0).
Proof.
  apply (cg14_vram_windows_read_only small_device 0x1000004 0xff).
  by vm_compute.
Defined.

Lemma window0_address (k x : Z) :
  0 <= k <= 24 -> 0 <= x < 2 ^ k ->
  Z.land x 0x3000000 = 0 /\ Z.land x (2 ^ k - 1) = x.
Proof.
  intros Hk Hx. split.
  - apply Z.bits_inj'. intros i Hi. rewrite Z.land_spec, Z.bits_0.
    destruct (Z.ltb_spec i 24) as [Hlt|Hge].
    + change 0x3000000 with (Z.shiftl 3 24).
      rewrite Z.shiftl_spec_low by done. apply andb_false_r.
    + assert (2 ^ k <= 2 ^ 24) by (apply Z.pow_le_mono_r; lia).
      by rewrite (testbit_above_range x 24 i) by lia.
  - replace (2 ^ k - 1) with (Z.ones k) by (rewrite Z.ones_equiv; lia).
    rewrite Z.land_ones by lia. by apply Z.mod_small.
Qed.

(** X10: the windows are views of one store.  With [2 ^ k] bytes of video
    memory, [2 <= k <= 24], a byte written through window 0 at the storage
    offset of a window-2 address, or of a window-3 address, is the byte read
    at that address. *)
Theorem cg14_vram_windows_alias (s : CG14State) (k a2 a3 val : Z) :
  2 <= k <= 24 ->
  vram_amask s = 2 ^ k - 1 ->
  Z.of_nat (length (vram s)) = 2 ^ k ->
  Z.land a2 0x3000000 = 0x2000000 ->
  Z.land a3 0x3000000 = 0x3000000 ->
  (exists s', cg14_vram_writeb s (window2_offset (vram_amask s) a2) val = Some s' /\
     cg14_vram_readb s' a2 = Some (u8 val)) /\
  (exists s', cg14_vram_writeb s (window3_offset (vram_amask s) a3) val = Some s' /\
     cg14_vram_readb s' a3 = Some (u8 val)).
Proof.
  intros Hk Hm Hlen H2 H3.
  pose proof (pow2_mask_range k ltac:(lia)) as Hr. rewrite <- Hm in Hr.
  assert (forall o, 0 <= o < 2 ^ k ->
            exists s', cg14_vram_writeb s o val = Some s' /\
              vram s' = <[Z.to_nat o := u8 val]> (vram s) /\
              vram_amask s' = vram_amask s) as Hwrite.
  { intros o Ho. destruct (window0_address k o) as [Hw0 Hmask]; [lia | done |].
    destruct (cg14_vram_writeb_window0 s o val) as (s' & Hs' & Hv & Ha);
      [done | done | rewrite Hm, Hmask; lia |].
    exists s'. by rewrite Hm, Hmask in Hv. }
  split.
  - assert (0 <= window2_offset (vram_amask s) a2 < 2 ^ k) as Ho.
    { rewrite Hm. apply window2_offset_range. lia. }
    destruct (Hwrite _ Ho) as (s' & Hs' & Hv & Ha).
    exists s'. split; [done|].
    rewrite cg14_vram_readb_window2 by (done || by rewrite Ha).
    rewrite Ha, Hv. apply array_get_insert_eq. lia.
  - assert (0 <= window3_offset (vram_amask s) a3 < 2 ^ k) as Ho.
    { rewrite Hm. apply window3_offset_range. lia. }
    destruct (Hwrite _ Ho) as (s' & Hs' & Hv & Ha).
    exists s'. split; [done|].
    rewrite cg14_vram_readb_window3 by (done || by rewrite Ha).
    rewrite Ha, Hv. apply array_get_insert_eq. lia.
Qed.

Lemma cg14_vram_windows_alias_witness :
  (exists s', cg14_vram_writeb small_device
                (window2_offset (vram_amask small_device) 0x2800003) 0xab
              = Some s' /\
     cg14_vram_readb s' 0x2800003 = Some (u8 0xab)) /\
  (exists s', cg14_vram_writeb small_device
                (window3_offset (vram_amask small_device) 0x3800002) 0xab
              = Some s' /\
     cg14_vram_readb s' 0x3800002 = Some (u8 0xab)).
Proof.
  apply (cg14_vram_windows_alias small_device 4 0x2800003 0x3800002 0xab);
    [lia | reflexivity | reflexivity | reflexivity | reflexivity].
Defined.

Lemma u8_shiftr_byte_of (k v : Z) : u8 (Z.shiftr v (8 * k)) = byte_of k v.
Proof.
  unfold u8, byte_of. change 0xff with (Z.ones 8).
  by rewrite Z.land_ones by lia.
Qed.

Lemma stl_be_p_bytes (m : list Z) (off v : Z) :
  0 <= off -> off + 4 <= Z.of_nat (length m) ->
  stl_be_p m off v
  = Some (<[Z.to_nat (off + 3) := byte_of 0 v]>
          (<[Z.to_nat (off + 2) := byte_of 1 v]>
           (<[Z.to_nat (off + 1) := byte_of 2 v]>
            (<[Z.to_nat off := byte_of 3 v]> m)))).
Proof.
  intros H0 H4. rewrite stl_be_p_Some by done.
  rewrite <- (u8_shiftr_byte_of 3), <- (u8_shiftr_byte_of 2),
    <- (u8_shiftr_byte_of 1), <- (u8_shiftr_byte_of 0).
  reflexivity.
Qed.

(** X11: a word written in window 0 is laid out most significant byte
    first: after the write, the byte read at an address whose masked offset
    is [j] bytes past that of the word, [0 <= j <= 3], is byte [3 - j] of the
    value. *)
Theorem cg14_vram_word_big_endian (s : CG14State) (addr addr_j j val : Z) :
  wf_vram s ->
  Z.land addr 0x3000000 = 0 ->
  Z.land addr (vram_amask s) + 4 <= Z.of_nat (length (vram s)) ->
  0 <= j <= 3 ->
  Z.land addr_j 0x3000000 = 0 ->
  Z.land addr_j (vram_amask s) = Z.land addr (vram_amask s) + j ->
  exists s', cg14_vram_writel s addr val = Some s' /\
    cg14_vram_readb s' addr_j = Some (byte_of (3 - j) val).
Proof.
  intros Hwf Hw Hin Hj Hwj Hoj.
  pose proof (wf_vram_amask s Hwf) as Hm.
  pose proof (wf_vram_offset s addr Hwf) as Ho.
  unfold cg14_vram_writel. cbv zeta. rewrite Hw. simpl.
  rewrite window0_offset_u32 by done.
  set (off := Z.land addr (vram_amask s)) in *.
  rewrite stl_be_p_bytes by lia. simpl.
  assert (forall s', vram_amask s' = vram_amask s ->
            vram s' = <[Z.to_nat (off + 3) := byte_of 0 val]>
                      (<[Z.to_nat (off + 2) := byte_of 1 val]>
                       (<[Z.to_nat (off + 1) := byte_of 2 val]>
                        (<[Z.to_nat off := byte_of 3 val]> (vram s)))) ->
            cg14_vram_readb s' addr_j = Some (byte_of (3 - j) val)) as Hread.
  { intros s' Ha Hv.
    rewrite cg14_vram_readb_window0 by (done || by rewrite Ha).
    rewrite Ha, Hv, Hoj.
    assert (j = 0 \/ j = 1 \/ j = 2 \/ j = 3) as [-> | [-> | [-> | ->]]] by lia.
    - rewrite Z.add_0_r.
      rewrite (array_get_insert_ne _ (off + 3) off),
        (array_get_insert_ne _ (off + 2) off),
        (array_get_insert_ne _ (off + 1) off) by lia.
      by rewrite array_get_insert_eq by lia.
    - rewrite (array_get_insert_ne _ (off + 3) (off + 1)),
        (array_get_insert_ne _ (off + 2) (off + 1)) by lia.
      by rewrite array_get_insert_eq by (rewrite ?length_insert; lia).
    - rewrite (array_get_insert_ne _ (off + 3) (off + 2)) by lia.
      by rewrite array_get_insert_eq by (rewrite ?length_insert; lia).
    - by rewrite array_get_insert_eq by (rewrite ?length_insert; lia). }
  destruct (_ <? _); eexists; (split; [done|]); by apply Hread.
Qed.

Lemma cg14_vram_word_big_endian_witness :
  exists s', cg14_vram_writel small_device 0x8 0x11223344 = Some s' /\
    cg14_vram_readb s' 0x9 = Some (byte_of (3 - 1) 0x11223344).
Proof.
  apply (cg14_vram_word_big_endian small_device 0x8 0x9 1 0x11223344);
    [exact small_device_wf_vram | reflexivity | by vm_compute | lia
    | reflexivity | reflexivity].
Defined.

Lemma aligned_word_offset (k addr : Z) :
  2 <= k -> Z.land addr 3 = 0 ->
  0 <= Z.land addr (2 ^ k - 1) /\ Z.land addr (2 ^ k - 1) + 4 <= 2 ^ k.
Proof.
  intros Hk Ha.
  pose proof (land_ones_range addr k ltac:(lia)) as Hr.
  assert (Z.land (Z.land addr (2 ^ k - 1)) 3 = 0) as Hal.
  { rewrite <- Z.land_assoc, (Z.land_comm (2 ^ k - 1)), Z.land_assoc, Ha.
    apply Z.land_0_l. }
  change 3 with (Z.ones 2) in Hal. rewrite Z.land_ones in Hal by lia.
  assert (2 ^ k = 4 * 2 ^ (k - 2)) as E.
  { change 4 with (2 ^ 2). rewrite <- Z.pow_add_r by lia. f_equal. lia. }
  change (2 ^ 2) with 4 in Hal. rewrite E in *.
  split; [lia|]. Z.div_mod_to_equations. lia.
Qed.

(** X12: masking keeps the bus accesses inside the buffer.  With [2 ^ k]
    bytes of video memory, [2 <= k < 32], every byte read and byte write
    completes, at any address of any window, and so does every word read
    and word write at an address that is a multiple of 4. *)
Theorem cg14_vram_access_in_bounds (s : CG14State) (k addr addr_w val : Z) :
  2 <= k < 32 ->
  vram_amask s = 2 ^ k - 1 ->
  Z.of_nat (length (vram s)) = 2 ^ k ->
  Z.land addr_w 3 = 0 ->
  is_Some (cg14_vram_readb s addr) /\
  is_Some (cg14_vram_writeb s addr val) /\
  is_Some (cg14_vram_readl s addr_w) /\
  is_Some (cg14_vram_writel s addr_w val).
Proof.
  intros Hk Hm Hlen Hal.
  pose proof (pow2_mask_range k ltac:(lia)) as Hr. rewrite <- Hm in Hr.
  assert (forall o, 0 <= o < 2 ^ k -> is_Some (array_get (vram s) o)) as Hget.
  { intros o Ho. apply array_get_is_Some. lia. }
  pose proof (land_ones_range addr k ltac:(lia)) as Ho.
  destruct (aligned_word_offset k addr_w ltac:(lia) Hal) as [Hw0 Hw4].
  rewrite <- Hm in Ho, Hw0, Hw4.
  split; [|split; [|split]].
  - unfold cg14_vram_readb. cbv zeta.
    destruct (_ =? 0x0000000).
    { rewrite window0_offset_u32 by done. by apply Hget. }
    destruct (_ =? 0x1000000); [done|].
    destruct (_ =? 0x2000000).
    { rewrite window2_offset_u32 by done. apply Hget.
      rewrite Hm. apply window2_offset_range. lia. }
    destruct (_ =? 0x3000000); [|done].
    rewrite window3_offset_u32 by done. apply Hget.
    rewrite Hm. apply window3_offset_range. lia.
  - unfold cg14_vram_writeb. cbv zeta.
    destruct (_ =? 0); [|done].
    rewrite window0_offset_u32 by done. unfold stb_p.
    rewrite array_set_Some by lia. simpl. by destruct (_ <? _).
  - unfold cg14_vram_readl. cbv zeta.
    destruct (_ =? 0); [|done].
    rewrite window0_offset_u32 by done. unfold ldl_be_p.
    destruct (Hget (Z.land addr_w (vram_amask s))) as [b0 ->]; [lia|].
    destruct (Hget (Z.land addr_w (vram_amask s) + 1)) as [b1 ->]; [lia|].
    destruct (Hget (Z.land addr_w (vram_amask s) + 2)) as [b2 ->]; [lia|].
    destruct (Hget (Z.land addr_w (vram_amask s) + 3)) as [b3 ->]; [lia|].
    done.
  - unfold cg14_vram_writel. cbv zeta.
    destruct (_ =? 0); [|done].
    rewrite window0_offset_u32 by done.
    rewrite stl_be_p_Some by lia. simpl. by destruct (_ <? _).
Qed.

Lemma cg14_vram_access_in_bounds_witness :
  is_Some (cg14_vram_readb small_device 0x3fffffff) /\
  is_Some (cg14_vram_writeb small_device 0x3fffffff 1) /\
  is_Some (cg14_vram_readl small_device 0xfffffc) /\
  is_Some (cg14_vram_writel small_device 0xfffffc 1).
Proof.
  apply (cg14_vram_access_in_bounds small_device 4 0x3fffffff 0xfffffc 1);
    [lia | reflexivity | reflexivity | reflexivity].
Defined.

(** ** Refresh: the resize check and the rendering *)

(** A refresh is the resize check followed by the rendering phase. *)
Lemma cg14_update_display_phases (s : CG14State) (ds : DisplayState) :
  cg14_update_display s ds
  = render_phase (resize_check s ds).1 (resize_check s ds).2.
Proof.
  unfold cg14_update_display, resize_check, render_phase, pixmode_of_mcr.
  destruct (size_changed s =? 0); [done|]. cbv zeta.
  by destruct (_ && _).
Qed.

Lemma resize_check_idle (s : CG14State) (ds : DisplayState) :
  size_changed s = 0 -> resize_check s ds = (s, ds).
Proof. intros H. unfold resize_check. by rewrite H. Qed.

(** The rendering phase changes the dirty flag, the framebuffer words and
    the list of host calls only, and asks for no resize. *)
Lemma render_phase_keeps (s s' : CG14State) (ds ds' : DisplayState) :
  render_phase s ds = Some (s', ds') ->
  width s' = width s /\ height s' = height s /\
  size_changed s' = size_changed s /\ timing s' = timing s /\
  ds_bits_per_pixel ds' = ds_bits_per_pixel ds /\
  resizes (ds_calls ds') = resizes (ds_calls ds).
Proof.
  unfold render_phase.
  destruct (_ || _); [by intros [= <- <-]|].
  destruct (negb _); [by intros [= <- <-]|].
  destruct (draw_lines _ _ _ _ _ _ _); simpl; [|done].
  intros [= <- <-]. simpl. repeat split.
  unfold resizes. by rewrite filter_app, filter_cons_False, app_nil_r by done.
Qed.

Lemma render_phase_idempotent (s s' : CG14State) (ds ds' : DisplayState) :
  render_phase s ds = Some (s', ds') -> render_phase s' ds' = Some (s', ds').
Proof.
  unfold render_phase.
  destruct (_ || _) eqn:E1; [intros [= <- <-]; by rewrite E1|].
  destruct (negb _) eqn:E2; [intros [= <- <-]; by rewrite E1, E2|].
  destruct (draw_lines _ _ _ _ _ _ _); simpl; [|done].
  by intros [= <- <-].
Qed.

(** X15: a refresh that follows a completed refresh changes nothing,
    neither in the device nor on the host: the first one has cleared the
    size-changed flag and either rendered and cleared the dirty flag, or
    found nothing to render, or was refused for the depth of the surface,
    which the second one meets again. *)
Theorem cg14_update_display_idempotent
    (s s' : CG14State) (ds ds' : DisplayState) :
  cg14_update_display s ds = Some (s', ds') ->
  cg14_update_display s' ds' = Some (s', ds').
Proof.
  rewrite !cg14_update_display_phases. intros H.
  pose proof (resize_check_size_changed s ds) as Hsc.
  destruct (render_phase_keeps _ _ _ _ H) as (_ & _ & Hsc' & _).
  rewrite resize_check_idle by congruence. simpl.
  by apply (render_phase_idempotent _ _ _ _ H).
Qed.

Lemma s32_timing_difference (a b : Z) :
  0 <= a < 2 ^ 16 -> 0 <= b < 2 ^ 16 ->
  s32 (a - b) = a - b /\ s32 (4 * s32 (a - b)) = 4 * (a - b).
Proof.
  intros Ha Hb. rewrite (s32_small (a - b)) by (unfold INT_MAX; lia).
  split; [done|]. apply s32_small. unfold INT_MAX. lia.
Qed.

Lemma resize_check_timing (s : CG14State) (ds : DisplayState) :
  0 <= hblank_start (timing s) < 2 ^ 16 ->
  0 <= hblank_clear (timing s) < 2 ^ 16 ->
  0 <= vblank_start (timing s) < 2 ^ 16 ->
  0 <= vblank_clear (timing s) < 2 ^ 16 ->
  size_changed s <> 0 ->
  resize_check s ds
  = if (negb (timing_width s =? width s) || negb (timing_height s =? height s))
       && (0 <? timing_width s) && (0 <? timing_height s)
    then (set_dirty 1 (set_geometry (timing_width s) (timing_height s)
                         (set_size_changed 0 s)),
          qemu_console_resize ds (timing_width s) (timing_height s))
    else (set_size_changed 0 s, ds).
Proof.
  intros H1 H2 H3 H4 Hsc. apply Z.eqb_neq in Hsc.
  unfold resize_check, timing_width, timing_height. rewrite Hsc. cbv zeta.
  destruct (s32_timing_difference _ _ H1 H2) as [_ ->].
  destruct (s32_timing_difference _ _ H3 H4) as [-> _].
  done.
Qed.

(** X13: when the size-changed flag is set and the timing registers, read
    as 16-bit values, describe a positive geometry
    [4 * (hblank_start - hblank_clear)] by [vblank_start - vblank_clear] that
    is not the current one, a refresh asks the host for that size once,
    adopts it, forces the dirty flag and goes on as a refresh of the resized
    device; whenever it completes, the device has the new geometry and a
    cleared size-changed flag. *)
Theorem cg14_update_display_resize (s : CG14State) (ds : DisplayState) :
  0 <= hblank_start (timing s) < 2 ^ 16 ->
  0 <= hblank_clear (timing s) < 2 ^ 16 ->
  0 <= vblank_start (timing s) < 2 ^ 16 ->
  0 <= vblank_clear (timing s) < 2 ^ 16 ->
  size_changed s <> 0 ->
  0 < timing_width s -> 0 < timing_height s ->
  timing_width s <> width s \/ timing_height s <> height s ->
  cg14_update_display s ds
  = render_phase
      (set_dirty 1 (set_geometry (timing_width s) (timing_height s)
                      (set_size_changed 0 s)))
      (qemu_console_resize ds (timing_width s) (timing_height s)) /\
  forall s' ds', cg14_update_display s ds = Some (s', ds') ->
    width s' = timing_width s /\ height s' = timing_height s /\
    size_changed s' = 0 /\
    resizes (ds_calls ds')
    = resizes (ds_calls ds)
      ++ [ConsoleResize (timing_width s) (timing_height s)].
Proof.
  intros H1 H2 H3 H4 Hsc Hw Hh Hne.
  assert (cg14_update_display s ds
          = render_phase
              (set_dirty 1 (set_geometry (timing_width s) (timing_height s)
                              (set_size_changed 0 s)))
              (qemu_console_resize ds (timing_width s) (timing_height s))) as E.
  { rewrite cg14_update_display_phases, resize_check_timing by done.
    apply Z.ltb_lt in Hw, Hh. rewrite Hw, Hh.
    assert ((negb (timing_width s =? width s)
             || negb (timing_height s =? height s)) = true) as ->; [|done].
    destruct Hne as [Hn | Hn]; apply Z.eqb_neq in Hn; rewrite Hn;
      [done | apply orb_true_r]. }
  split; [done|]. intros s' ds' Hres. rewrite E in Hres.
  destruct (render_phase_keeps _ _ _ _ Hres) as (-> & -> & -> & _ & _ & ->).
  simpl. repeat split.
  unfold resizes. by rewrite filter_app.
Qed.

Lemma cg14_update_display_resize_witness :
  cg14_update_display retimed_device (mkDS 16 2560 0 ∅ [])
  = render_phase
      (set_dirty 1 (set_geometry (timing_width retimed_device)
                      (timing_height retimed_device)
                      (set_size_changed 0 retimed_device)))
      (qemu_console_resize (mkDS 16 2560 0 ∅ []) (timing_width retimed_device)
         (timing_height retimed_device)) /\
  forall s' ds',
    cg14_update_display retimed_device (mkDS 16 2560 0 ∅ []) = Some (s', ds') ->
    width s' = timing_width retimed_device /\
    height s' = timing_height retimed_device /\
    size_changed s' = 0 /\
    resizes (ds_calls ds')
    = resizes (ds_calls (mkDS 16 2560 0 ∅ []))
      ++ [ConsoleResize (timing_width retimed_device)
            (timing_height retimed_device)].
Proof.
  apply (cg14_update_display_resize retimed_device (mkDS 16 2560 0 ∅ []));
    try (simpl; lia); try (by vm_compute).
  left. by vm_compute.
Defined.

(** X14: when the size-changed flag is set but the timing registers
    describe a width or a height that is not positive, or the current
    geometry, a refresh clears the flag and goes on with the geometry it
    had: no resize is requested from the host. *)
Theorem cg14_update_display_keeps_geometry (s : CG14State) (ds : DisplayState) :
  0 <= hblank_start (timing s) < 2 ^ 16 ->
  0 <= hblank_clear (timing s) < 2 ^ 16 ->
  0 <= vblank_start (timing s) < 2 ^ 16 ->
  0 <= vblank_clear (timing s) < 2 ^ 16 ->
  size_changed s <> 0 ->
  timing_width s <= 0 \/ timing_height s <= 0 \/
  (timing_width s = width s /\ timing_height s = height s) ->
  cg14_update_display s ds = render_phase (set_size_changed 0 s) ds /\
  forall s' ds', cg14_update_display s ds = Some (s', ds') ->
    width s' = width s /\ height s' = height s /\
    size_changed s' = 0 /\
    resizes (ds_calls ds') = resizes (ds_calls ds).
Proof.
  intros H1 H2 H3 H4 Hsc Hdeg.
  assert (cg14_update_display s ds = render_phase (set_size_changed 0 s) ds) as E.
  { rewrite cg14_update_display_phases, resize_check_timing by done.
    assert ((negb (timing_width s =? width s)
             || negb (timing_height s =? height s))
            && (0 <? timing_width s) && (0 <? timing_height s) = false)
      as ->; [|done].
    destruct Hdeg as [Hd | [Hd | [Hd1 Hd2]]].
    - apply Z.ltb_ge in Hd. rewrite Hd. by rewrite andb_false_r.
    - apply Z.ltb_ge in Hd. rewrite Hd. by rewrite andb_false_r.
    - rewrite Hd1, Hd2, !Z.eqb_refl. done. }
  split; [done|]. intros s' ds' Hres. rewrite E in Hres.
  by destruct (render_phase_keeps _ _ _ _ Hres) as (-> & -> & -> & _ & _ & ->).
Qed.

Lemma cg14_update_display_keeps_geometry_witness :
  cg14_update_display
    (cg14_reg_writew small_device 0x001a 0x9000) small_surface
  = render_phase
      (set_size_changed 0 (cg14_reg_writew small_device 0x001a 0x9000))
      small_surface /\
  forall s' ds',
    cg14_update_display
      (cg14_reg_writew small_device 0x001a 0x9000) small_surface
    = Some (s', ds') ->
    width s' = width (cg14_reg_writew small_device 0x001a 0x9000) /\
    height s' = height (cg14_reg_writew small_device 0x001a 0x9000) /\
    size_changed s' = 0 /\
    resizes (ds_calls ds') = resizes (ds_calls small_surface).
Proof.
  apply (cg14_update_display_keeps_geometry
           (cg14_reg_writew small_device 0x001a 0x9000) small_surface);
    try (by vm_compute).
  left. by vm_compute.
Defined.

(** ** Rendering a frame *)

(** What a completed line leaves in the framebuffer. *)
Lemma cg14_draw_line32_spec (s : CG14State) (fb fb' : gmap Z Z)
    (dst src pixmode is_bgr : Z) :
  bytes_ok (vram s) ->
  cg14_draw_line32 s fb dst src pixmode is_bgr = Some fb' ->
  (forall i, 0 <= i < width s ->
     exists abgr,
       pixel_colour s pixmode (src + i * bytes_per_pixel pixmode) = Some abgr /\
       fb' !! (dst + 4 * i) = Some (to_surface is_bgr abgr)) /\
  (forall key, (forall i, 0 <= i < width s -> key <> dst + 4 * i) ->
     fb' !! key = fb !! key).
Proof.
  intros Hb Hline. unfold cg14_draw_line32 in Hline.
  destruct (draw_line32_loop_pixels _ _ _ _ _ _ _ _ _ _ Hb (fun _ => eq_refl) Hline)
    as [Hpix Hframe].
  split.
  - intros i Hi. destruct (Hpix i) as (abgr & Hc & Hw); [lia|].
    exists abgr. by rewrite Z.add_0_l in Hw.
  - intros key Hkey. apply Hframe. intros j Hj.
    rewrite Z.add_0_l. apply Hkey. lia.
Qed.

(** The loop over the scan lines: row [h] of the framebuffer, [linesize]
    bytes after the previous one, receives the pixels that start [h]
    strides into the video memory, provided a line of pixels fits in a
    framebuffer line. *)
Lemma draw_lines_spec (s : CG14State) (ds : DisplayState) (pixmode : Z) (n : nat) :
  forall (pix data : Z) (fb fb' : gmap Z Z),
  bytes_ok (vram s) ->
  4 * width s <= ds_linesize ds ->
  draw_lines s ds pixmode n pix data fb = Some fb' ->
  (forall h i, 0 <= h < Z.of_nat n -> 0 <= i < width s ->
     exists abgr,
       pixel_colour s pixmode
         (pix + h * s32 (width s * (pixmode / 8)) + i * bytes_per_pixel pixmode)
       = Some abgr /\
       fb' !! (data + h * ds_linesize ds + 4 * i)
       = Some (to_surface (is_surface_bgr ds) abgr)) /\
  (forall key,
     (forall h i, 0 <= h < Z.of_nat n -> 0 <= i < width s ->
        key <> data + h * ds_linesize ds + 4 * i) ->
     fb' !! key = fb !! key).
Proof.
  induction n as [|n IH]; intros pix data fb fb' Hb Hls Hrows.
  - simpl in Hrows. injection Hrows as <-. split; [lia | done].
  - simpl in Hrows.
    destruct (cg14_draw_line32 s fb data pix pixmode (is_surface_bgr ds))
      as [fb1|] eqn:Eline; simpl in Hrows; [|done].
    destruct (cg14_draw_line32_spec _ _ _ _ _ _ _ Hb Eline) as [Lpix Lframe].
    destruct (IH _ _ _ _ Hb Hls Hrows) as [Rpix Rframe].
    split.
    + intros h i Hh Hi. destruct (Z.eq_dec h 0) as [->|Hh0].
      * destruct (Lpix i Hi) as (abgr & Hc & Hw). exists abgr.
        rewrite !Z.mul_0_l, !Z.add_0_r. split; [done|].
        rewrite Rframe; [done|]. intros h' i' Hh' Hi'. nia.
      * destruct (Rpix (h - 1) i) as (abgr & Hc & Hw); [lia | done |].
        exists abgr. split.
        -- rewrite <- Hc. f_equal. lia.
        -- rewrite <- Hw. f_equal. lia.
    + intros key Hkey. rewrite Rframe.
      * apply Lframe. intros i Hi. specialize (Hkey 0 i). lia.
      * intros h i Hh Hi. specialize (Hkey (h + 1) i). lia.
Qed.

Lemma draw_lines_is_Some (s : CG14State) (ds : DisplayState) (pixmode : Z) (n : nat) :
  forall (pix data : Z) (fb : gmap Z Z),
  wf_tables s -> bytes_ok (vram s) ->
  0 <= width s ->
  width s * bytes_per_pixel pixmode <= s32 (width s * (pixmode / 8)) ->
  0 <= pix ->
  pix + Z.of_nat n * s32 (width s * (pixmode / 8)) <= Z.of_nat (length (vram s)) ->
  is_Some (draw_lines s ds pixmode n pix data fb).
Proof.
  pose proof (bytes_per_pixel_pos pixmode) as Hpos.
  induction n as [|n IH]; intros pix data fb Ht Hb Hw Hst H0 Hlen; [done|].
  simpl. unfold cg14_draw_line32 at 1.
  assert (0 <= width s * bytes_per_pixel pixmode) as Hnn by nia.
  destruct (draw_line32_loop_is_Some s data pixmode (is_surface_bgr ds)
              (Z.to_nat (width s)) 0 pix (ppr (ctrl s)) fb) as [fb1 ->];
    [done.. | rewrite Z2Nat.id by done; nia |].
  simpl. apply IH; try done; nia.
Qed.

Lemma pixmode_of_mcr_cases (m : Z) :
  (pixmode_of_mcr m = 8 \/ pixmode_of_mcr m = 16 \/ pixmode_of_mcr m = 32) /\
  pixmode_of_mcr m / 8 = bytes_per_pixel (pixmode_of_mcr m).
Proof.
  unfold pixmode_of_mcr.
  destruct (_ =? MCR_PIXMODE_32); [by auto|].
  destruct (_ =? MCR_PIXMODE_16); by auto.
Qed.

(** X16: a refresh of a dirty device with no pending resize on a 32-bit
    surface, when the tables have their size, the [height] lines of [width]
    pixels lie inside the video memory and a line of pixels fits in a
    framebuffer line, completes: the word of the framebuffer for row [h] and
    column [i], at byte offset [h * linesize + 4 * i], is the surface form of
    the colour of the pixel number [h * width + i] of the video memory, in
    the pixel mode selected by the mode register; the whole frame is
    presented once and the dirty flag is cleared. *)
Theorem cg14_update_display_frame (s : CG14State) (ds : DisplayState) :
  size_changed s = 0 -> dirty s <> 0 ->
  0 < width s -> 0 < height s ->
  ds_bits_per_pixel ds = 32 ->
  wf_tables s -> bytes_ok (vram s) ->
  4 * width s <= ds_linesize ds ->
  4 * width s <= INT_MAX ->
  height s * (width s * bytes_per_pixel (pixmode_of_mcr (mcr (ctrl s))))
    <= Z.of_nat (length (vram s)) ->
  exists fb',
    cg14_update_display s ds
    = Some (set_dirty 0 s,
            dpy_update (set_ds_data fb' ds) 0 0 (width s) (height s)) /\
    forall h i, 0 <= h < height s -> 0 <= i < width s ->
      exists abgr,
        pixel_colour s (pixmode_of_mcr (mcr (ctrl s)))
          ((h * width s + i) * bytes_per_pixel (pixmode_of_mcr (mcr (ctrl s))))
        = Some abgr /\
        fb' !! (h * ds_linesize ds + 4 * i)
        = Some (to_surface (is_surface_bgr ds) abgr).
Proof.
  intros Hsc Hd Hw Hh Hbpp Ht Hb Hls Hmax Hfit.
  destruct (pixmode_of_mcr_cases (mcr (ctrl s))) as [Hpm Hdiv].
  set (pm := pixmode_of_mcr (mcr (ctrl s))) in *.
  assert (1 <= bytes_per_pixel pm <= 4) as Hbp.
  { destruct Hpm as [-> | [-> | ->]]; by vm_compute. }
  assert (s32 (width s * (pm / 8)) = width s * bytes_per_pixel pm) as Hstride.
  { rewrite Hdiv. apply s32_small. unfold INT_MAX in *. nia. }
  rewrite cg14_update_display_phases, resize_check_idle by done. simpl.
  unfold render_phase. fold pm.
  apply Z.eqb_neq in Hd.
  assert ((width s =? 0) = false) as -> by (apply Z.eqb_neq; lia).
  assert ((height s =? 0) = false) as -> by (apply Z.eqb_neq; lia).
  rewrite Hd, Hbpp. simpl.
  destruct (draw_lines_is_Some s ds pm (Z.to_nat (height s)) 0 0 (ds_data ds))
    as [fb' Hfb]; [done | done | lia | lia | lia | |].
  { rewrite Hstride, Z2Nat.id by lia. lia. }
  rewrite Hfb. simpl. exists fb'. split; [done|].
  intros h i Hhr Hir.
  destruct (draw_lines_spec _ _ _ _ _ _ _ _ Hb Hls Hfb) as [Hpix _].
  destruct (Hpix h i) as (abgr & Hc & Hword); [lia | done |].
  exists abgr. rewrite Hstride in Hc. split.
  - rewrite <- Hc. f_equal. lia.
  - by rewrite Z.add_0_l in Hword.
Qed.

Lemma cg14_update_display_frame_witness :
  exists fb',
    cg14_update_display tiny_frame small_surface
    = Some (set_dirty 0 tiny_frame,
            dpy_update (set_ds_data fb' small_surface) 0 0
              (width tiny_frame) (height tiny_frame)) /\
    forall h i, 0 <= h < height tiny_frame -> 0 <= i < width tiny_frame ->
      exists abgr,
        pixel_colour tiny_frame (pixmode_of_mcr (mcr (ctrl tiny_frame)))
          ((h * width tiny_frame + i)
           * bytes_per_pixel (pixmode_of_mcr (mcr (ctrl tiny_frame))))
        = Some abgr /\
        fb' !! (h * ds_linesize small_surface + 4 * i)
        = Some (to_surface (is_surface_bgr small_surface) abgr).
Proof.
  apply (cg14_update_display_frame tiny_frame small_surface).
  - reflexivity.
  - by vm_compute.
  - by vm_compute.
  - by vm_compute.
  - reflexivity.
  - repeat split; reflexivity.
  - unfold bytes_ok. repeat (constructor; [lia|]). constructor.
  - by vm_compute.
  - by vm_compute.
  - by vm_compute.
Defined.

Lemma cg14_update_display_idempotent_witness :
  cg14_update_display
    (set_dirty 1 (set_geometry (timing_width retimed_device)
                    (timing_height retimed_device)
                    (set_size_changed 0 retimed_device)))
    (qemu_console_resize (mkDS 16 2560 0 ∅ []) (timing_width retimed_device)
       (timing_height retimed_device))
  = Some (set_dirty 1 (set_geometry (timing_width retimed_device)
                         (timing_height retimed_device)
                         (set_size_changed 0 retimed_device)),
          qemu_console_resize (mkDS 16 2560 0 ∅ [])
            (timing_width retimed_device) (timing_height retimed_device)).
Proof.
  apply (cg14_update_display_idempotent retimed_device _ (mkDS 16 2560 0 ∅ [])).
  reflexivity.
Defined.

(** ** What the rendering does not depend on *)

Lemma draw_line32_loop_dac_clut2 (s : CG14State) (d : ADV7152_state)
    (c : list Z) (dst pixmode is_bgr : Z) (n : nat) :
  forall (i src xv : Z) (fb : gmap Z Z),
  draw_line32_loop (set_dac d (set_clut2 c s)) dst pixmode is_bgr n i src xv fb
  = draw_line32_loop s dst pixmode is_bgr n i src xv fb.
Proof.
  induction n as [|n IH]; intros i src xv fb; [done|]. simpl.
  change (cg14_pixel_abgr (set_dac d (set_clut2 c s)) pixmode src xv)
    with (cg14_pixel_abgr s pixmode src xv).
  destruct (cg14_pixel_abgr s pixmode src xv) as [[[src' xv'] abgr]|]; simpl;
    [apply IH | done].
Qed.

Lemma draw_lines_dac_clut2 (s : CG14State) (d : ADV7152_state) (c : list Z)
    (ds : DisplayState) (pixmode : Z) (n : nat) :
  forall (pix data : Z) (fb : gmap Z Z),
  draw_lines (set_dac d (set_clut2 c s)) ds pixmode n pix data fb
  = draw_lines s ds pixmode n pix data fb.
Proof.
  induction n as [|n IH]; intros pix data fb; [done|]. simpl.
  unfold cg14_draw_line32. simpl.
  rewrite draw_line32_loop_dac_clut2.
  destruct (draw_line32_loop _ _ _ _ _ _ _ _ _); simpl; [apply IH | done].
Qed.

(** X17: the DAC registers and the second colour table have no part in a
    refresh: with other contents in them the refresh makes the same host
    calls, stores the same framebuffer words and changes the rest of the
    device state in the same way. *)
Theorem cg14_update_display_ignores_dac_clut2 (s : CG14State)
    (ds : DisplayState) (d : ADV7152_state) (c : list Z) :
  cg14_update_display (set_dac d (set_clut2 c s)) ds
  = (fun r : CG14State * DisplayState => (set_dac d (set_clut2 c r.1), r.2))
      <$> cg14_update_display s ds.
Proof.
  rewrite !cg14_update_display_phases.
  assert (resize_check (set_dac d (set_clut2 c s)) ds
          = (set_dac d (set_clut2 c (resize_check s ds).1), (resize_check s ds).2))
    as ->.
  { unfold resize_check. simpl.
    destruct (size_changed s =? 0); [done|].
    by destruct (_ && _). }
  simpl. generalize (resize_check s ds).1 (resize_check s ds).2.
  intros s1 ds1. unfold render_phase. simpl.
  destruct (_ || _); [done|]. destruct (negb _); [done|].
  rewrite draw_lines_dac_clut2.
  by destruct (draw_lines _ _ _ _ _ _ _).
Qed.

(** ** Programming the palette *)



(** ** Invariants of the reachable states *)

Lemma s32_range (x : Z) : - 2 ^ 31 <= s32 x <= INT_MAX.
Proof.
  unfold s32, INT_MAX.
  pose proof (Z.mod_pos_bound (x + 2 ^ 31) (2 ^ 32) ltac:(lia)). lia.
Qed.

Lemma u16_range (x : Z) : 0 <= u16 x < 2 ^ 16.
Proof. unfold u16. apply Z.mod_pos_bound. lia. Qed.

Lemma u32_range (x : Z) : 0 <= u32 x < 2 ^ 32.
Proof. unfold u32. apply Z.mod_pos_bound. lia. Qed.

Lemma ppr_nibble (val : Z) :
  0 <= u8 (Z.land val 0xF0) < 2 ^ 8 /\ Z.land (u8 (Z.land val 0xF0)) 0x0F = 0.
Proof.
  split; [apply u8_range|].
  assert (u8 (Z.land val 0xF0) = Z.land val 0xF0) as ->.
  { unfold u8. apply land_mod_pow2; lia. }
  rewrite <- Z.land_assoc. apply Z.land_0_r.
Qed.

Lemma ADV7152_write_ranges (d : ADV7152_state) (reg val : Z) :
  0 <= mode d < 2 ^ 8 /\ 0 <= address d < 2 ^ 8 /\
  - 2 ^ 31 <= rgb_seq d <= INT_MAX ->
  0 <= mode (ADV7152_write d reg val) < 2 ^ 8 /\
  0 <= address (ADV7152_write d reg val) < 2 ^ 8 /\
  - 2 ^ 31 <= rgb_seq (ADV7152_write d reg val) <= INT_MAX.
Proof.
  intros (Hm & Ha & Hs). unfold ADV7152_write.
  pose proof (u8_range val). pose proof (s32_range (rgb_seq d + 1)).
  unfold INT_MAX in *.
  destruct (reg =? 0); [simpl; lia|].
  destruct (reg =? 1); [simpl; lia|].
  destruct (reg =? 2); [done|].
  destruct (reg =? 3); [|done]. simpl.
  destruct (_ =? 0); lia.
Qed.

Ltac wf_destruct H :=
  destruct H as ((Hlx & Hl1 & Hl2) & (k0 & Hk & Hm & Hlen & Hbv) & Hbx & Hc1
                 & Hc2 & Hmcr & Hppr & Hnib & (Hhs & Hhc & Hvs & Hvc)
                 & Hdac & Hdirty & Hsc & Hw & Hh).

Ltac wf_solve :=
  unfold wf_state, wf_tables, wf_vram; simpl;
  repeat match goal with
         | |- _ /\ _ => split
         | |- exists k, _ /\ _ =>
             match goal with Hk : 0 <= ?k0 < 32 |- _ => exists k0 end
         end;
  try done; try (by left); try (by right); try lia.

Lemma cg14_init_wf_state (k : Z) : 0 <= k < 32 -> wf_state (cg14_init (2 ^ k)).
Proof.
  intros Hk. destruct (cg14_init_wf_vram k Hk) as (k0 & Hk0 & Hrest).
  assert (bytes_ok (replicate 256 0)) as Hb by (apply Forall_replicate; lia).
  assert (words_ok (replicate 256 0)) as Hc by (apply Forall_replicate; lia).
  unfold wf_state. split; [apply cg14_init_wf_tables|].
  split; [by exists k0|].
  repeat split; try assumption; try (by left); try reflexivity;
    unfold INT_MAX; cbn; lia.
Qed.

Lemma cg14_reg_writeb_wf_state (s s' : CG14State) (addr val : Z) :
  wf_state s -> cg14_reg_writeb s addr val = Some s' -> wf_state s'.
Proof.
  intros Hwf. wf_destruct Hwf. unfold cg14_reg_writeb.
  destruct (_ =? 0x2000).
  { intros [= <-]. pose proof (ADV7152_write_ranges (dac s)
      (u32 (Z.shiftr (Z.land addr 0x300) 8)) val Hdac) as (? & ? & ?).
    wf_solve. }
  destruct (_ =? 0x3000).
  { destruct (array_get _ _) as [old|]; simpl; [|done].
    destruct (old =? val); [intros [= <-]; wf_solve|].
    destruct (array_set _ _ _) as [x'|] eqn:E; simpl; [|done].
    destruct (array_set_bytes_ok _ _ _ _ Hbx E) as [Hbx' Hlx'].
    intros [= <-]. rewrite <- Hlx' in Hlx. wf_solve. }
  cbv zeta. pose proof (u8_range val). pose proof (ppr_nibble val) as [? ?].
  destruct (_ =? 0x0000); [intros [= <-]; wf_solve|].
  destruct (_ =? 0x0001); [intros [= <-]; wf_solve|].
  destruct (_ =? 0x0007); intros [= <-]; wf_solve.
Qed.

Lemma cg14_reg_writew_wf_state (s : CG14State) (addr val : Z) :
  wf_state s -> wf_state (cg14_reg_writew s addr val).
Proof.
  intros Hwf. wf_destruct Hwf. unfold cg14_reg_writew. cbv zeta.
  pose proof (u16_range val).
  repeat (destruct (_ =? _); [wf_solve|]). wf_solve.
Qed.

Lemma words_ok_insert (m : list Z) (i v : Z) :
  words_ok m -> words_ok (<[Z.to_nat i := u32 v]> m).
Proof. intros H. apply Forall_insert; [done | apply u32_range]. Qed.

Lemma cg14_reg_writel_wf_state (s s' : CG14State) (addr val : Z) :
  wf_state s -> cg14_reg_writel s addr val = Some s' -> wf_state s'.
Proof.
  intros Hwf. wf_destruct Hwf. unfold cg14_reg_writel. cbv zeta.
  destruct (_ =? 0x4000).
  { destruct (array_set _ _ _) as [c|] eqn:E; simpl; [|done].
    apply array_set_inv in E as [_ ->]. intros [= <-].
    pose proof (words_ok_insert (clut1 s)
                  (u32 (Z.shiftr (Z.land addr 0x3ff) 2)) val Hc1).
    wf_solve. by rewrite length_insert. }
  destruct (_ =? 0x5000).
  { destruct (array_set _ _ _) as [c|] eqn:E; simpl; [|done].
    apply array_set_inv in E as [_ ->]. intros [= <-].
    pose proof (words_ok_insert (clut2 s)
                  (u32 (Z.shiftr (Z.land addr 0x3ff) 2)) val Hc2).
    wf_solve. by rewrite length_insert. }
  intros [= <-]. wf_solve.
Qed.

(** A write to the video memory changes the memory and the dirty flag
    only. *)
Lemma cg14_vram_write_shape (s s' : CG14State) :
  (exists addr val, cg14_vram_writeb s addr val = Some s') \/
  (exists addr val, cg14_vram_writel s addr val = Some s') ->
  exists m d, (d = dirty s \/ d = 1) /\ s' = set_dirty d (set_vram m s).
Proof.
  assert (s = set_dirty (dirty s) (set_vram (vram s) s)) as Hid by (by destruct s).
  intros [(addr & val & H) | (addr & val & H)]; revert H.
  - unfold cg14_vram_writeb. cbv zeta.
    destruct (_ =? 0); [|intros [= <-]; exists (vram s), (dirty s); by auto].
    destruct (stb_p _ _ _) as [m|]; simpl; [|done].
    destruct (_ <? _); intros [= <-]; [exists m, 1; by auto|].
    exists m, (dirty s). by auto.
  - unfold cg14_vram_writel. cbv zeta.
    destruct (_ =? 0); [|intros [= <-]; exists (vram s), (dirty s); by auto].
    destruct (stl_be_p _ _ _) as [m|]; simpl; [|done].
    destruct (_ <? _); intros [= <-]; [exists m, 1; by auto|].
    exists m, (dirty s). by auto.
Qed.

Lemma cg14_vram_write_wf_state (s s' : CG14State) :
  wf_state s ->
  (exists addr val, cg14_vram_writeb s addr val = Some s') \/
  (exists addr val, cg14_vram_writel s addr val = Some s') ->
  wf_state s'.
Proof.
  intros Hwf Hwr.
  assert (wf_vram s') as (k' & Hk' & Hm' & Hlen' & Hbv').
  { destruct Hwf as (_ & Hv & _).
    destruct Hwr as [(addr & val & H) | (addr & val & H)].
    - by apply (cg14_vram_writeb_wf_vram _ _ _ _ Hv H).
    - by apply (cg14_vram_writel_wf_vram _ _ _ _ Hv H). }
  destruct (cg14_vram_write_shape s s' Hwr) as (m & d & Hd & ->).
  simpl in *. wf_destruct Hwf.
  unfold wf_state, wf_tables, wf_vram. simpl.
  repeat split; try done; try (by exists k'); lia.
Qed.

Lemma resize_check_wf_state (s : CG14State) (ds : DisplayState) :
  wf_state s -> wf_state (resize_check s ds).1.
Proof.
  intros Hwf. wf_destruct Hwf. unfold resize_check.
  destruct (size_changed s =? 0); [wf_solve|]. cbv zeta.
  pose proof (s32_range
    (4 * s32 (hblank_start (timing s) - hblank_clear (timing s)))).
  pose proof (s32_range (vblank_start (timing s) - vblank_clear (timing s))).
  destruct (_ || _); simpl; [|wf_solve].
  destruct (Z.ltb_spec 0
    (s32 (4 * s32 (hblank_start (timing s) - hblank_clear (timing s)))));
    simpl; [|wf_solve].
  destruct (Z.ltb_spec 0
    (s32 (vblank_start (timing s) - vblank_clear (timing s))));
    simpl; wf_solve.
Qed.

Lemma render_phase_wf_state (s s' : CG14State) (ds ds' : DisplayState) :
  wf_state s -> render_phase s ds = Some (s', ds') -> wf_state s'.
Proof.
  intros Hwf. unfold render_phase.
  destruct (_ || _); [by intros [= <- <-]|].
  destruct (negb _); [by intros [= <- <-]|].
  destruct (draw_lines _ _ _ _ _ _ _); simpl; [|done].
  intros [= <- <-]. wf_destruct Hwf. wf_solve.
Qed.

Lemma cg14_step_wf_state (a : cg14_access) (s s' : CG14State)
    (ds ds' : DisplayState) :
  wf_state s -> cg14_step a (s, ds) = Some (s', ds') -> wf_state s'.
Proof.
  intros Hwf. destruct a as [addr val|addr val|addr val|addr val|addr val|addr val| |];
    simpl.
  - destruct (cg14_reg_writeb s addr val) as [s1|] eqn:E; simpl; [|done].
    intros [= <- <-]. by apply (cg14_reg_writeb_wf_state _ _ _ _ Hwf E).
  - intros [= <- <-]. by apply cg14_reg_writew_wf_state.
  - destruct (cg14_reg_writel s addr val) as [s1|] eqn:E; simpl; [|done].
    intros [= <- <-]. by apply (cg14_reg_writel_wf_state _ _ _ _ Hwf E).
  - destruct (cg14_vram_writeb s addr val) as [s1|] eqn:E; simpl; [|done].
    intros [= <- <-]. apply (cg14_vram_write_wf_state s); [done|].
    left. by exists addr, val.
  - intros [= <- <-]. wf_destruct Hwf. unfold cg14_vram_writew. wf_solve.
  - destruct (cg14_vram_writel s addr val) as [s1|] eqn:E; simpl; [|done].
    intros [= <- <-]. apply (cg14_vram_write_wf_state s); [done|].
    right. by exists addr, val.
  - rewrite cg14_update_display_phases. intros H.
    apply (render_phase_wf_state _ _ _ _ (resize_check_wf_state s ds Hwf) H).
  - intros [= <- <-]. wf_destruct Hwf. unfold cg14_invalidate_display. wf_solve.
Qed.

Lemma stb_p_length (m m' : list Z) (off v : Z) :
  stb_p m off v = Some m' -> length m' = length m.
Proof.
  unfold stb_p. intros H. apply array_set_inv in H as [_ ->].
  apply length_insert.
Qed.

Lemma stl_be_p_length (m m' : list Z) (off v : Z) :
  stl_be_p m off v = Some m' -> length m' = length m.
Proof.
  unfold stl_be_p.
  destruct (array_set m _ _) as [m0|] eqn:E0; simpl; [|done].
  destruct (array_set m0 _ _) as [m1|] eqn:E1; simpl; [|done].
  destruct (array_set m1 _ _) as [m2|] eqn:E2; simpl; [|done].
  intros E3.
  apply array_set_inv in E0 as [_ ->]. apply array_set_inv in E1 as [_ ->].
  apply array_set_inv in E2 as [_ ->]. apply array_set_inv in E3 as [_ ->].
  by rewrite !length_insert.
Qed.

(** No access changes the address mask or the size of the video memory. *)
Lemma cg14_step_keeps_vram_shape (a : cg14_access) (s s' : CG14State)
    (ds ds' : DisplayState) :
  cg14_step a (s, ds) = Some (s', ds') ->
  vram_amask s' = vram_amask s /\ length (vram s') = length (vram s).
Proof.
  destruct a as [addr val|addr val|addr val|addr val|addr val|addr val| |];
    simpl.
  - unfold cg14_reg_writeb.
    destruct (_ =? 0x2000); [by intros [= <- <-]|].
    destruct (_ =? 0x3000).
    + destruct (array_get _ _) as [old|]; simpl; [|done].
      destruct (old =? val); [by intros [= <- <-]|].
      destruct (array_set _ _ _); simpl; [|done]. by intros [= <- <-].
    + cbv zeta. repeat (destruct (_ =? _)); by intros [= <- <-].
  - unfold cg14_reg_writew. cbv zeta.
    repeat (destruct (_ =? _)); by intros [= <- <-].
  - unfold cg14_reg_writel. cbv zeta.
    repeat (destruct (_ =? _));
      try (destruct (array_set _ _ _); simpl; [|done]); by intros [= <- <-].
  - unfold cg14_vram_writeb. cbv zeta.
    destruct (_ =? 0); [|by intros [= <- <-]].
    destruct (stb_p _ _ _) as [m|] eqn:E; simpl; [|done].
    apply stb_p_length in E.
    destruct (_ <? _); by intros [= <- <-].
  - by intros [= <- <-].
  - unfold cg14_vram_writel. cbv zeta.
    destruct (_ =? 0); [|by intros [= <- <-]].
    destruct (stl_be_p _ _ _) as [m|] eqn:E; simpl; [|done].
    apply stl_be_p_length in E.
    destruct (_ <? _); by intros [= <- <-].
  - rewrite cg14_update_display_phases. intros H.
    assert (vram_amask (resize_check s ds).1 = vram_amask s /\
            vram (resize_check s ds).1 = vram s) as [Ea Ev].
    { unfold resize_check. destruct (size_changed s =? 0); [done|]. cbv zeta.
      by destruct (_ && _). }
    rewrite <- Ea, <- Ev. revert H.
    generalize (resize_check s ds).1 (resize_check s ds).2. intros s1 ds1.
    unfold render_phase.
    destruct (_ || _); [by intros [= <- <-]|].
    destruct (negb _); [by intros [= <- <-]|].
    destruct (draw_lines _ _ _ _ _ _ _); simpl; [|done].
    by intros [= <- <-].
  - by intros [= <- <-].
Qed.

(** X19: every state reached from a device created with [2 ^ k] bytes of
    video memory, [0 <= k < 32], by register writes, video-memory writes,
    refreshes and invalidations keeps its tables at 256 entries and its fields
    in the ranges of their C types; moreover the packing-ratio register has a
    zero low nibble, the two flags are 0 or 1, the geometry is positive, and
    the video memory keeps its size and mask: the mask is [2 ^ k - 1] and the
    memory holds [2 ^ k] bytes. *)
Theorem cg14_reachable_wf_state (k : Z) (s : CG14State) :
  0 <= k < 32 -> reachable k s ->
  wf_state s /\
  vram_amask s = 2 ^ k - 1 /\
  Z.of_nat (length (vram s)) = 2 ^ k.
Proof.
  intros Hk Hr. induction Hr as [|a s s' ds ds' Hr IH Hstep].
  - split; [by apply cg14_init_wf_state|].
    pose proof (pow2_mask_range k Hk) as Hm. simpl. split.
    + by apply u32_small.
    + rewrite length_replicate. lia.
  - destruct IH as (Hwf & Hmask & Hlen).
    destruct (cg14_step_keeps_vram_shape a s s' ds ds' Hstep) as [Ea El].
    split; [by apply (cg14_step_wf_state a s s' ds ds')|].
    by rewrite Ea, El.
Qed.

Lemma cg14_reachable_wf_state_witness :
  wf_state (cg14_reg_writew (cg14_init (2 ^ 4)) 0x001a 0x9000) /\
  vram_amask (cg14_reg_writew (cg14_init (2 ^ 4)) 0x001a 0x9000) = 2 ^ 4 - 1 /\
  Z.of_nat (length (vram (cg14_reg_writew (cg14_init (2 ^ 4)) 0x001a 0x9000)))
  = 2 ^ 4.
Proof.
  apply (cg14_reachable_wf_state 4); [lia|].
  apply (reachable_step 4 (RegWriteW 0x001a 0x9000) (cg14_init (2 ^ 4)) _
           small_surface small_surface).
  - apply reachable_init.
  - reflexivity.
Defined.

(** ** The renderer does not mask its offsets *)

Lemma pixel_colour_bound (s : CG14State) (pixmode src abgr : Z) :
  pixel_colour s pixmode src = Some abgr ->
  src + bytes_per_pixel pixmode <= Z.of_nat (length (vram s)).
Proof.
  unfold pixel_colour, bytes_per_pixel, ldub_p.
  destruct (array_get (vram s) src) as [x|] eqn:Ex; simpl; [|done].
  apply array_get_range in Ex.
  destruct (selected_xlut s pixmode x); simpl; [|done].
  destruct (pixmode =? 8); simpl.
  - intros _. lia.
  - destruct (array_get (vram s) (src + 1)) as [b|] eqn:Eb; simpl; [|done].
    apply array_get_range in Eb.
    destruct (pixmode =? 32); simpl; [|intros _; lia].
    destruct (array_get (vram s) (src + 2)) as [g|]; simpl; [|done].
    destruct (array_get (vram s) (src + 3)) as [r|] eqn:Er; simpl; [|done].
    apply array_get_range in Er. intros _. lia.
Qed.

Lemma draw_line32_loop_out_of_bounds (s : CG14State)
    (dst pixmode is_bgr : Z) (n : nat) :
  forall (i src xv : Z) (fb : gmap Z Z),
  bytes_ok (vram s) ->
  (pixmode = 8 -> xv = ppr (ctrl s)) ->
  src <= Z.of_nat (length (vram s)) ->
  Z.of_nat (length (vram s)) < src + Z.of_nat n * bytes_per_pixel pixmode ->
  draw_line32_loop s dst pixmode is_bgr n i src xv fb = None.
Proof.
  induction n as [|n IH]; intros i src xv fb Hb Hxv Hle Hgt; [lia|].
  simpl.
  destruct (cg14_pixel_abgr s pixmode src xv) as [[[src1 xv1] abgr]|] eqn:Epix;
    simpl; [|done].
  destruct (cg14_pixel_abgr_colour _ _ _ _ _ _ _ Hb Hxv Epix) as (-> & Hxv1 & Hc).
  apply pixel_colour_bound in Hc.
  apply IH; try done; lia.
Qed.

(** X20: the renderer walks the video memory without masking.  A refresh
    that has to render (dirty device of non-empty geometry, no pending
    resize, 32-bit surface) while a single line of pixels is longer than the
    video memory reads past the end of the buffer: it has no result. *)
Theorem cg14_update_display_out_of_bounds (s : CG14State) (ds : DisplayState) :
  size_changed s = 0 -> dirty s <> 0 ->
  0 < width s -> 0 < height s ->
  ds_bits_per_pixel ds = 32 ->
  bytes_ok (vram s) ->
  Z.of_nat (length (vram s))
    < width s * bytes_per_pixel (pixmode_of_mcr (mcr (ctrl s))) ->
  cg14_update_display s ds = None.
Proof.
  intros Hsc Hd Hw Hh Hbpp Hb Hlong.
  rewrite cg14_update_display_phases, resize_check_idle by done. simpl.
  unfold render_phase.
  apply Z.eqb_neq in Hd.
  assert ((width s =? 0) = false) as -> by (apply Z.eqb_neq; lia).
  assert ((height s =? 0) = false) as -> by (apply Z.eqb_neq; lia).
  rewrite Hd, Hbpp. simpl.
  destruct (Z.to_nat (height s)) as [|n] eqn:En; [lia|]. simpl.
  unfold cg14_draw_line32.
  rewrite draw_line32_loop_out_of_bounds; [done | done | done | lia |].
  rewrite Z2Nat.id by lia. lia.
Qed.

Lemma cg14_update_display_out_of_bounds_witness :
  cg14_update_display (cg14_invalidate_display (cg14_init 16)) small_surface
  = None.
Proof.
  apply (cg14_update_display_out_of_bounds
           (cg14_invalidate_display (cg14_init 16)) small_surface).
  - reflexivity.
  - by vm_compute.
  - by vm_compute.
  - by vm_compute.
  - reflexivity.
  - apply Forall_replicate. lia.
  - by vm_compute.
Defined.

(** ** Colour tables: what a write leaves alone *)

(** X21: a word write to an entry of CLUT1 or CLUT2 sets the dirty flag,
    even when the entry already holds the value, and changes no other
    entry: a word read at an address of the other table, or of another
    index, returns what it returned before, and the XLUT is untouched. *)
Theorem cg14_clut_write_frame (s : CG14State) (addr addr' v : Z) :
  wf_tables s ->
  Z.land addr 0xfc00 = 0x4000 \/ Z.land addr 0xfc00 = 0x5000 ->
  Z.land addr' 0xfc00 <> Z.land addr 0xfc00 \/
  Z.shiftr (Z.land addr' 0x3ff) 2 <> Z.shiftr (Z.land addr 0x3ff) 2 ->
  exists s', cg14_reg_writel s addr v = Some s' /\
    cg14_reg_readl s' addr' = cg14_reg_readl s addr' /\
    xlut s' = xlut s /\ dirty s' = 1.
Proof.
  intros (_ & H1 & H2) Ha Hne.
  pose proof (clut_index_range addr) as Hi.
  pose proof (clut_index_range addr') as Hi'.
  unfold cg14_reg_writel, cg14_reg_readl. cbv zeta.
  rewrite !clut_index_u32.
  destruct Ha as [Ea | Ea]; rewrite Ea in *; simpl.
  - rewrite array_set_Some by (rewrite H1; lia). simpl.
    eexists. split; [done|]. simpl. split; [|done].
    destruct (Z.eqb_spec (Z.land addr' 0xfc00) 0x4000) as [E|_]; [|done].
    apply array_get_insert_ne; [lia | lia |]. destruct Hne; congruence.
  - rewrite array_set_Some by (rewrite H2; lia). simpl.
    eexists. split; [done|]. simpl. split; [|done].
    destruct (Z.eqb_spec (Z.land addr' 0xfc00) 0x4000) as [E|_]; [done|].
    destruct (Z.eqb_spec (Z.land addr' 0xfc00) 0x5000) as [E|_]; [|done].
    apply array_get_insert_ne; [lia | lia |]. destruct Hne; congruence.
Qed.

Lemma cg14_clut_write_frame_witness :
  exists s', cg14_reg_writel small_device 0x4010 0xffffff = Some s' /\
    cg14_reg_readl s' 0x5010 = cg14_reg_readl small_device 0x5010 /\
    xlut s' = xlut small_device /\ dirty s' = 1.
Proof.
  apply (cg14_clut_write_frame small_device 0x4010 0x5010 0xffffff).
  - repeat split; reflexivity.
  - left. reflexivity.
  - left. by vm_compute.
Defined.

(** ** Programming the geometry *)

(** The state after halfword writes to the four timing registers. *)
Lemma timing_writes_state (s : CG14State) (base hs hc vs vc : Z) :
  Z.land base 0xffff = 0 ->
  0 <= hs < 2 ^ 16 -> 0 <= hc < 2 ^ 16 -> 0 <= vs < 2 ^ 16 -> 0 <= vc < 2 ^ 16 ->
  cg14_reg_writew
    (cg14_reg_writew
       (cg14_reg_writew
          (cg14_reg_writew s (base + 0x0018) hs) (base + 0x001a) hc)
       (base + 0x0022) vs)
    (base + 0x0024) vc
  = set_size_changed 1 (set_timing (mkTiming hs hc vs vc) s).
Proof.
  intros Hb Hhs Hhc Hvs Hvc. unfold cg14_reg_writew. cbv zeta.
  rewrite !(land_base_offset base) by (done || lia). simpl.
  by rewrite (u16_small hs), (u16_small hc), (u16_small vs), (u16_small vc).
Qed.

(** X22: writing the 16-bit values [hs], [hc], [vs], [vc] to
    [hblank_start], [hblank_clear], [vblank_start] and [vblank_clear] with
    [hs > hc] and [vs > vc] makes the next refresh adopt the geometry
    [4 * (hs - hc)] by [vs - vc], when it is not the current one: the
    refresh is that of the device resized so, with the dirty flag forced,
    after one resize request to the host, and whenever it completes the
    device has that geometry. *)
Theorem cg14_program_geometry (s : CG14State) (ds : DisplayState)
    (base hs hc vs vc : Z) :
  Z.land base 0xffff = 0 ->
  0 <= hc < hs -> hs < 2 ^ 16 -> 0 <= vc < vs -> vs < 2 ^ 16 ->
  4 * (hs - hc) <> width s \/ vs - vc <> height s ->
  cg14_update_display
    (cg14_reg_writew
       (cg14_reg_writew
          (cg14_reg_writew
             (cg14_reg_writew s (base + 0x0018) hs) (base + 0x001a) hc)
          (base + 0x0022) vs)
       (base + 0x0024) vc) ds
  = render_phase
      (set_dirty 1 (set_geometry (4 * (hs - hc)) (vs - vc)
                      (set_size_changed 0
                         (set_timing (mkTiming hs hc vs vc) s))))
      (qemu_console_resize ds (4 * (hs - hc)) (vs - vc)) /\
  forall s' ds',
    cg14_update_display
      (cg14_reg_writew
         (cg14_reg_writew
            (cg14_reg_writew
               (cg14_reg_writew s (base + 0x0018) hs) (base + 0x001a) hc)
            (base + 0x0022) vs)
         (base + 0x0024) vc) ds
    = Some (s', ds') ->
    width s' = 4 * (hs - hc) /\ height s' = vs - vc /\ size_changed s' = 0.
Proof.
  intros Hb Hh Hhs Hv Hvs Hne.
  rewrite timing_writes_state by (done || lia).
  set (s1 := set_size_changed 1 (set_timing (mkTiming hs hc vs vc) s)).
  assert (cg14_update_display s1 ds
          = render_phase
              (set_dirty 1 (set_geometry (4 * (hs - hc)) (vs - vc)
                              (set_size_changed 0
                                 (set_timing (mkTiming hs hc vs vc) s))))
              (qemu_console_resize ds (4 * (hs - hc)) (vs - vc))) as E.
  { rewrite cg14_update_display_phases, resize_check_timing;
      try (subst s1; simpl; lia).
    subst s1. unfold timing_width, timing_height. simpl.
    assert ((0 <? 4 * (hs - hc)) = true) as -> by (apply Z.ltb_lt; lia).
    assert ((0 <? vs - vc) = true) as -> by (apply Z.ltb_lt; lia).
    assert ((negb (4 * (hs - hc) =? width s) || negb (vs - vc =? height s))
            = true) as ->; [|done].
    destruct Hne as [Hn | Hn]; apply Z.eqb_neq in Hn; rewrite Hn;
      [done | apply orb_true_r]. }
  split; [done|]. intros s' ds' Hres. rewrite E in Hres.
  by destruct (render_phase_keeps _ _ _ _ Hres) as (-> & -> & -> & _).
Qed.

Lemma cg14_program_geometry_witness :
  cg14_update_display
    (cg14_reg_writew
       (cg14_reg_writew
          (cg14_reg_writew
             (cg14_reg_writew small_device (0 + 0x0018) 200) (0 + 0x001a) 40)
          (0 + 0x0022) 500)
       (0 + 0x0024) 20) (mkDS 16 2560 0 ∅ [])
  = render_phase
      (set_dirty 1 (set_geometry (4 * (200 - 40)) (500 - 20)
                      (set_size_changed 0
                         (set_timing (mkTiming 200 40 500 20) small_device))))
      (qemu_console_resize (mkDS 16 2560 0 ∅ []) (4 * (200 - 40)) (500 - 20)) /\
  forall s' ds',
    cg14_update_display
      (cg14_reg_writew
         (cg14_reg_writew
            (cg14_reg_writew
               (cg14_reg_writew small_device (0 + 0x0018) 200) (0 + 0x001a) 40)
            (0 + 0x0022) 500)
         (0 + 0x0024) 20) (mkDS 16 2560 0 ∅ [])
    = Some (s', ds') ->
    width s' = 4 * (200 - 40) /\ height s' = 500 - 20 /\ size_changed s' = 0.
Proof.
  apply (cg14_program_geometry small_device (mkDS 16 2560 0 ∅ []) 0 200 40 500 20);
    try lia; [reflexivity|].
  left. by vm_compute.
Defined.
